(** * RVVM: privilege engine, hart registry and ATA data port

    A shallow embedding of

    - [riscv32.c]: trap and interrupt delivery ([riscv32_trap],
      [riscv32_perform_interrupt], [riscv32_handle_ip]), the trap-vector
      jump, the event part of the hart loop, the global hart registry
      ([register_vm], [deregister_vm], [riscv32_create_vm]);
    - [threading.c]: [thread_create], [thread_kill];
    - [devices/ata.c]: the data and control port handlers and [ata_init].

    C integers are modelled as [Z] with their wrap-around written out:
    [uint32_t] values live in [0, 2^32), [uint16_t] in [0, 2^16) and
    [uint8_t] in [0, 2^8).  Small in-struct arrays ([edeleg[4]], [epc[4]],
    the register file) are total functions from the index to the element;
    the code only ever indexes them in range. *)

From Stdlib Require Import ZArith Bool List Lia String.
From stdpp Require Import base option list gmap.
Import ListNotations.

Local Open Scope Z_scope.

(** ** Machine integers *)

Module Word.

Definition wrap (w : Z) (z : Z) : Z := z mod 2 ^ w.
Definition wrap8 : Z -> Z := wrap 8.
Definition wrap16 : Z -> Z := wrap 16.
Definition wrap32 : Z -> Z := wrap 32.
Definition wrap64 : Z -> Z := wrap 64.

(** [x << n] on a 32-bit operand. *)
Definition shl32 (x n : Z) : Z := wrap32 (Z.shiftl x n).
(** [~x] on a 32-bit operand. *)
Definition not32 (x : Z) : Z := wrap32 (Z.lnot x).
(** [(1 << n)] as it is used for bit masks; the C expression is defined
    for [n < 32] only. *)
Definition bit (n : Z) : Z := shl32 1 n.

Definition u32 (z : Z) : Prop := 0 <= z < 2 ^ 32.

End Word.
Import Word.

(** ** Arrays indexed by a machine integer *)

Definition array (A : Type) : Type := Z -> A.

Definition aset {A} (a : array A) (i : Z) (v : A) : array A :=
  fun j => if j =? i then v else a j.

(** ** bit_ops.h *)

(** Modelled from the spec: bit_ops.h is not among the sources; the spec
    lists "bit extract/replace helpers".  [bit_mask n] is a mask of the [n]
    low bits, [bit_cut] extracts the field of [bits] bits at [pos],
    [bit_replace] overwrites that field with [rep] and [bit_check] tests
    one bit. *)
Definition bit_mask (n : Z) : Z := Z.ones n.

(** Modelled from the spec: bit_ops.h is not among the sources; the
    "bit extract" helper, [(val >> pos) & mask]. *)
Definition bit_cut (val pos bits : Z) : Z :=
  Z.land (Z.shiftr val pos) (bit_mask bits).

(** Modelled from the spec: bit_ops.h is not among the sources; the
    "bit replace" helper, on a 32-bit value. *)
Definition bit_replace (val pos bits rep : Z) : Z :=
  wrap32
    (Z.lor (Z.land val (Z.lnot (Z.shiftl (bit_mask bits) pos)))
           (Z.shiftl (Z.land rep (bit_mask bits)) pos)).

(** Modelled from the spec: bit_ops.h is not among the sources; the test
    of one bit. *)
Definition bit_check (val pos : Z) : bool := Z.testbit val pos.

(** ** riscv32.h: constants and the hart state *)

Definition REGISTER_PC : Z := 32.
Definition REGISTERS_MAX : Z := 33.

Definition PRIVILEGE_USER : Z := 0.
Definition PRIVILEGE_SUPERVISOR : Z := 1.
Definition PRIVILEGE_HYPERVISOR : Z := 2.
Definition PRIVILEGE_MACHINE : Z := 3.

Definition INTERRUPT_MASK : Z := 0x80000000.
Definition INTERRUPT_MTIMER : Z := 0x7.
Definition TRAP_ILL_INSTR : Z := 0x2.
Definition TRAP_ENVCALL_UMODE : Z := 0x8.

(** Modelled from the spec: rvtimer.h is not among the sources.  The spec
    has a "monotonic 10 MHz counter, compare register, pending predicate";
    the timer is pending once the counter has reached the compare
    register. *)
Record rvtimer_t := {
  rt_freq : Z;
  rt_time : Z;
  rt_timecmp : Z
}.

(** Modelled from the spec: rvtimer.h is not among the sources; a timer
    of the given frequency that has not started counting. *)
Definition rvtimer_init (freq : Z) : rvtimer_t :=
  {| rt_freq := freq; rt_time := 0; rt_timecmp := 0xFFFFFFFFFFFFFFFF |}.

(** Modelled from the spec: rvtimer.h is not among the sources; the
    "pending predicate", the counter has reached the compare register. *)
Definition rvtimer_pending (t : rvtimer_t) : bool := rt_timecmp t <=? rt_time t.

Record riscv32_phys_mem_t := {
  mem_begin : Z;
  mem_size : Z
}.

(** The handlers an MMIO region can carry.  The opaque [data] cookie is the
    address of the object the handler works on. *)
Inductive riscv32_mmio_handler_t :=
| clint_mmio_handler
| ata_data_handler
| ata_ctl_handler
| board_handler (id : Z).

Record riscv32_mmio_device_t := {
  base_addr : Z;
  end_addr : Z;
  handler : riscv32_mmio_handler_t;
  data : Z
}.

Record csr_t := {
  status : Z;
  edeleg : array Z;
  ideleg : array Z;
  ie : Z;
  tvec : array Z;
  counteren : array Z;
  scratch : array Z;
  epc : array Z;
  cause : array Z;
  tval : array Z;
  ip : Z;
  hartid : Z
}.

Record riscv32_vm_state_t := {
  wait_event : Z;
  registers : array Z;
  mem : riscv32_phys_mem_t;
  mmio : list riscv32_mmio_device_t;
  csr : csr_t;
  root_page_table : Z;
  mmu_virtual : bool;
  priv_mode : Z;
  timer : rvtimer_t;
  ev_trap : bool;
  ev_int : bool;
  ev_int_mask : Z
}.

(** Field updates, one per assignment form used by the code. *)
Module Upd.

Definition csr_status (v : Z) (c : csr_t) : csr_t :=
  {| status := v; edeleg := edeleg c; ideleg := ideleg c; ie := ie c;
     tvec := tvec c; counteren := counteren c; scratch := scratch c;
     epc := epc c; cause := cause c; tval := tval c; ip := ip c;
     hartid := hartid c |}.
Definition csr_edeleg (v : array Z) (c : csr_t) : csr_t :=
  {| status := status c; edeleg := v; ideleg := ideleg c; ie := ie c;
     tvec := tvec c; counteren := counteren c; scratch := scratch c;
     epc := epc c; cause := cause c; tval := tval c; ip := ip c;
     hartid := hartid c |}.
Definition csr_ideleg (v : array Z) (c : csr_t) : csr_t :=
  {| status := status c; edeleg := edeleg c; ideleg := v; ie := ie c;
     tvec := tvec c; counteren := counteren c; scratch := scratch c;
     epc := epc c; cause := cause c; tval := tval c; ip := ip c;
     hartid := hartid c |}.
Definition csr_epc (v : array Z) (c : csr_t) : csr_t :=
  {| status := status c; edeleg := edeleg c; ideleg := ideleg c; ie := ie c;
     tvec := tvec c; counteren := counteren c; scratch := scratch c;
     epc := v; cause := cause c; tval := tval c; ip := ip c;
     hartid := hartid c |}.
Definition csr_cause (v : array Z) (c : csr_t) : csr_t :=
  {| status := status c; edeleg := edeleg c; ideleg := ideleg c; ie := ie c;
     tvec := tvec c; counteren := counteren c; scratch := scratch c;
     epc := epc c; cause := v; tval := tval c; ip := ip c;
     hartid := hartid c |}.
Definition csr_tval (v : array Z) (c : csr_t) : csr_t :=
  {| status := status c; edeleg := edeleg c; ideleg := ideleg c; ie := ie c;
     tvec := tvec c; counteren := counteren c; scratch := scratch c;
     epc := epc c; cause := cause c; tval := v; ip := ip c;
     hartid := hartid c |}.
Definition csr_ip (v : Z) (c : csr_t) : csr_t :=
  {| status := status c; edeleg := edeleg c; ideleg := ideleg c; ie := ie c;
     tvec := tvec c; counteren := counteren c; scratch := scratch c;
     epc := epc c; cause := cause c; tval := tval c; ip := v;
     hartid := hartid c |}.
Definition csr_hartid (v : Z) (c : csr_t) : csr_t :=
  {| status := status c; edeleg := edeleg c; ideleg := ideleg c; ie := ie c;
     tvec := tvec c; counteren := counteren c; scratch := scratch c;
     epc := epc c; cause := cause c; tval := tval c; ip := ip c;
     hartid := v |}.

Definition vm_wait_event (v : Z) (s : riscv32_vm_state_t) :=
  {| wait_event := v; registers := registers s; mem := mem s;
     mmio := mmio s; csr := csr s; root_page_table := root_page_table s;
     mmu_virtual := mmu_virtual s; priv_mode := priv_mode s;
     timer := timer s; ev_trap := ev_trap s; ev_int := ev_int s;
     ev_int_mask := ev_int_mask s |}.
Definition vm_registers (v : array Z) (s : riscv32_vm_state_t) :=
  {| wait_event := wait_event s; registers := v; mem := mem s;
     mmio := mmio s; csr := csr s; root_page_table := root_page_table s;
     mmu_virtual := mmu_virtual s; priv_mode := priv_mode s;
     timer := timer s; ev_trap := ev_trap s; ev_int := ev_int s;
     ev_int_mask := ev_int_mask s |}.
Definition vm_mem (v : riscv32_phys_mem_t) (s : riscv32_vm_state_t) :=
  {| wait_event := wait_event s; registers := registers s; mem := v;
     mmio := mmio s; csr := csr s; root_page_table := root_page_table s;
     mmu_virtual := mmu_virtual s; priv_mode := priv_mode s;
     timer := timer s; ev_trap := ev_trap s; ev_int := ev_int s;
     ev_int_mask := ev_int_mask s |}.
Definition vm_mmio (v : list riscv32_mmio_device_t) (s : riscv32_vm_state_t) :=
  {| wait_event := wait_event s; registers := registers s; mem := mem s;
     mmio := v; csr := csr s; root_page_table := root_page_table s;
     mmu_virtual := mmu_virtual s; priv_mode := priv_mode s;
     timer := timer s; ev_trap := ev_trap s; ev_int := ev_int s;
     ev_int_mask := ev_int_mask s |}.
Definition vm_csr (v : csr_t) (s : riscv32_vm_state_t) :=
  {| wait_event := wait_event s; registers := registers s; mem := mem s;
     mmio := mmio s; csr := v; root_page_table := root_page_table s;
     mmu_virtual := mmu_virtual s; priv_mode := priv_mode s;
     timer := timer s; ev_trap := ev_trap s; ev_int := ev_int s;
     ev_int_mask := ev_int_mask s |}.
Definition vm_mmu_virtual (v : bool) (s : riscv32_vm_state_t) :=
  {| wait_event := wait_event s; registers := registers s; mem := mem s;
     mmio := mmio s; csr := csr s; root_page_table := root_page_table s;
     mmu_virtual := v; priv_mode := priv_mode s;
     timer := timer s; ev_trap := ev_trap s; ev_int := ev_int s;
     ev_int_mask := ev_int_mask s |}.
Definition vm_priv_mode (v : Z) (s : riscv32_vm_state_t) :=
  {| wait_event := wait_event s; registers := registers s; mem := mem s;
     mmio := mmio s; csr := csr s; root_page_table := root_page_table s;
     mmu_virtual := mmu_virtual s; priv_mode := v;
     timer := timer s; ev_trap := ev_trap s; ev_int := ev_int s;
     ev_int_mask := ev_int_mask s |}.
Definition vm_timer (v : rvtimer_t) (s : riscv32_vm_state_t) :=
  {| wait_event := wait_event s; registers := registers s; mem := mem s;
     mmio := mmio s; csr := csr s; root_page_table := root_page_table s;
     mmu_virtual := mmu_virtual s; priv_mode := priv_mode s;
     timer := v; ev_trap := ev_trap s; ev_int := ev_int s;
     ev_int_mask := ev_int_mask s |}.
Definition vm_ev_trap (v : bool) (s : riscv32_vm_state_t) :=
  {| wait_event := wait_event s; registers := registers s; mem := mem s;
     mmio := mmio s; csr := csr s; root_page_table := root_page_table s;
     mmu_virtual := mmu_virtual s; priv_mode := priv_mode s;
     timer := timer s; ev_trap := v; ev_int := ev_int s;
     ev_int_mask := ev_int_mask s |}.
Definition vm_ev_int (v : bool) (s : riscv32_vm_state_t) :=
  {| wait_event := wait_event s; registers := registers s; mem := mem s;
     mmio := mmio s; csr := csr s; root_page_table := root_page_table s;
     mmu_virtual := mmu_virtual s; priv_mode := priv_mode s;
     timer := timer s; ev_trap := ev_trap s; ev_int := v;
     ev_int_mask := ev_int_mask s |}.

End Upd.

(** ** riscv32i_registers.h *)

(** Modelled from the spec: riscv32i_registers.h is not among the sources.
    The hart is a 32-bit one: a register is read as a 32-bit value and a
    write stores the 32-bit value it is given. *)
Definition riscv32i_read_register_u (vm : riscv32_vm_state_t) (reg : Z) : Z :=
  wrap32 (registers vm reg).

(** Modelled from the spec: riscv32i_registers.h is not among the sources;
    the write of a 32-bit value to a register. *)
Definition riscv32i_write_register_u (vm : riscv32_vm_state_t) (reg v : Z)
  : riscv32_vm_state_t :=
  Upd.vm_registers (aset (registers vm) reg (wrap32 v)) vm.

(** ** riscv32.c: trap and interrupt delivery *)

(** The delegation loop shared by [riscv32_trap] and
    [riscv32_perform_interrupt]:
    [for (priv = ...; priv > floor; --priv)
       if ((deleg[priv] & (1 << cause)) == 0) break;]
    The recursion is on the value of the loop variable [priv]; at [priv = 0]
    the test [priv > floor] fails for every unsigned [floor]. *)
Fixpoint deleg_scan (deleg : array Z) (floor cause : Z) (priv : nat) : Z :=
  match priv with
  | O => 0
  | S lower =>
      if Z.of_nat priv >? floor then
        if Z.land (deleg (Z.of_nat priv)) (bit cause) =? 0
        then Z.of_nat priv
        else deleg_scan deleg floor cause lower
      else Z.of_nat priv
  end.

(** Saving the privilege mode and the interrupt-enable bit, as both
    delivery functions do after the delegation loop. *)
Definition save_status (st priv cur : Z) : Z :=
  if priv =? PRIVILEGE_MACHINE then
    let st1 := bit_replace st 11 2 cur in
    let st2 := bit_replace st1 7 1 (bit_cut st1 3 1) in
    Z.land st2 0xFFFFFFF7
  else if priv =? PRIVILEGE_SUPERVISOR then
    let st1 := bit_replace st 8 1 cur in
    let st2 := bit_replace st1 5 1 (bit_cut st1 1 1) in
    Z.land st2 0xFFFFFFFD
  else st.

Definition trap_target (vm : riscv32_vm_state_t) (c : Z) : Z :=
  deleg_scan (edeleg (csr vm)) (priv_mode vm) c (Z.to_nat PRIVILEGE_MACHINE).

Definition riscv32_trap (vm : riscv32_vm_state_t) (c tv : Z)
  : riscv32_vm_state_t :=
  let priv := trap_target vm c in
  let k := csr vm in
  let k := Upd.csr_epc (aset (epc k) priv (riscv32i_read_register_u vm REGISTER_PC)) k in
  let k := Upd.csr_cause (aset (cause k) priv c) k in
  let k := Upd.csr_tval (aset (tval k) priv tv) k in
  let k := Upd.csr_status (save_status (status k) priv (priv_mode vm)) k in
  let vm := Upd.vm_csr k vm in
  let vm := Upd.vm_priv_mode priv vm in
  let vm := Upd.vm_ev_trap true vm in
  Upd.vm_wait_event 0 vm.

Definition interrupt_target (vm : riscv32_vm_state_t) (c : Z) : Z :=
  deleg_scan (ideleg (csr vm)) (Z.land c 0x3) c (Z.to_nat PRIVILEGE_MACHINE).

Definition riscv32_perform_interrupt (vm : riscv32_vm_state_t) (c : Z)
  : riscv32_vm_state_t :=
  let priv := interrupt_target vm c in
  let k := csr vm in
  let k := Upd.csr_epc (aset (epc k) priv (riscv32i_read_register_u vm REGISTER_PC)) k in
  let k := Upd.csr_cause (aset (cause k) priv (Z.lor c INTERRUPT_MASK)) k in
  let k := Upd.csr_tval (aset (tval k) priv 0) k in
  let k := Upd.csr_status (save_status (status k) priv (priv_mode vm)) k in
  let vm := Upd.vm_csr k vm in
  let vm := Upd.vm_priv_mode priv vm in
  Upd.vm_wait_event 0 vm.

(** The body of the loop of [riscv32_handle_ip] up to the decision to
    deliver interrupt [i]. *)
Definition ip_allows (vm : riscv32_vm_state_t) (wfi : bool) (i : Z) : bool :=
  let imask := bit i in
  if negb (Z.land (ip (csr vm)) imask =? 0) then
    let priv := wrap8 (Z.land i 3) in
    let iallow := priv >? priv_mode vm in
    let iallow :=
      if negb iallow
      then (priv =? priv_mode vm)
           && (negb (Z.land (status (csr vm)) (bit priv) =? 0) || wfi)
      else iallow in
    negb (Z.land (ie (csr vm)) imask =? 0) && iallow
  else false.

(** [for (i = 11; i > 0; --i)]: the first [i], from [n] downwards, that is
    delivered. *)
Fixpoint ip_scan (vm : riscv32_vm_state_t) (wfi : bool) (n : nat) : option Z :=
  match n with
  | O => None
  | S m =>
      if ip_allows vm wfi (Z.of_nat n) then Some (Z.of_nat n)
      else ip_scan vm wfi m
  end.

Definition riscv32_handle_ip (vm : riscv32_vm_state_t) (wfi : bool)
  : bool * riscv32_vm_state_t :=
  if negb (ip (csr vm) =? 0) then
    match ip_scan vm wfi 11 with
    | Some i =>
        let vm :=
          if wfi then
            let vm := riscv32i_write_register_u vm REGISTER_PC
                        (riscv32i_read_register_u vm REGISTER_PC + 4) in
            Upd.vm_ev_trap true vm
          else vm in
        (true, riscv32_perform_interrupt vm i)
    | None => (false, vm)
    end
  else (false, vm).

(** ** riscv32.c: the trap-vector jump and the hart loop *)

Definition riscv32_trap_jump (vm : riscv32_vm_state_t) : riscv32_vm_state_t :=
  let pc := Z.land (tvec (csr vm) (priv_mode vm)) (not32 3) in
  let pc :=
    if negb (Z.land (tvec (csr vm) (priv_mode vm)) 1 =? 0)
    then wrap64 (pc + shl32 (cause (csr vm) (priv_mode vm)) 2)
    else pc in
  riscv32i_write_register_u vm REGISTER_PC pc.

(** The timer reconciliation of the hart loop:
    [if (ip & (1 << INTERRUPT_MTIMER)) if (!rvtimer_pending(..)) ip &= ~(1 << INTERRUPT_MTIMER);] *)
Definition reconcile_timer (vm : riscv32_vm_state_t) : riscv32_vm_state_t :=
  if negb (Z.land (ip (csr vm)) (bit INTERRUPT_MTIMER) =? 0) then
    if negb (rvtimer_pending (timer vm)) then
      Upd.vm_csr
        (Upd.csr_ip (Z.land (ip (csr vm)) (not32 (bit INTERRUPT_MTIMER))) (csr vm))
        vm
    else vm
  else vm.

Definition fold_ev_int_mask (vm : riscv32_vm_state_t) : riscv32_vm_state_t :=
  Upd.vm_csr (Upd.csr_ip (Z.lor (ip (csr vm)) (ev_int_mask vm)) (csr vm)) vm.

(** What one iteration of the loop of [riscv32_run_impl] does once
    [riscv32_run_till_event] has returned. *)
Definition run_events (vm : riscv32_vm_state_t) : riscv32_vm_state_t :=
  if ev_trap vm then
    riscv32_trap_jump (Upd.vm_ev_trap false vm)
  else if ev_int vm then
    let vm := fold_ev_int_mask vm in
    let vm := reconcile_timer vm in
    let vm := Upd.vm_ev_int false vm in
    let '(fired, vm) := riscv32_handle_ip vm false in
    if fired then riscv32_trap_jump vm else vm
  else vm.

(** One iteration of [while (true)] in [riscv32_run_impl]; the instruction
    engine [riscv32_run_till_event] is a parameter. *)
Definition run_iteration
    (riscv32_run_till_event : riscv32_vm_state_t -> riscv32_vm_state_t)
    (vm : riscv32_vm_state_t) : riscv32_vm_state_t :=
  run_events (riscv32_run_till_event (Upd.vm_wait_event 1 vm)).

(** ** threading.c and the process-wide state of riscv32.c *)

(** Pointers are addresses, [NULL] is [0].  Hart states live in a heap; the
    registry holds their addresses, as the C array of pointers does. *)
Definition NULL : Z := 0.

Definition MAX_VMS : Z := 256.

(** What the host does on behalf of the thread functions. *)
Inductive host_event :=
| ev_pthread_create (handle : Z)
| ev_thread_kill (handle : Z)
| ev_pthread_cancel (handle : Z).

Record machine := {
  global_vm_list : list Z;
  global_vm_count : Z;
  global_irq_thread : Z;
  global_screen_count : Z;
  global_init : bool;
  heap : gmap Z riscv32_vm_state_t;
  host_log : list host_event
}.

(** The answers of the host and of the parts of the board that are outside
    these sources: the two allocations, [riscv32_init_phys_mem], the regions
    the board devices register in [devices_init], and the CLINT window
    constants of clint.h. *)
Record host_env := {
  calloc_vm : Z;
  malloc_thread : Z;
  phys_mem_ok : bool;
  board_regions : list riscv32_mmio_device_t;
  CLINT_BASE_ADDR : Z;
  CLINT_LEN : Z
}.

Module UpdM.

Definition vm_list (v : list Z) (w : machine) : machine :=
  {| global_vm_list := v; global_vm_count := global_vm_count w;
     global_irq_thread := global_irq_thread w;
     global_screen_count := global_screen_count w;
     global_init := global_init w; heap := heap w; host_log := host_log w |}.
Definition vm_count (v : Z) (w : machine) : machine :=
  {| global_vm_list := global_vm_list w; global_vm_count := v;
     global_irq_thread := global_irq_thread w;
     global_screen_count := global_screen_count w;
     global_init := global_init w; heap := heap w; host_log := host_log w |}.
Definition irq_thread (v : Z) (w : machine) : machine :=
  {| global_vm_list := global_vm_list w; global_vm_count := global_vm_count w;
     global_irq_thread := v;
     global_screen_count := global_screen_count w;
     global_init := global_init w; heap := heap w; host_log := host_log w |}.
Definition screen_count (v : Z) (w : machine) : machine :=
  {| global_vm_list := global_vm_list w; global_vm_count := global_vm_count w;
     global_irq_thread := global_irq_thread w;
     global_screen_count := v;
     global_init := global_init w; heap := heap w; host_log := host_log w |}.
Definition init (v : bool) (w : machine) : machine :=
  {| global_vm_list := global_vm_list w; global_vm_count := global_vm_count w;
     global_irq_thread := global_irq_thread w;
     global_screen_count := global_screen_count w;
     global_init := v; heap := heap w; host_log := host_log w |}.
Definition hp (v : gmap Z riscv32_vm_state_t) (w : machine) : machine :=
  {| global_vm_list := global_vm_list w; global_vm_count := global_vm_count w;
     global_irq_thread := global_irq_thread w;
     global_screen_count := global_screen_count w;
     global_init := global_init w; heap := v; host_log := host_log w |}.
Definition log (e : host_event) (w : machine) : machine :=
  {| global_vm_list := global_vm_list w; global_vm_count := global_vm_count w;
     global_irq_thread := global_irq_thread w;
     global_screen_count := global_screen_count w;
     global_init := global_init w; heap := heap w;
     host_log := host_log w ++ [e] |}.

End UpdM.

(** The state of the process before the first call of
    [riscv32_create_vm]: the statics are zero-initialised. *)
Definition machine_init : machine :=
  {| global_vm_list := replicate (Z.to_nat MAX_VMS) NULL;
     global_vm_count := 0;
     global_irq_thread := NULL;
     global_screen_count := 0;
     global_init := false;
     heap := ∅;
     host_log := [] |}.

(** [thread_create]: the handle is a [malloc]ed cell; the thread is started
    only when the allocation succeeded. *)
Definition thread_create (env : host_env) (w : machine) : Z * machine :=
  let handle := malloc_thread env in
  if negb (handle =? NULL)
  then (handle, UpdM.log (ev_pthread_create handle) w)
  else (handle, w).

(** [thread_kill]: a [NULL] handle is ignored, any other is cancelled and
    freed. *)
Definition thread_kill (w : machine) (handle : Z) : machine :=
  let w := UpdM.log (ev_thread_kill handle) w in
  if handle =? NULL then w
  else UpdM.log (ev_pthread_cancel handle) w.

(** Modelled from the spec: riscv32_mmu.c is not among the sources;
    [riscv32_mmio_add_device] "inserts a region" and "registration order
    defines iteration order". *)
Definition riscv32_mmio_add_device (vm : riscv32_vm_state_t)
    (base e : Z) (h : riscv32_mmio_handler_t) (cookie : Z)
  : riscv32_vm_state_t :=
  Upd.vm_mmio
    (mmio vm ++ [ {| base_addr := base; end_addr := e; handler := h;
                     data := cookie |} ])
    vm.

(** A hart state as [calloc] returns it. *)
Definition vm_zero : riscv32_vm_state_t :=
  {| wait_event := 0;
     registers := fun _ => 0;
     mem := {| mem_begin := 0; mem_size := 0 |};
     mmio := [];
     csr := {| status := 0; edeleg := fun _ => 0; ideleg := fun _ => 0;
               ie := 0; tvec := fun _ => 0; counteren := fun _ => 0;
               scratch := fun _ => 0; epc := fun _ => 0; cause := fun _ => 0;
               tval := fun _ => 0; ip := 0; hartid := 0 |};
     root_page_table := 0;
     mmu_virtual := false;
     priv_mode := 0;
     timer := {| rt_freq := 0; rt_time := 0; rt_timecmp := 0 |};
     ev_trap := false;
     ev_int := false;
     ev_int_mask := 0 |}.

(** [register_vm]; the hart state is updated through its address. *)
Definition register_vm (w : machine) (vm : Z) (hid : Z) : bool * machine :=
  if hid >=? MAX_VMS then (false, w)
  else
    let w := UpdM.vm_list (<[Z.to_nat hid := vm]> (global_vm_list w)) w in
    let w := UpdM.hp
               (alter (fun s => Upd.vm_csr (Upd.csr_hartid hid (csr s)) s)
                      vm (heap w)) w in
    let w := UpdM.vm_count (wrap64 (global_vm_count w + 1)) w in
    (true, w).

(** [deregister_vm].  [None] stands for undefined behaviour: the hart
    address is dereferenced. *)
Definition deregister_vm (w : machine) (vm : Z) : option machine :=
  s ← heap w !! vm;
  let w := UpdM.vm_list
             (<[Z.to_nat (hartid (csr s)) := NULL]> (global_vm_list w)) w in
  Some (if global_vm_count w =? 0
        then thread_kill w (global_irq_thread w)
        else w).

(** [devices_init] on the hart at [vm]. *)
Definition devices_init (env : host_env) (w : machine) (vm : Z)
  : bool * machine :=
  if negb (phys_mem_ok env) then (false, w)
  else
    let w := UpdM.hp
               (alter (fun s =>
                         Upd.vm_mmio (mmio s ++ board_regions env)
                           (Upd.vm_mem {| mem_begin := 0x80000000;
                                          mem_size := 0x10000 * 4096 |} s))
                      vm (heap w)) w in
    let w := UpdM.screen_count (global_screen_count w + 1) w in
    (true, w).

(** The registered harts, in slot order. *)
Definition registered (w : machine) : list Z :=
  filter (fun p => p <> NULL) (global_vm_list w).

Definition clint_region (env : host_env) (hid : Z) (cookie : Z)
  : riscv32_vm_state_t -> riscv32_vm_state_t :=
  fun s =>
    riscv32_mmio_add_device s
      (wrap32 (CLINT_BASE_ADDR env + CLINT_LEN env * hid))
      (wrap32 (CLINT_BASE_ADDR env + CLINT_LEN env * (hid + 1)))
      clint_mmio_handler cookie.

(** The assignments of [riscv32_create_vm] between the device set-up and
    the registration: the hart's own CLINT window, the timer, and the
    reset values of the privilege state. *)
Definition hart_reset (env : host_env) (hid vm : Z)
  : riscv32_vm_state_t -> riscv32_vm_state_t :=
  fun s =>
    let s := clint_region env hid vm s in
    let s := Upd.vm_timer (rvtimer_init 10000000) s in
    let s := Upd.vm_mmu_virtual false s in
    let s := Upd.vm_priv_mode PRIVILEGE_MACHINE s in
    let k := csr s in
    let k := Upd.csr_edeleg (aset (edeleg k) PRIVILEGE_HYPERVISOR 0xFFFFFFFF) k in
    let k := Upd.csr_ideleg (aset (ideleg k) PRIVILEGE_HYPERVISOR 0xFFFFFFFF) k in
    let s := Upd.vm_csr k s in
    Upd.vm_registers (aset (registers s) REGISTER_PC (mem_begin (mem s))) s.

(** The [else] branch of the [global_init] test: the memory and the MMIO
    table are copied from the first registered hart, and every registered
    hart gets the CLINT window of the new one. *)
Definition share_devices (env : host_env) (w : machine) (hid vm : Z)
  : option machine :=
  parent_vm ← head (registered w);
  parent ← heap w !! parent_vm;
  let w := UpdM.hp
             (alter (fun s => Upd.vm_mmio (mmio parent)
                                (Upd.vm_mem (mem parent) s))
                    vm (heap w)) w in
  Some (UpdM.hp
          (foldl (fun h p => alter (clint_region env hid vm) p h)
                 (heap w) (registered w)) w).

(** [riscv32_create_vm].  The result is the returned pointer ([NULL] on
    failure) and the new process state; [None] stands for undefined
    behaviour (the dereference of a [NULL] [parent_vm]).  [inl] is the
    jump to [err]. *)
Definition riscv32_create_vm (env : host_env) (w : machine) (hid : Z)
  : option (Z * machine) :=
  if hid >=? MAX_VMS then Some (NULL, w)
  else
    let vm := calloc_vm env in
    if vm =? NULL then Some (NULL, w)
    else
      let w := UpdM.hp (<[vm := vm_zero]> (heap w)) w in
      let err (w : machine) := (NULL, UpdM.hp (delete vm (heap w)) w) in
      r ← (if negb (global_init w) then
             let '(ok, w) := devices_init env w vm in
             if negb ok then Some (inl w)
             else
               let '(h, w) := thread_create env w in
               let w := UpdM.irq_thread h w in
               Some (inr (UpdM.init true w))
           else
             w ← share_devices env w hid vm;
             Some (inr w));
      match r with
      | inl w => Some (err w)
      | inr w =>
          let w := UpdM.hp (alter (hart_reset env hid vm) vm (heap w)) w in
          let '(ok, w) := register_vm w vm hid in
          if negb ok then Some (err w) else Some (vm, w)
      end.

(** ** devices/ata.c *)

Module ATA.

(** *** The C library's files *)

(** A [FILE] is its contents, its position and whether it can be seeked and
    written.  A [FILE *] is an address into the table of open files;
    [None] below stands for undefined behaviour (a [NULL] or stale
    stream). *)
Record FILE := {
  f_bytes : list Z;
  f_pos : Z;
  f_seekable : bool;
  f_writable : bool
}.

Definition set_pos (p : Z) (f : FILE) : FILE :=
  {| f_bytes := f_bytes f; f_pos := p; f_seekable := f_seekable f;
     f_writable := f_writable f |}.

Definition set_bytes (b : list Z) (f : FILE) : FILE :=
  {| f_bytes := b; f_pos := f_pos f; f_seekable := f_seekable f;
     f_writable := f_writable f |}.

Definition stream (fs : gmap Z FILE) (fp : Z) : option FILE :=
  if fp =? NULL then None else fs !! fp.

(** [fseek(fp, off, SEEK_SET)] *)
Definition fseek_set (fs : gmap Z FILE) (fp off : Z) : option (Z * gmap Z FILE) :=
  f ← stream fs fp;
  if f_seekable f && (0 <=? off)
  then Some (0, <[fp := set_pos off f]> fs)
  else Some (-1, fs).

(** [fseek(fp, 0, SEEK_END)] *)
Definition fseek_end (fs : gmap Z FILE) (fp : Z) : option (Z * gmap Z FILE) :=
  f ← stream fs fp;
  if f_seekable f
  then Some (0, <[fp := set_pos (Z.of_nat (length (f_bytes f))) f]> fs)
  else Some (-1, fs).

Definition ftell (fs : gmap Z FILE) (fp : Z) : option Z :=
  f ← stream fs fp;
  Some (if f_seekable f then f_pos f else -1).

(** [fread(dst, n, 1, fp)]: the number of whole items read, the bytes that
    reached [dst], and the new table. *)
Definition fread1 (fs : gmap Z FILE) (fp : Z) (n : Z)
  : option (Z * list Z * gmap Z FILE) :=
  f ← stream fs fp;
  let got := take (Z.to_nat n) (drop (Z.to_nat (f_pos f)) (f_bytes f)) in
  let k := Z.of_nat (length got) in
  Some (if k =? n then 1 else 0, got, <[fp := set_pos (f_pos f + k) f]> fs).

(** [fwrite(src, n, 1, fp)] with [src] holding [n] bytes. *)
Definition fwrite1 (fs : gmap Z FILE) (fp : Z) (src : list Z)
  : option (Z * gmap Z FILE) :=
  f ← stream fs fp;
  if f_writable f then
    let p := Z.to_nat (f_pos f) in
    let old := f_bytes f in
    let padded := old ++ replicate (p - length old) 0 in
    let new := take p padded ++ src ++ drop (p + length src) old in
    Some (1, <[fp := set_pos (f_pos f + Z.of_nat (length src))
                       (set_bytes new f)]> fs)
  else Some (0, fs).

(** *** The device *)

Definition ATA_REG_DATA : Z := 0x00.
Definition ATA_REG_ERR : Z := 0x01.
Definition ATA_REG_NSECT : Z := 0x02.
Definition ATA_REG_LBAL : Z := 0x03.
Definition ATA_REG_LBAM : Z := 0x04.
Definition ATA_REG_LBAH : Z := 0x05.
Definition ATA_REG_DEVICE : Z := 0x06.
Definition ATA_REG_STATUS : Z := 0x07.
Definition ATA_REG_CTL : Z := 0x00.
Definition ATA_REG_DRVADDR : Z := 0x01.
Definition ATA_REG_SHIFT : Z := 2.

Definition ATA_ERR_AMNF : Z := 1.
Definition ATA_ERR_ABRT : Z := 4.
Definition ATA_ERR_UNC : Z := 64.

Definition ATA_STATUS_ERR : Z := 1.
Definition ATA_STATUS_DRQ : Z := 8.
Definition ATA_STATUS_SRV : Z := 16.
Definition ATA_STATUS_RDY : Z := 64.

Definition ATA_CMD_IDENTIFY : Z := 0xEC.
Definition ATA_CMD_INITIALIZE_DEVICE_PARAMS : Z := 0x91.
Definition ATA_CMD_READ_SECTORS : Z := 0x20.
Definition ATA_CMD_WRITE_SECTORS : Z := 0x30.

Definition SECTOR_SIZE : Z := 512.

Definition DIV_ROUND_UP (x d : Z) : Z := wrap64 (x + d - 1) / d.

(** Modelled from the spec: riscv32_mmu.h is not among the sources; a
    handler is called with "access ∈ {read, write}". *)
Inductive mmu_access := MMU_READ | MMU_WRITE.

Definition is_write (a : mmu_access) : bool :=
  match a with MMU_WRITE => true | MMU_READ => false end.

(** One element of [drive[2]]; the C field [drive] (the DRIVE/HEAD
    register) is [drive_reg] here, the array keeps the name [drive]. *)
Record drive_t := {
  fp : Z;
  size : Z;
  bytes_to_rw : Z;
  sectcount : Z;
  lbal : Z;
  lbam : Z;
  lbah : Z;
  drive_reg : Z;
  error : Z;
  status : Z;
  hob_shift : Z;
  buf : list Z
}.

Record ata_dev := {
  drive : array drive_t;
  curdrive : Z
}.

Definition set_fp (v : Z) (d : drive_t) : drive_t :=
  {| fp := v; size := size d; bytes_to_rw := bytes_to_rw d;
     sectcount := sectcount d; lbal := lbal d; lbam := lbam d;
     lbah := lbah d; drive_reg := drive_reg d; error := error d;
     status := status d; hob_shift := hob_shift d; buf := buf d |}.
Definition set_size (v : Z) (d : drive_t) : drive_t :=
  {| fp := fp d; size := v; bytes_to_rw := bytes_to_rw d;
     sectcount := sectcount d; lbal := lbal d; lbam := lbam d;
     lbah := lbah d; drive_reg := drive_reg d; error := error d;
     status := status d; hob_shift := hob_shift d; buf := buf d |}.
Definition set_bytes_to_rw (v : Z) (d : drive_t) : drive_t :=
  {| fp := fp d; size := size d; bytes_to_rw := v; sectcount := sectcount d;
     lbal := lbal d; lbam := lbam d; lbah := lbah d;
     drive_reg := drive_reg d; error := error d; status := status d;
     hob_shift := hob_shift d; buf := buf d |}.
Definition set_sectcount (v : Z) (d : drive_t) : drive_t :=
  {| fp := fp d; size := size d; bytes_to_rw := bytes_to_rw d;
     sectcount := v; lbal := lbal d; lbam := lbam d; lbah := lbah d;
     drive_reg := drive_reg d; error := error d; status := status d;
     hob_shift := hob_shift d; buf := buf d |}.
Definition set_lbal (v : Z) (d : drive_t) : drive_t :=
  {| fp := fp d; size := size d; bytes_to_rw := bytes_to_rw d;
     sectcount := sectcount d; lbal := v; lbam := lbam d; lbah := lbah d;
     drive_reg := drive_reg d; error := error d; status := status d;
     hob_shift := hob_shift d; buf := buf d |}.
Definition set_lbam (v : Z) (d : drive_t) : drive_t :=
  {| fp := fp d; size := size d; bytes_to_rw := bytes_to_rw d;
     sectcount := sectcount d; lbal := lbal d; lbam := v; lbah := lbah d;
     drive_reg := drive_reg d; error := error d; status := status d;
     hob_shift := hob_shift d; buf := buf d |}.
Definition set_lbah (v : Z) (d : drive_t) : drive_t :=
  {| fp := fp d; size := size d; bytes_to_rw := bytes_to_rw d;
     sectcount := sectcount d; lbal := lbal d; lbam := lbam d; lbah := v;
     drive_reg := drive_reg d; error := error d; status := status d;
     hob_shift := hob_shift d; buf := buf d |}.
Definition set_drive_reg (v : Z) (d : drive_t) : drive_t :=
  {| fp := fp d; size := size d; bytes_to_rw := bytes_to_rw d;
     sectcount := sectcount d; lbal := lbal d; lbam := lbam d;
     lbah := lbah d; drive_reg := v; error := error d; status := status d;
     hob_shift := hob_shift d; buf := buf d |}.
Definition set_error (v : Z) (d : drive_t) : drive_t :=
  {| fp := fp d; size := size d; bytes_to_rw := bytes_to_rw d;
     sectcount := sectcount d; lbal := lbal d; lbam := lbam d;
     lbah := lbah d; drive_reg := drive_reg d; error := v;
     status := status d; hob_shift := hob_shift d; buf := buf d |}.
Definition set_status (v : Z) (d : drive_t) : drive_t :=
  {| fp := fp d; size := size d; bytes_to_rw := bytes_to_rw d;
     sectcount := sectcount d; lbal := lbal d; lbam := lbam d;
     lbah := lbah d; drive_reg := drive_reg d; error := error d; status := v;
     hob_shift := hob_shift d; buf := buf d |}.
Definition set_hob_shift (v : Z) (d : drive_t) : drive_t :=
  {| fp := fp d; size := size d; bytes_to_rw := bytes_to_rw d;
     sectcount := sectcount d; lbal := lbal d; lbam := lbam d;
     lbah := lbah d; drive_reg := drive_reg d; error := error d;
     status := status d; hob_shift := v; buf := buf d |}.
Definition set_buf (v : list Z) (d : drive_t) : drive_t :=
  {| fp := fp d; size := size d; bytes_to_rw := bytes_to_rw d;
     sectcount := sectcount d; lbal := lbal d; lbam := lbam d;
     lbah := lbah d; drive_reg := drive_reg d; error := error d;
     status := status d; hob_shift := hob_shift d; buf := v |}.

Definition cur (ata : ata_dev) : drive_t := drive ata (curdrive ata).

(** [ata->drive[ata->curdrive].field = ...] *)
Definition on_cur (f : drive_t -> drive_t) (ata : ata_dev) : ata_dev :=
  {| drive := aset (drive ata) (curdrive ata) (f (cur ata));
     curdrive := curdrive ata |}.

Definition drive_zero : drive_t :=
  {| fp := NULL; size := 0; bytes_to_rw := 0; sectcount := 0; lbal := 0;
     lbam := 0; lbah := 0; drive_reg := 0; error := 0; status := 0;
     hob_shift := 0; buf := replicate (Z.to_nat SECTOR_SIZE) 0 |}.

Definition ata_zero : ata_dev :=
  {| drive := fun _ => drive_zero; curdrive := 0 |}.

Definition ata_get_lba (ata : ata_dev) (is48bit : bool) : Z :=
  let d := cur ata in
  if is48bit then
    wrap64
      (Z.lor (bit_cut (lbal d) 0 8)
      (Z.lor (Z.shiftl (bit_cut (lbam d) 0 8) 8)
      (Z.lor (Z.shiftl (bit_cut (lbah d) 0 8) 16)
      (Z.lor (Z.shiftl (bit_cut (lbal d) 8 8) 24)
      (Z.lor (Z.shiftl (bit_cut (lbam d) 8 8) 32)
             (Z.shiftl (bit_cut (lbah d) 8 8) 40))))))
  else
    wrap64
      (Z.lor (bit_cut (lbal d) 0 8)
      (Z.lor (Z.shiftl (bit_cut (lbam d) 0 8) 8)
      (Z.lor (Z.shiftl (bit_cut (lbah d) 0 8) 16)
             (Z.shiftl (bit_cut (drive_reg d) 0 4) 24)))).

(** The designated initialiser of [id_buf], word by word. *)
Definition id_word (sz : Z) (i : Z) : Z :=
  let lo := if sz >? 0xffffffff then 0xffff else Z.land sz 0xffff in
  let hi := if sz >? 0xffffffff then 0xffff else wrap16 (Z.shiftr sz 16) in
  if i =? 0 then 64 else
  if i =? 1 then 65535 else
  if i =? 3 then 16 else
  if i =? 6 then 63 else
  if i =? 22 then 4 else
  if i =? 47 then 0 else
  if i =? 49 then 512 else
  if i =? 50 then 16384 else
  if i =? 51 then 1024 else
  if i =? 53 then 3 else
  if i =? 54 then 65535 else
  if i =? 55 then 16 else
  if i =? 56 then 63 else
  if i =? 57 then lo else
  if i =? 58 then hi else
  if i =? 60 then lo else
  if i =? 61 then hi else
  if i =? 64 then 3 else
  if i =? 67 then 1 else
  if i =? 68 then 1 else 0.

(** [id_buf] as the bytes [memcpy] sees on a little-endian host. *)
Definition id_buf (sz : Z) : list Z :=
  flat_map (fun i => let w := id_word sz (Z.of_nat i) in [w mod 256; w / 256])
           (seq 0 (Z.to_nat (SECTOR_SIZE / 2))).

Definition ata_cmd_identify (ata : ata_dev) : ata_dev :=
  let ata := on_cur (set_buf (id_buf (size (cur ata)))) ata in
  let ata := on_cur (set_bytes_to_rw SECTOR_SIZE) ata in
  let ata := on_cur (set_status
                       (Z.lor ATA_STATUS_RDY (Z.lor ATA_STATUS_SRV ATA_STATUS_DRQ)))
                    ata in
  on_cur (set_sectcount 1) ata.

Definition ata_cmd_initialize_device_params (ata : ata_dev) : ata_dev :=
  let ata := on_cur (fun d => set_status (Z.lor (status d) ATA_STATUS_ERR) d) ata in
  on_cur (fun d => set_error (Z.lor (error d) ATA_ERR_ABRT) d) ata.

(** [memcpy] into a byte buffer at offset [o]; the destination must hold
    the bytes written. *)
Definition splice (dst : list Z) (o : nat) (src : list Z) : list Z :=
  take o dst ++ src ++ drop (o + length src) dst.

Definition ata_read_buf (fs : gmap Z FILE) (ata : ata_dev)
  : option (bool * ata_dev * gmap Z FILE) :=
  '(n, got, fs) ← fread1 fs (fp (cur ata)) SECTOR_SIZE;
  let ata := on_cur (fun d => set_buf (splice (buf d) 0 got) d) ata in
  if negb (n =? 1) then Some (false, ata, fs)
  else Some (true, on_cur (set_bytes_to_rw SECTOR_SIZE) ata, fs).

Definition ata_write_buf (fs : gmap Z FILE) (ata : ata_dev)
  : option (bool * gmap Z FILE) :=
  '(n, fs) ← fwrite1 fs (fp (cur ata)) (buf (cur ata));
  Some (n =? 1, fs).

Definition ata_err (ata : ata_dev) : ata_dev :=
  let ata := on_cur (fun d => set_status (Z.lor (status d) ATA_STATUS_ERR) d) ata in
  on_cur (fun d => set_error (Z.lor (error d) ATA_ERR_UNC) d) ata.

Definition ata_cmd_read_sectors (fs : gmap Z FILE) (ata : ata_dev)
  : option (ata_dev * gmap Z FILE) :=
  let ata := if sectcount (cur ata) =? 0
             then on_cur (set_sectcount 256) ata else ata in
  let ata := on_cur (fun d => set_status
                        (Z.lor (status d) (Z.lor ATA_STATUS_DRQ ATA_STATUS_RDY)) d)
                    ata in
  '(r, fs) ← fseek_set fs (fp (cur ata)) (wrap64 (ata_get_lba ata false * SECTOR_SIZE));
  if r <? 0 then Some (ata_err ata, fs)
  else
    '(ok, ata, fs) ← ata_read_buf fs ata;
    if negb ok then Some (ata_err ata, fs) else Some (ata, fs).

Definition ata_cmd_write_sectors (fs : gmap Z FILE) (ata : ata_dev)
  : option (ata_dev * gmap Z FILE) :=
  let ata := if sectcount (cur ata) =? 0
             then on_cur (set_sectcount 256) ata else ata in
  let ata := on_cur (fun d => set_status
                        (Z.lor (status d) (Z.lor ATA_STATUS_DRQ ATA_STATUS_RDY)) d)
                    ata in
  '(r, fs) ← fseek_set fs (fp (cur ata)) (wrap64 (ata_get_lba ata false * SECTOR_SIZE));
  if r <? 0 then Some (ata_err ata, fs)
  else Some (on_cur (set_bytes_to_rw SECTOR_SIZE) ata, fs).

Definition ata_handle_cmd (fs : gmap Z FILE) (ata : ata_dev) (cmd : Z)
  : option (ata_dev * gmap Z FILE) :=
  if cmd =? ATA_CMD_IDENTIFY then Some (ata_cmd_identify ata, fs)
  else if cmd =? ATA_CMD_INITIALIZE_DEVICE_PARAMS
       then Some (ata_cmd_initialize_device_params ata, fs)
  else if cmd =? ATA_CMD_READ_SECTORS then ata_cmd_read_sectors fs ata
  else if cmd =? ATA_CMD_WRITE_SECTORS then ata_cmd_write_sectors fs ata
  else Some (ata, fs).

(** [status &= ~flag] on the 8-bit status. *)
Definition clear8 (st flag : Z) : Z := wrap8 (Z.land st (Z.lnot flag)).

(** The offset of [addr] in [buf]:
    [buf + SECTOR_SIZE - bytes_to_rw]; an access of [n] bytes there is
    defined only inside the 512 bytes of [buf]. *)
Definition buf_window (d : drive_t) (n : Z) : option nat :=
  let o := SECTOR_SIZE - bytes_to_rw d in
  if (0 <=? o) && (o + n <=? SECTOR_SIZE) then Some (Z.to_nat o) else None.

(** A read handler's store through [memory_data]. *)
Definition store_bytes (memory_data : list Z) (bs : list Z) : list Z :=
  bs ++ drop (length bs) memory_data.

(** The result of a handler: the returned flag, the device, the files and
    the bytes at [memory_data]. *)
Definition mmio_result : Type := bool * ata_dev * gmap Z FILE * list Z.

(** The 8-bit registers with a high-order byte: a write shifts the previous
    byte up, a read selects the byte by [hob_shift]. *)
Definition reg16_write (old b : Z) : Z := Z.lor (wrap16 (Z.shiftl old 8)) b.
Definition reg16_read (v shift : Z) : Z := Z.land (Z.shiftr v shift) 0xff.

(** The [ATA_REG_DATA] case of [ata_data_mmio_handler], write access. *)
Definition data_write (fs : gmap Z FILE) (ata : ata_dev)
    (memory_data : list Z) (sz : Z) : option (ata_dev * gmap Z FILE) :=
  o ← buf_window (cur ata) sz;
  guard (Z.to_nat sz <= length memory_data)%nat;;
  let ata := on_cur (fun d => set_buf
                        (splice (buf d) o (take (Z.to_nat sz) memory_data)) d)
                    ata in
  let ata := on_cur (fun d => set_bytes_to_rw (wrap16 (bytes_to_rw d - sz)) d) ata in
  if bytes_to_rw (cur ata) =? 0 then
    let ata := on_cur (fun d => set_status (clear8 (status d) ATA_STATUS_DRQ) d) ata in
    let ata := on_cur (fun d => set_sectcount (wrap16 (sectcount d - 1)) d) ata in
    let ata :=
      if negb (sectcount (cur ata) =? 0) then
        let ata := on_cur (fun d => set_status (Z.lor (status d) ATA_STATUS_DRQ) d)
                          ata in
        on_cur (set_bytes_to_rw SECTOR_SIZE) ata
      else ata in
    '(ok, fs) ← ata_write_buf fs ata;
    if negb ok then Some (ata_err ata, fs) else Some (ata, fs)
  else Some (ata, fs).

(** The [ATA_REG_DATA] case, read access. *)
Definition data_read (fs : gmap Z FILE) (ata : ata_dev)
    (memory_data : list Z) (sz : Z)
  : option (ata_dev * gmap Z FILE * list Z) :=
  if negb (bytes_to_rw (cur ata) =? 0) then
    o ← buf_window (cur ata) sz;
    let memory_data :=
      store_bytes memory_data (take (Z.to_nat sz) (drop o (buf (cur ata)))) in
    let ata := on_cur (fun d => set_bytes_to_rw (wrap16 (bytes_to_rw d - sz)) d) ata in
    if bytes_to_rw (cur ata) =? 0 then
      let ata := on_cur (fun d => set_status (clear8 (status d) ATA_STATUS_DRQ) d)
                        ata in
      let ata := on_cur (fun d => set_sectcount (wrap16 (sectcount d - 1)) d) ata in
      if negb (sectcount (cur ata) =? 0) then
        let ata := on_cur (fun d => set_status (Z.lor (status d) ATA_STATUS_DRQ) d)
                          ata in
        '(ok, ata, fs) ← ata_read_buf fs ata;
        if negb ok then Some (ata_err ata, fs, memory_data)
        else Some (ata, fs, memory_data)
      else Some (ata, fs, memory_data)
    else Some (ata, fs, memory_data)
  else
    Some (ata, fs, store_bytes memory_data (replicate (Z.to_nat sz) 0)).

(** [ata_data_mmio_handler]; [offset] is the byte offset in the data
    window, [memory_data] the bytes at the pointer of that name. *)
Definition ata_data_mmio_handler (fs : gmap Z FILE) (ata : ata_dev)
    (offset : Z) (memory_data : list Z) (sz : Z) (access : mmu_access)
  : option mmio_result :=
  if negb (Z.land offset (Z.shiftl 1 ATA_REG_SHIFT - 1) =? 0)
  then Some (false, ata, fs, memory_data)
  else
    let offset := Z.shiftr offset ATA_REG_SHIFT in
    if negb (sz =? 1) && negb (offset =? ATA_REG_DATA)
    then Some (false, ata, fs, memory_data)
    else
      let byte0 := head memory_data in
      let ret (ata : ata_dev) (md : list Z) : option mmio_result :=
        Some (true, ata, fs, md) in
      let d := cur ata in
      if offset =? ATA_REG_DATA then
        if is_write access then
          '(ata, fs) ← data_write fs ata memory_data sz;
          Some (true, ata, fs, memory_data)
        else
          '(ata, fs, md) ← data_read fs ata memory_data sz;
          Some (true, ata, fs, md)
      else if offset =? ATA_REG_ERR then
        if is_write access then ret ata memory_data
        else ret ata (store_bytes memory_data [Z.land (error d) 0xff])
      else if offset =? ATA_REG_NSECT then
        if is_write access then
          b ← byte0;
          ret (on_cur (fun d => set_sectcount (reg16_write (sectcount d) b) d) ata)
              memory_data
        else ret ata (store_bytes memory_data
                        [reg16_read (sectcount d) (hob_shift d)])
      else if offset =? ATA_REG_LBAL then
        if is_write access then
          b ← byte0;
          ret (on_cur (fun d => set_lbal (reg16_write (lbal d) b) d) ata)
              memory_data
        else ret ata (store_bytes memory_data
                        [reg16_read (lbal d) (hob_shift d)])
      else if offset =? ATA_REG_LBAM then
        if is_write access then
          b ← byte0;
          ret (on_cur (fun d => set_lbam (reg16_write (lbam d) b) d) ata)
              memory_data
        else ret ata (store_bytes memory_data
                        [reg16_read (lbam d) (hob_shift d)])
      else if offset =? ATA_REG_LBAH then
        if is_write access then
          b ← byte0;
          ret (on_cur (fun d => set_lbah (reg16_write (lbah d) b) d) ata)
              memory_data
        else ret ata (store_bytes memory_data
                        [reg16_read (lbah d) (hob_shift d)])
      else if offset =? ATA_REG_DEVICE then
        if is_write access then
          b ← byte0;
          let ata := {| drive := drive ata;
                        curdrive := if bit_check b 4 then 1 else 0 |} in
          ret (on_cur (set_drive_reg b) ata) memory_data
        else ret ata (store_bytes memory_data
                        [wrap8 (Z.lor (drive_reg d) (Z.lor (Z.shiftl 1 5) (Z.shiftl 1 7)))])
      else if offset =? ATA_REG_STATUS then
        if is_write access then
          b ← byte0;
          let ata := on_cur (set_error 0) ata in
          let ata := on_cur (fun d => set_status (clear8 (status d) ATA_STATUS_ERR) d)
                            ata in
          '(ata, fs) ← ata_handle_cmd fs ata b;
          Some (true, ata, fs, memory_data)
        else ret ata (store_bytes memory_data [status d])
      else ret ata memory_data.

(** [ata_ctl_mmio_handler] *)
Definition ata_ctl_mmio_handler (fs : gmap Z FILE) (ata : ata_dev)
    (offset : Z) (memory_data : list Z) (sz : Z) (access : mmu_access)
  : option mmio_result :=
  if negb (sz =? 1) || negb (Z.land offset (Z.shiftl 1 ATA_REG_SHIFT - 1) =? 0)
  then Some (false, ata, fs, memory_data)
  else
    let offset := Z.shiftr offset ATA_REG_SHIFT in
    if offset =? ATA_REG_CTL then
      if negb (is_write access) then
        Some (true, ata, fs, store_bytes memory_data [status (cur ata)])
      else
        b ← head memory_data;
        let ata := on_cur (set_hob_shift (if bit_check b 7 then 8 else 0)) ata in
        if bit_check b 2 then
          let ata := on_cur (set_bytes_to_rw 0) ata in
          let ata := on_cur (set_lbal 1) ata in
          let ata := on_cur (set_lbah 0) ata in
          let ata := on_cur (set_lbam 0) ata in
          let ata := on_cur (set_sectcount 1) ata in
          let ata := on_cur (set_drive_reg 0) ata in
          let ata :=
            if negb (fp (cur ata) =? NULL) then
              let ata := on_cur (set_error ATA_ERR_AMNF) ata in
              on_cur (set_status (Z.lor ATA_STATUS_RDY ATA_STATUS_SRV)) ata
            else
              let ata := on_cur (set_error 0) ata in
              on_cur (set_status 0) ata in
          Some (true, ata, fs, memory_data)
        else Some (true, ata, fs, memory_data)
    else Some (true, ata, fs, memory_data).

(** [get_img_size] *)
Definition get_img_size (fs : gmap Z FILE) (fp : Z) : option (Z * gmap Z FILE) :=
  '(_, fs) ← fseek_end fs fp;
  sz ← ftell fs fp;
  if sz <? 0 then Some (0, fs)
  else if sz =? 0 then Some (0, fs)
  else
    '(_, fs) ← fseek_set fs fp 0;
    Some (sz, fs).

(** [ata_init]; [ata_ptr] is what [calloc] returned for the device, the
    device itself is returned by value.  [None]: the assertion fails or a
    [NULL] stream or device is used. *)
Definition ata_init (fs : gmap Z FILE) (vm : riscv32_vm_state_t) (ata_ptr : Z)
    (data_base_addr ctl_base_addr master slave : Z)
  : option (riscv32_vm_state_t * ata_dev * gmap Z FILE) :=
  guard (master <> NULL \/ slave <> NULL);;
  guard (ata_ptr <> NULL);;
  let d0 := set_fp master drive_zero in
  '(sz, fs) ← get_img_size fs (fp d0);
  let d0 := set_size (DIV_ROUND_UP sz SECTOR_SIZE) d0 in
  let d0 := if size d0 =? 0 then set_fp NULL d0 else d0 in
  let d1 := set_fp slave drive_zero in
  '(sz, fs) ← get_img_size fs (fp d0);
  let d1 := set_size (DIV_ROUND_UP sz SECTOR_SIZE) d1 in
  let d1 := if size d1 =? 0 then set_fp NULL d1 else d1 in
  let ata := {| drive := aset (aset (drive ata_zero) 0 d0) 1 d1;
                curdrive := 0 |} in
  let vm := riscv32_mmio_add_device vm data_base_addr
              (wrap32 (data_base_addr + Z.shiftl (ATA_REG_STATUS + 1) ATA_REG_SHIFT))
              ata_data_handler ata_ptr in
  let vm := riscv32_mmio_add_device vm ctl_base_addr
              (wrap32 (ctl_base_addr + Z.shiftl (ATA_REG_DRVADDR + 1) ATA_REG_SHIFT))
              ata_ctl_handler ata_ptr in
  Some (vm, ata, fs).

End ATA.

(** ** riscv32.c: the remaining entry points *)

Definition set_ev_int_mask (v : Z) (s : riscv32_vm_state_t) : riscv32_vm_state_t :=
  {| wait_event := wait_event s; registers := registers s; mem := mem s;
     mmio := mmio s; csr := csr s; root_page_table := root_page_table s;
     mmu_virtual := mmu_virtual s; priv_mode := priv_mode s;
     timer := timer s; ev_trap := ev_trap s; ev_int := ev_int s;
     ev_int_mask := v |}.

(** [riscv32_interrupt] *)
Definition riscv32_interrupt (vm : riscv32_vm_state_t) (c : Z)
  : riscv32_vm_state_t :=
  let vm := set_ev_int_mask (Z.lor (ev_int_mask vm) (bit c)) vm in
  let vm := Upd.vm_ev_int true vm in
  Upd.vm_wait_event 0 vm.

(** [riscv32_illegal_insn] and [riscv32c_illegal_insn]; the debug print
    is compiled out. *)
Definition riscv32_illegal_insn (vm : riscv32_vm_state_t) (instruction : Z)
  : riscv32_vm_state_t :=
  riscv32_trap vm TRAP_ILL_INSTR instruction.

Definition riscv32c_illegal_insn (vm : riscv32_vm_state_t) (instruction : Z)
  : riscv32_vm_state_t :=
  riscv32_trap vm TRAP_ILL_INSTR instruction.

(** [riscv32_get_hart_by_id] *)
Definition riscv32_get_hart_by_id (w : machine) (hid : Z) : Z :=
  if hid >=? MAX_VMS then NULL
  else default NULL (global_vm_list w !! Z.to_nat hid).

(** The [for] loop of [global_irq_handler] from slot [i] on, with the
    slots still to visit, the running [vmcnt] and the heap; [None] is the
    dereference of a stale hart address. *)
Fixpoint irq_scan (slots : list Z) (vmcnt count : Z)
    (h : gmap Z riscv32_vm_state_t) : option (gmap Z riscv32_vm_state_t) :=
  match slots with
  | [] => Some h
  | vm :: rest =>
      if vm =? NULL then irq_scan rest vmcnt count h
      else
        s ← h !! vm;
        let s := set_ev_int_mask
                   (Z.lor (ev_int_mask s) (bit INTERRUPT_MTIMER)) s in
        let s := Upd.vm_ev_int true s in
        let s := Upd.vm_wait_event 0 s in
        let h := <[vm := s]> h in
        let vmcnt := wrap64 (vmcnt + 1) in
        if vmcnt =? count then Some h
        else irq_scan rest vmcnt count h
  end.

(** One round of the [while (true)] loop of [global_irq_handler], after
    the sleep; the framebuffer update is outside this development. *)
Definition global_irq_tick (w : machine) : option machine :=
  h ← irq_scan (global_vm_list w) 0 (global_vm_count w) (heap w);
  Some (UpdM.hp h w).

(** [riscv32i_translate_register]; [None] is the failed assertion
    [reg < REGISTERS_MAX]. *)
Definition riscv32i_translate_register (reg : Z) : option String.string :=
  if reg <? REGISTERS_MAX then
    Some (match reg with
          | 0 => "zero" | 1 => "ra" | 2 => "sp" | 3 => "gp"
          | 4 => "tp" | 5 => "t0" | 6 => "t1" | 7 => "t2"
          | 8 => "s0/fp" | 9 => "s1" | 10 => "a0" | 11 => "a1"
          | 12 => "a2" | 13 => "a3" | 14 => "a4" | 15 => "a5"
          | 16 => "a6" | 17 => "a7" | 18 => "s2" | 19 => "s3"
          | 20 => "s4" | 21 => "s5" | 22 => "s6" | 23 => "s7"
          | 24 => "s8" | 25 => "s9" | 26 => "s10" | 27 => "s11"
          | 28 => "t3" | 29 => "t4" | 30 => "t5" | 31 => "t6"
          | 32 => "pc"
          | _ => "unknown"
          end)%string
  else None.

(** ** Auxiliary definitions for the statements *)

(** The hart as [riscv32_handle_ip] hands it to
    [riscv32_perform_interrupt]. *)
Definition wfi_resume (vm : riscv32_vm_state_t) (wfi : bool) : riscv32_vm_state_t :=
  if wfi then
    Upd.vm_ev_trap true
      (riscv32i_write_register_u vm REGISTER_PC
         (riscv32i_read_register_u vm REGISTER_PC + 4))
  else vm.

(** Interrupt [i] passes the gate of [riscv32_handle_ip]: it is pending
    and enabled, and its level [i & 3] is above the current privilege, or
    equal to it with the enable bit of that level set in [status] or the
    hart in WFI. *)
Definition deliverable (vm : riscv32_vm_state_t) (wfi : bool) (i : Z) : Prop :=
  Z.testbit (ip (csr vm)) i = true /\
  Z.testbit (ie (csr vm)) i = true /\
  (priv_mode vm < Z.land i 3 \/
   (Z.land i 3 = priv_mode vm /\
    (Z.testbit (status (csr vm)) (Z.land i 3) = true \/ wfi = true))).

(** The hart on which the loop of [riscv32_run_impl] consults
    [riscv32_handle_ip] in its [ev_int] branch. *)
Definition after_fold (vm : riscv32_vm_state_t) : riscv32_vm_state_t :=
  Upd.vm_ev_int false (reconcile_timer (fold_ev_int_mask vm)).

(** ** States used as examples *)

Definition csr_zero : csr_t := csr vm_zero.

(** A hart in User mode with the interrupt-enable bit UIE set, whose
    [edeleg] delegates every cause at every level. *)
Definition user_vm : riscv32_vm_state_t :=
  Upd.vm_priv_mode PRIVILEGE_USER
    (Upd.vm_csr
       (Upd.csr_status 1
          (Upd.csr_edeleg (fun _ => 0xFFFFFFFF) csr_zero))
       (Upd.vm_registers (aset (fun _ => 0) REGISTER_PC 0x80001000) vm_zero)).

(** A hart in User mode with SIE set; Machine delegates the
    environment call from User mode, Supervisor keeps it. *)
Definition deleg_vm : riscv32_vm_state_t :=
  Upd.vm_priv_mode PRIVILEGE_USER
    (Upd.vm_csr
       (Upd.csr_status 2
          (Upd.csr_edeleg
             (aset (aset (fun _ => 0) PRIVILEGE_MACHINE 0x100)
                   PRIVILEGE_HYPERVISOR 0xFFFFFFFF)
             csr_zero))
       (Upd.vm_registers (aset (fun _ => 0) REGISTER_PC 0x80001000) vm_zero)).

(** A hart in Machine mode, at a WFI, with the machine timer interrupt
    pending and enabled and MIE clear. *)
Definition timer_vm : riscv32_vm_state_t :=
  Upd.vm_priv_mode PRIVILEGE_MACHINE
    (Upd.vm_csr
       (Upd.csr_ip 0x80
          {| status := 0; edeleg := fun _ => 0; ideleg := fun _ => 0;
             ie := 0x80; tvec := fun _ => 0x80000001; counteren := fun _ => 0;
             scratch := fun _ => 0; epc := fun _ => 0; cause := fun _ => 0;
             tval := fun _ => 0; ip := 0; hartid := 0 |})
       (Upd.vm_registers (aset (fun _ => 0) REGISTER_PC 0x80001000) vm_zero)).

(** A hart in Machine mode whose [mtvec] selects the vectored mode
    (base [0x80000000], low bit set). *)
Definition vectored_vm : riscv32_vm_state_t :=
  Upd.vm_priv_mode PRIVILEGE_MACHINE
    (Upd.vm_csr
       {| status := 8; edeleg := fun _ => 0; ideleg := fun _ => 0;
          ie := 0; tvec := aset (fun _ => 0) PRIVILEGE_MACHINE 0x80000001;
          counteren := fun _ => 0;
          scratch := fun _ => 0; epc := fun _ => 0; cause := fun _ => 0;
          tval := fun _ => 0; ip := 0; hartid := 0 |}
       (Upd.vm_registers (aset (fun _ => 0) REGISTER_PC 0x80001000) vm_zero)).

(** A hart woken by the IRQ thread: [ev_int] is raised with the machine
    timer bit in [ev_int_mask], the timer has not reached its compare
    register, and the machine timer interrupt is enabled. *)
Definition woken_vm : riscv32_vm_state_t :=
  {| wait_event := 0;
     registers := aset (fun _ => 0) REGISTER_PC 0x80001000;
     mem := {| mem_begin := 0x80000000; mem_size := 0x10000000 |};
     mmio := [];
     csr := {| status := 8; edeleg := fun _ => 0; ideleg := fun _ => 0;
               ie := 0x80; tvec := fun _ => 0x80000000;
               counteren := fun _ => 0; scratch := fun _ => 0;
               epc := fun _ => 0; cause := fun _ => 0; tval := fun _ => 0;
               ip := 0; hartid := 0 |};
     root_page_table := 0;
     mmu_virtual := false;
     priv_mode := PRIVILEGE_MACHINE;
     timer := {| rt_freq := 10000000; rt_time := 5; rt_timecmp := 100 |};
     ev_trap := false;
     ev_int := true;
     ev_int_mask := 0x80 |}.

(** A host on which every allocation succeeds. *)
Definition env_ok : host_env :=
  {| calloc_vm := 0x1000;
     malloc_thread := 0x2000;
     phys_mem_ok := true;
     board_regions := [];
     CLINT_BASE_ADDR := 0x2000000;
     CLINT_LEN := 0x10000 |}.

(** A host out of memory: [calloc] returns [NULL]. *)
Definition env_no_memory : host_env :=
  {| calloc_vm := NULL;
     malloc_thread := 0x2000;
     phys_mem_ok := true;
     board_regions := [];
     CLINT_BASE_ADDR := 0x2000000;
     CLINT_LEN := 0x10000 |}.

(** Two disk images: a master of 1000 bytes (two sectors) and a slave of
    5000 bytes (ten sectors), open at addresses [0x10] and [0x20]. *)
Definition master_img : ATA.FILE :=
  {| ATA.f_bytes := replicate 1000 0x11; ATA.f_pos := 0;
     ATA.f_seekable := true; ATA.f_writable := true |}.

Definition slave_img : ATA.FILE :=
  {| ATA.f_bytes := replicate 5000 0x22; ATA.f_pos := 0;
     ATA.f_seekable := true; ATA.f_writable := true |}.

Definition two_disks : gmap Z ATA.FILE :=
  <[0x20 := slave_img]> (<[0x10 := master_img]> ∅).

(** The reading of "the xIE bit of status is copied into xPIE and then
    cleared" at every target privilege [p]: xIE is bit [p] of [status]
    (MIE 3, SIE 1, UIE 0) and xPIE is bit [p + 4] (MPIE 7, SPIE 5,
    UPIE 4). *)
Definition trap_saves_interrupt_enable
    (vm : riscv32_vm_state_t) (c tv : Z) : Prop :=
  let vm' := riscv32_trap vm c tv in
  let p := priv_mode vm' in
  Z.testbit (status (csr vm')) (p + 4) = Z.testbit (status (csr vm)) p /\
  Z.testbit (status (csr vm')) p = false.

(** A hart in Supervisor mode with the supervisor software interrupt (1)
    and the machine timer interrupt (7) both pending and enabled. *)
Definition two_pending_vm : riscv32_vm_state_t :=
  Upd.vm_priv_mode PRIVILEGE_SUPERVISOR
    (Upd.vm_csr
       {| status := 2; edeleg := fun _ => 0; ideleg := fun _ => 0;
          ie := 0x82; tvec := fun _ => 0x80000000; counteren := fun _ => 0;
          scratch := fun _ => 0; epc := fun _ => 0; cause := fun _ => 0;
          tval := fun _ => 0; ip := 0x82; hartid := 0 |}
       (Upd.vm_registers (aset (fun _ => 0) REGISTER_PC 0x80001000) vm_zero)).

(** [woken_vm] with the timer expired. *)
Definition expired_vm : riscv32_vm_state_t :=
  Upd.vm_timer {| rt_freq := 10000000; rt_time := 200; rt_timecmp := 100 |}
    woken_vm.

(** A hart in Machine mode with MIE set and the three machine-level
    interrupts enabled, nothing pending. *)
Definition enabled_vm : riscv32_vm_state_t :=
  Upd.vm_priv_mode PRIVILEGE_MACHINE
    (Upd.vm_csr
       {| status := 8; edeleg := fun _ => 0; ideleg := fun _ => 0;
          ie := 0x888; tvec := fun _ => 0x80000000; counteren := fun _ => 0;
          scratch := fun _ => 0; epc := fun _ => 0; cause := fun _ => 0;
          tval := fun _ => 0; ip := 0; hartid := 0 |}
       (Upd.vm_registers (aset (fun _ => 0) REGISTER_PC 0x80001000) vm_zero)).

(** A second allocation on the same host: the next hart state is at
    another address. *)
Definition env_ok2 : host_env :=
  {| calloc_vm := 0x3000;
     malloc_thread := 0x4000;
     phys_mem_ok := true;
     board_regions := [];
     CLINT_BASE_ADDR := 0x2000000;
     CLINT_LEN := 0x10000 |}.

(** A host on which the guest RAM cannot be allocated. *)
Definition env_no_ram : host_env :=
  {| calloc_vm := 0x1000;
     malloc_thread := 0x2000;
     phys_mem_ok := false;
     board_regions := [];
     CLINT_BASE_ADDR := 0x2000000;
     CLINT_LEN := 0x10000 |}.

(** The process after its first hart, id 0, has been created. *)
Definition booted : machine :=
  match riscv32_create_vm env_ok machine_init 0 with
  | Some (_, w) => w
  | None => machine_init
  end.

(** The 16-bit little-endian word [i] of a byte buffer. *)
Definition le16 (b : list Z) (i : nat) : Z :=
  nth (2 * i) b 0 + 256 * nth (2 * i + 1) b 0.

(** A device whose master drive is the 1000-byte image at [0x10], two
    sectors large. *)
Definition ata_master : ATA.ata_dev :=
  {| ATA.drive :=
       aset (ATA.drive ATA.ata_zero) 0
         (ATA.set_size 2 (ATA.set_fp 0x10 ATA.drive_zero));
     ATA.curdrive := 0 |}.

(** [ata_master] after IDENTIFY DEVICE. *)
Definition ata_identified : ATA.ata_dev := ATA.ata_cmd_identify ata_master.

(** A 1024-byte image that can be written, open at [0x10], and a device
    whose master drive is that image with one sector to transfer. *)
Definition rw_img : ATA.FILE :=
  {| ATA.f_bytes := replicate 1024 0x11; ATA.f_pos := 0;
     ATA.f_seekable := true; ATA.f_writable := true |}.

Definition rw_disk : gmap Z ATA.FILE := <[0x10 := rw_img]> ∅.

Definition ata_one_sector : ATA.ata_dev :=
  {| ATA.drive :=
       aset (ATA.drive ATA.ata_zero) 0
         (ATA.set_lbal 1
            (ATA.set_sectcount 1
               (ATA.set_size 2 (ATA.set_fp 0x10 ATA.drive_zero))));
     ATA.curdrive := 0 |}.

(** A hart in User mode with UIE clear, the supervisor timer interrupt
    (5) pending and enabled, and [ideleg] delegating every interrupt at
    every level. *)
Definition user_stimer_vm : riscv32_vm_state_t :=
  Upd.vm_priv_mode PRIVILEGE_USER
    (Upd.vm_csr
       {| status := 0; edeleg := fun _ => 0; ideleg := fun _ => 0xFFFFFFFF;
          ie := 0x20; tvec := fun _ => 0x80000000; counteren := fun _ => 0;
          scratch := fun _ => 0; epc := fun _ => 0; cause := fun _ => 0;
          tval := fun _ => 0; ip := 0x20; hartid := 0 |}
       (Upd.vm_registers (aset (fun _ => 0) REGISTER_PC 0x80001000) vm_zero)).

(** The reading of "its target privilege, derived from ideleg by the same
    scan-from-Machine rule used for traps": the scan over [ideleg] runs
    from Machine down to the current privilege, as the scan of
    [riscv32_trap] over [edeleg] does; an interrupt that fires has its bit
    in [ip] and [ie], that target is at least the current privilege, and
    when the two are equal the enable bit of that privilege in [status] is
    set or the hart is in WFI. *)
Definition fires_only_when_trap_rule
    (vm : riscv32_vm_state_t) (wfi : bool) : Prop :=
  forall vm', riscv32_handle_ip vm wfi = (true, vm') ->
  exists i,
    1 <= i <= 11 /\
    cause (csr vm') (priv_mode vm') = Z.lor i INTERRUPT_MASK /\
    Z.testbit (ip (csr vm)) i = true /\
    Z.testbit (ie (csr vm)) i = true /\
    let target :=
      deleg_scan (ideleg (csr vm)) (priv_mode vm) i
                 (Z.to_nat PRIVILEGE_MACHINE) in
    priv_mode vm <= target /\
    (target = priv_mode vm ->
     Z.testbit (status (csr vm)) target = true \/ wfi = true).

(** An open image that holds no byte, and it as the master image beside
    [slave_img]. *)
Definition empty_img : ATA.FILE :=
  {| ATA.f_bytes := []; ATA.f_pos := 0;
     ATA.f_seekable := true; ATA.f_writable := true |}.

Definition empty_master_disks : gmap Z ATA.FILE :=
  <[0x20 := slave_img]> (<[0x10 := empty_img]> ∅).

(** The reading of "for every pair of master and slave image files the
    slave drive reports the master image's sector count": [ata_init] on
    the two files finishes, and [drive[1].size] is the sector count of the
    master image [m]. *)
Definition slave_reports_master_size
    (fs : gmap Z ATA.FILE) (vm : riscv32_vm_state_t)
    (ata_ptr data_base_addr ctl_base_addr master slave : Z) (m : ATA.FILE)
  : Prop :=
  exists vm' ata fs',
    ATA.ata_init fs vm ata_ptr data_base_addr ctl_base_addr master slave
      = Some (vm', ata, fs') /\
    ATA.size (ATA.drive ata 1)
      = ATA.DIV_ROUND_UP (Z.of_nat (length (ATA.f_bytes m))) ATA.SECTOR_SIZE.

(** * Properties *)

(** ** Arrays and bits *)

Lemma aset_eq {A} (a : array A) i v : aset a i v i = v.
Proof. unfold aset. now rewrite Z.eqb_refl. Qed.

Lemma aset_neq {A} (a : array A) i j v : j <> i -> aset a i v j = a j.
Proof. intros H. unfold aset. destruct (Z.eqb_spec j i); congruence. Qed.

Lemma wrap32_small z : u32 z -> wrap32 z = z.
Proof. intros H. apply Z.mod_small. exact H. Qed.

Lemma wrap32_u32 z : u32 (wrap32 z).
Proof. apply Z.mod_pos_bound. reflexivity. Qed.

Lemma wrap32_idem z : wrap32 (wrap32 z) = wrap32 z.
Proof. apply wrap32_small, wrap32_u32. Qed.

Lemma wrap32_testbit z k :
  Z.testbit (wrap32 z) k = (k <? 32) && Z.testbit z k.
Proof.
  unfold wrap32, wrap. destruct (Z.ltb_spec k 32) as [Hk | Hk]; simpl.
  - now apply Z.mod_pow2_bits_low.
  - apply Z.mod_pow2_bits_high. lia.
Qed.

Lemma bit_pow2 n : 0 <= n < 32 -> bit n = 2 ^ n.
Proof.
  intros Hn. unfold bit, shl32. rewrite Z.shiftl_1_l.
  apply wrap32_small. split.
  - apply Z.pow_nonneg. lia.
  - apply Z.pow_lt_mono_r; lia.
Qed.

(** [x & (1 << n)] is non-zero exactly when bit [n] of [x] is set. *)
Lemma land_bit_testbit x n :
  0 <= n < 32 -> (Z.land x (bit n) =? 0) = negb (Z.testbit x n).
Proof.
  intros Hn. rewrite bit_pow2 by exact Hn.
  destruct (Z.testbit x n) eqn:Hb; simpl.
  - apply Z.eqb_neq. intros H0.
    assert (Hc : Z.testbit (Z.land x (2 ^ n)) n = true).
    { rewrite Z.land_spec, Hb, Z.pow2_bits_true; [reflexivity | lia]. }
    rewrite H0, Z.bits_0 in Hc. discriminate.
  - apply Z.eqb_eq. apply Z.bits_inj'. intros k Hk.
    rewrite Z.land_spec, Z.bits_0, Z.pow2_bits_eqb by lia.
    destruct (Z.eqb_spec n k) as [-> | _].
    + now rewrite Hb.
    + apply andb_false_r.
Qed.


Lemma bit_mask_testbit n k :
  0 <= n -> 0 <= k -> Z.testbit (bit_mask n) k = (k <? n).
Proof.
  intros Hn Hk. unfold bit_mask.
  destruct (Z.ltb_spec k n).
  - apply Z.ones_spec_low. lia.
  - apply Z.ones_spec_high. lia.
Qed.

(** Bit [k] of [bit_replace val pos bits rep]. *)
Lemma bit_replace_testbit val pos bits rep k :
  0 <= pos -> 0 <= bits -> 0 <= k ->
  Z.testbit (bit_replace val pos bits rep) k =
    (k <? 32) &&
    (if (pos <=? k) && (k <? pos + bits)
     then Z.testbit rep (k - pos) else Z.testbit val k).
Proof.
  intros Hp Hb Hk. unfold bit_replace.
  rewrite wrap32_testbit. f_equal.
  rewrite Z.lor_spec, Z.land_spec, Z.lnot_spec by exact Hk.
  rewrite !Z.shiftl_spec by exact Hk.
  destruct (Z.leb_spec pos k) as [Hle | Hlt]; simpl.
  - rewrite Z.land_spec, !bit_mask_testbit by lia.
    replace (k - pos <? bits) with (k <? pos + bits)
      by (destruct (Z.ltb_spec (k - pos) bits), (Z.ltb_spec k (pos + bits)); lia).
    destruct (k <? pos + bits); simpl.
    + rewrite andb_false_r, andb_true_r. reflexivity.
    + rewrite andb_true_r, andb_false_r, orb_false_r. reflexivity.
  - rewrite (Z.testbit_neg_r _ (k - pos)) by lia.
    rewrite (Z.testbit_neg_r (Z.land rep _)) by lia.
    simpl. rewrite andb_true_r, orb_false_r. reflexivity.
Qed.

Lemma bit_cut_testbit val pos bits k :
  0 <= pos -> 0 <= bits -> 0 <= k ->
  Z.testbit (bit_cut val pos bits) k = Z.testbit val (k + pos) && (k <? bits).
Proof.
  intros Hp Hb Hk. unfold bit_cut.
  rewrite Z.land_spec, Z.shiftr_spec, bit_mask_testbit by lia. reflexivity.
Qed.

(** ** The delegation loop *)

Section DelegScan.

Variable deleg : array Z.
Variables floor c : Z.

Lemma deleg_scan_upper n : deleg_scan deleg floor c n <= Z.of_nat n.
Proof.
  induction n as [| n IH]; [reflexivity |].
  cbn [deleg_scan].
  destruct (Z.of_nat (S n) >? floor); [| lia].
  destruct (Z.land _ _ =? 0); lia.
Qed.

Lemma deleg_scan_lower n :
  floor <= Z.of_nat n -> floor <= deleg_scan deleg floor c n.
Proof.
  induction n as [| n IH]; intros Hf; [exact Hf |].
  cbn [deleg_scan].
  destruct (Z.gtb_spec (Z.of_nat (S n)) floor) as [Hgt | Hle]; [| lia].
  destruct (Z.land _ _ =? 0); [lia |]. apply IH. lia.
Qed.

Lemma deleg_scan_nonneg n : 0 <= deleg_scan deleg floor c n.
Proof.
  induction n as [| n IH]; [reflexivity |].
  cbn [deleg_scan].
  destruct (Z.of_nat (S n) >? floor); [| lia].
  destruct (Z.land _ _ =? 0); lia.
Qed.



End DelegScan.

(** ** Trap delivery *)



Lemma testbit_b2z b j : Z.testbit (Z.b2z b) j = b && (j =? 0).
Proof.
  destruct b; simpl.
  - change 1 with (2 ^ 0). rewrite Z.pow2_bits_eqb by lia. apply Z.eqb_sym.
  - apply Z.bits_0.
Qed.

Lemma bit_cut_1 val pos : 0 <= pos -> bit_cut val pos 1 = Z.b2z (Z.testbit val pos).
Proof.
  intros Hp. apply Z.bits_inj'. intros k Hk.
  rewrite bit_cut_testbit, testbit_b2z by lia.
  destruct (Z.eqb_spec k 0) as [-> | Hn].
  - rewrite Z.add_0_l. reflexivity.
  - replace (k <? 1) with false by (symmetry; apply Z.ltb_ge; lia).
    now rewrite !andb_false_r.
Qed.

Lemma u32_testbit_high st k : u32 st -> 32 <= k -> Z.testbit st k = false.
Proof.
  intros [Hlo Hhi] H32.
  destruct (Z.eq_dec st 0) as [-> | Hnz]; [apply Z.bits_0 |].
  apply Z.bits_above_log2; [exact Hlo |].
  apply Z.log2_lt_pow2; [lia |].
  apply Z.lt_le_trans with (2 ^ 32); [exact Hhi |].
  apply Z.pow_le_mono_r; lia.
Qed.

(** Decide the integer comparisons a goal branches on. *)
Ltac zcases :=
  repeat match goal with
    | |- context [Z.eqb ?a ?b] => destruct (Z.eqb_spec a b)
    | |- context [Z.ltb ?a ?b] => destruct (Z.ltb_spec a b)
    | |- context [Z.leb ?a ?b] => destruct (Z.leb_spec a b)
    end;
  cbn [andb orb negb]; try lia.

Lemma mask_F7_testbit k : 0 <= k ->
  Z.testbit 0xFFFFFFF7 k = (k <? 32) && negb (k =? 3).
Proof.
  intros Hk. change 0xFFFFFFF7 with (wrap32 (Z.lnot (2 ^ 3))).
  rewrite wrap32_testbit, Z.lnot_spec, Z.pow2_bits_eqb by lia.
  now rewrite (Z.eqb_sym 3 k).
Qed.

Lemma mask_FD_testbit k : 0 <= k ->
  Z.testbit 0xFFFFFFFD k = (k <? 32) && negb (k =? 1).
Proof.
  intros Hk. change 0xFFFFFFFD with (wrap32 (Z.lnot (2 ^ 1))).
  rewrite wrap32_testbit, Z.lnot_spec, Z.pow2_bits_eqb by lia.
  now rewrite (Z.eqb_sym 1 k).
Qed.

(** Bits of [status] after [save_status], for a 32-bit [status]. *)
Lemma save_status_machine st cur k :
  u32 st -> 0 <= k ->
  Z.testbit (save_status st PRIVILEGE_MACHINE cur) k =
    if (k =? 11) || (k =? 12) then Z.testbit cur (k - 11)
    else if k =? 7 then Z.testbit st 3
    else if k =? 3 then false
    else Z.testbit st k.
Proof.
  intros Hst Hk. unfold save_status. cbn [PRIVILEGE_MACHINE Z.eqb Pos.eqb].
  rewrite Z.land_spec, mask_F7_testbit by exact Hk.
  rewrite bit_cut_1 by lia.
  rewrite bit_replace_testbit, testbit_b2z by lia.
  rewrite !bit_replace_testbit by lia.
  pose proof (u32_testbit_high st k Hst) as Hhigh.
  destruct (Z.ltb_spec k 32) as [H32 | H32]; cbn [andb].
  - zcases; try subst k; rewrite ?andb_true_r, ?andb_false_r; reflexivity.
  - rewrite Hhigh by exact H32. zcases; reflexivity.
Qed.

Lemma save_status_supervisor st cur k :
  u32 st -> 0 <= k ->
  Z.testbit (save_status st PRIVILEGE_SUPERVISOR cur) k =
    if k =? 8 then Z.testbit cur 0
    else if k =? 5 then Z.testbit st 1
    else if k =? 1 then false
    else Z.testbit st k.
Proof.
  intros Hst Hk. unfold save_status.
  cbn [PRIVILEGE_SUPERVISOR PRIVILEGE_MACHINE Z.eqb Pos.eqb].
  rewrite Z.land_spec, mask_FD_testbit by exact Hk.
  rewrite bit_cut_1 by lia.
  rewrite bit_replace_testbit, testbit_b2z by lia.
  rewrite !bit_replace_testbit by lia.
  pose proof (u32_testbit_high st k Hst) as Hhigh.
  destruct (Z.ltb_spec k 32) as [H32 | H32]; cbn [andb].
  - zcases; try subst k; rewrite ?andb_true_r, ?andb_false_r; reflexivity.
  - rewrite Hhigh by exact H32. zcases; reflexivity.
Qed.

Lemma save_status_other st p cur :
  p <> PRIVILEGE_MACHINE -> p <> PRIVILEGE_SUPERVISOR ->
  save_status st p cur = st.
Proof.
  intros HM HS. unfold save_status.
  destruct (Z.eqb_spec p PRIVILEGE_MACHINE); [contradiction |].
  destruct (Z.eqb_spec p PRIVILEGE_SUPERVISOR); [contradiction |].
  reflexivity.
Qed.

Lemma small_testbit_high x n j :
  0 <= x < 2 ^ n -> 0 <= n <= j -> Z.testbit x j = false.
Proof.
  intros Hx Hj. rewrite <- (Z.mod_small x (2 ^ n)) by exact Hx.
  apply Z.mod_pow2_bits_high. exact Hj.
Qed.

Section Trap.

Variable vm : riscv32_vm_state_t.
Variables c tv : Z.
Hypothesis priv_ok : 0 <= priv_mode vm <= PRIVILEGE_MACHINE.

Lemma trap_target_range :
  priv_mode vm <= trap_target vm c <= PRIVILEGE_MACHINE.
Proof.
  unfold trap_target. split.
  - apply deleg_scan_lower. unfold PRIVILEGE_MACHINE, PRIVILEGE_SUPERVISOR in *. lia.
  - apply (deleg_scan_upper _ _ _ 3).
Qed.



Lemma trap_status_machine :
  u32 (status (csr vm)) ->
  trap_target vm c = PRIVILEGE_MACHINE ->
  let st' := status (csr (riscv32_trap vm c tv)) in
  bit_cut st' 11 2 = priv_mode vm /\
  Z.testbit st' 7 = Z.testbit (status (csr vm)) 3 /\
  Z.testbit st' 3 = false /\
  (forall k, 0 <= k -> k <> 11 -> k <> 12 -> k <> 7 -> k <> 3 ->
     Z.testbit st' k = Z.testbit (status (csr vm)) k).
Proof.
  intros Hst Hp st'. subst st'.
  change (status (csr (riscv32_trap vm c tv)))
    with (save_status (status (csr vm)) (trap_target vm c) (priv_mode vm)).
  rewrite Hp. repeat split.
  - apply Z.bits_inj'. intros j Hj.
    rewrite bit_cut_testbit, save_status_machine by (try exact Hst; lia).
    destruct (Z.ltb_spec j 2) as [Hlt | Hge].
    + replace ((j + 11 =? 11) || (j + 11 =? 12)) with true
        by (symmetry; apply orb_true_iff; lia).
      rewrite andb_true_r. f_equal. lia.
    + rewrite andb_false_r. symmetry.
      apply (small_testbit_high _ 2); unfold PRIVILEGE_MACHINE, PRIVILEGE_SUPERVISOR in *; lia.
  - now rewrite save_status_machine by (try exact Hst; lia).
  - now rewrite save_status_machine by (try exact Hst; lia).
  - intros k Hk N11 N12 N7 N3.
    rewrite save_status_machine by (try exact Hst; lia).
    zcases. reflexivity.
Qed.

Lemma trap_status_supervisor :
  u32 (status (csr vm)) ->
  trap_target vm c = PRIVILEGE_SUPERVISOR ->
  let st' := status (csr (riscv32_trap vm c tv)) in
  bit_cut st' 8 1 = priv_mode vm /\
  Z.testbit st' 5 = Z.testbit (status (csr vm)) 1 /\
  Z.testbit st' 1 = false /\
  (forall k, 0 <= k -> k <> 8 -> k <> 5 -> k <> 1 ->
     Z.testbit st' k = Z.testbit (status (csr vm)) k).
Proof.
  intros Hst Hp st'. subst st'.
  pose proof trap_target_range as Hr. rewrite Hp in Hr.
  change (status (csr (riscv32_trap vm c tv)))
    with (save_status (status (csr vm)) (trap_target vm c) (priv_mode vm)).
  rewrite Hp. repeat split.
  - rewrite bit_cut_1, save_status_supervisor by (try exact Hst; lia).
    cbn [Z.eqb Pos.eqb].
    assert (Hc : priv_mode vm = 0 \/ priv_mode vm = 1) by (unfold PRIVILEGE_MACHINE, PRIVILEGE_SUPERVISOR in *; lia).
    destruct Hc as [-> | ->]; reflexivity.
  - now rewrite save_status_supervisor by (try exact Hst; lia).
  - now rewrite save_status_supervisor by (try exact Hst; lia).
  - intros k Hk N8 N5 N1.
    rewrite save_status_supervisor by (try exact Hst; lia).
    zcases. reflexivity.
Qed.

End Trap.

(** ** The hart registry *)

Lemma foldl_alter_is_Some {A} (f : A -> A) (l : list Z) (h : gmap Z A) (k : Z) :
  is_Some (h !! k) ->
  is_Some (foldl (fun h p => alter f p h) h l !! k).
Proof.
  revert h. induction l as [| p l IH]; intros h Hk; [exact Hk |].
  cbn [foldl]. apply IH. apply lookup_alter_is_Some. exact Hk.
Qed.

Lemma hart_reset_state env hid vm s :
  let s' := hart_reset env hid vm s in
  edeleg (csr s') PRIVILEGE_HYPERVISOR = 0xFFFFFFFF /\
  ideleg (csr s') PRIVILEGE_HYPERVISOR = 0xFFFFFFFF /\
  priv_mode s' = PRIVILEGE_MACHINE.
Proof. repeat split. Qed.

Lemma share_devices_keeps env w hid vm w1 :
  share_devices env w hid vm = Some w1 ->
  is_Some (heap w !! vm) -> is_Some (heap w1 !! vm).
Proof.
  unfold share_devices. intros H Hk.
  destruct (head (registered w)) as [parent_vm |]; [| discriminate].
  cbn in H. destruct (heap w !! parent_vm) as [parent |]; [| discriminate].
  cbn in H. injection H as <-. cbn.
  apply foldl_alter_is_Some, lookup_alter_is_Some. exact Hk.
Qed.

(** The last steps of [riscv32_create_vm], from the reset of the hart
    state on. *)
Lemma create_vm_tail env hid vm0 w1 vm w' :
  hid < MAX_VMS -> is_Some (heap w1 !! vm0) ->
  (let w2 := UpdM.hp (alter (hart_reset env hid vm0) vm0 (heap w1)) w1 in
   let '(ok, w3) := register_vm w2 vm0 hid in
   if negb ok
   then Some (NULL, UpdM.hp (delete vm0 (heap w3)) w3)
   else Some (vm0, w3)) = Some (vm, w') ->
  vm = vm0 /\
  global_vm_list w' = <[Z.to_nat hid := vm0]> (global_vm_list w1) /\
  global_vm_count w' = wrap64 (global_vm_count w1 + 1) /\
  host_log w' = host_log w1 /\
  global_irq_thread w' = global_irq_thread w1 /\
  exists s1, heap w1 !! vm0 = Some s1 /\
    heap w' !! vm =
      Some (Upd.vm_csr (Upd.csr_hartid hid (csr (hart_reset env hid vm0 s1)))
              (hart_reset env hid vm0 s1)).
Proof.
  intros Hlt [s1 Hs1]. unfold register_vm.
  destruct (Z.geb_spec hid MAX_VMS) as [Hge | _]; [lia |].
  cbn. intros [= <- <-]. cbn.
  rewrite !lookup_alter_eq, Hs1. cbn.
  repeat split. exists s1. split; reflexivity.
Qed.


(** ** Claims on trap delivery *)



(** C3, as amended.  After [riscv32_trap] with target privilege [p]:
    [epc[p]] holds the PC at the time of the trap, [cause[p]] the cause,
    [tval[p]] the given value, the current privilege is [p] and [ev_trap]
    is set.  When [p] is Machine the previous privilege is in MPP
    (bits 12:11), MIE is copied to MPIE and cleared; when [p] is
    Supervisor the previous privilege is in SPP (bit 8), SIE is copied to
    SPIE and cleared; no other bit of [status] changes. *)
Theorem trap_delivery_state (vm : riscv32_vm_state_t) (c tv : Z) :
  0 <= priv_mode vm <= PRIVILEGE_MACHINE ->
  u32 (status (csr vm)) ->
  let vm' := riscv32_trap vm c tv in
  let p := trap_target vm c in
  let st := status (csr vm) in
  let st' := status (csr vm') in
  epc (csr vm') p = riscv32i_read_register_u vm REGISTER_PC /\
  cause (csr vm') p = c /\
  tval (csr vm') p = tv /\
  priv_mode vm' = p /\
  ev_trap vm' = true /\
  (p = PRIVILEGE_MACHINE ->
     bit_cut st' 11 2 = priv_mode vm /\
     Z.testbit st' 7 = Z.testbit st 3 /\
     Z.testbit st' 3 = false /\
     (forall k, 0 <= k -> k <> 11 -> k <> 12 -> k <> 7 -> k <> 3 ->
        Z.testbit st' k = Z.testbit st k)) /\
  (p = PRIVILEGE_SUPERVISOR ->
     bit_cut st' 8 1 = priv_mode vm /\
     Z.testbit st' 5 = Z.testbit st 1 /\
     Z.testbit st' 1 = false /\
     (forall k, 0 <= k -> k <> 8 -> k <> 5 -> k <> 1 ->
        Z.testbit st' k = Z.testbit st k)).
Proof.
  intros Hpriv Hst vm' p st st'. subst vm' p st st'.
  split; [cbn; apply aset_eq |].
  split; [cbn; apply aset_eq |].
  split; [cbn; apply aset_eq |].
  split; [reflexivity |].
  split; [reflexivity |].
  split; intros Hp.
  - apply trap_status_machine; assumption.
  - apply trap_status_supervisor; assumption.
Qed.

Lemma trap_delivery_state_witness :
  let vm' := riscv32_trap deleg_vm TRAP_ENVCALL_UMODE 0x1234 in
  0 <= priv_mode deleg_vm <= PRIVILEGE_MACHINE /\
  u32 (status (csr deleg_vm)) /\
  trap_target deleg_vm TRAP_ENVCALL_UMODE = PRIVILEGE_SUPERVISOR /\
  epc (csr vm') PRIVILEGE_SUPERVISOR = 0x80001000 /\
  cause (csr vm') PRIVILEGE_SUPERVISOR = TRAP_ENVCALL_UMODE /\
  tval (csr vm') PRIVILEGE_SUPERVISOR = 0x1234 /\
  bit_cut (status (csr vm')) 8 1 = PRIVILEGE_USER /\
  Z.testbit (status (csr vm')) 5 = true /\
  Z.testbit (status (csr vm')) 1 = false.
Proof.
  intros vm'.
  assert (H1 : 0 <= priv_mode deleg_vm <= PRIVILEGE_MACHINE)
    by (vm_compute; split; discriminate).
  assert (H2 : u32 (status (csr deleg_vm)))
    by (vm_compute; split; [discriminate | reflexivity]).
  assert (H3 : trap_target deleg_vm TRAP_ENVCALL_UMODE = PRIVILEGE_SUPERVISOR)
    by reflexivity.
  destruct (trap_delivery_state deleg_vm TRAP_ENVCALL_UMODE 0x1234 H1 H2)
    as (He & Hc & Ht & _ & _ & _ & Hs).
  destruct (Hs H3) as (Hpp & Hpie & Hie & _).
  rewrite H3 in He, Hc, Ht.
  repeat split; try assumption; try (vm_compute; congruence).
Defined.

(** C3, as stated, fails for a trap that is delivered to User mode: the
    code leaves [status] as it was, so UIE stays set. *)
Lemma trap_saves_interrupt_enable_fails :
  priv_mode (riscv32_trap user_vm TRAP_ENVCALL_UMODE 0) = PRIVILEGE_USER /\
  status (csr (riscv32_trap user_vm TRAP_ENVCALL_UMODE 0)) = status (csr user_vm) /\
  ~ trap_saves_interrupt_enable user_vm TRAP_ENVCALL_UMODE 0.
Proof.
  split; [reflexivity |]. split; [reflexivity |].
  unfold trap_saves_interrupt_enable. vm_compute. intros [_ H]. discriminate.
Qed.

(** ** Interrupt delivery *)

Lemma land3_range i : 0 <= i -> 0 <= Z.land i 3 <= 3.
Proof.
  intros _. change (Z.land i 3) with (Z.land i (Z.ones 2)).
  rewrite Z.land_ones by lia.
  pose proof (Z.mod_pos_bound i (2 ^ 2) eq_refl). lia.
Qed.

Lemma wrap8_land3 i : 0 <= i -> wrap8 (Z.land i 3) = Z.land i 3.
Proof.
  intros Hi. pose proof (land3_range i Hi). apply Z.mod_small. lia.
Qed.

Lemma ip_scan_some vm wfi n i :
  ip_scan vm wfi n = Some i ->
  1 <= i <= Z.of_nat n /\ ip_allows vm wfi i = true.
Proof.
  induction n as [| n IH]; cbn [ip_scan]; [discriminate |].
  destruct (ip_allows vm wfi (Z.of_nat (S n))) eqn:Ha.
  - intros [= <-]. split; [lia | exact Ha].
  - intros H. destruct (IH H) as [Hr Hal]. split; [lia | exact Hal].
Qed.

Lemma ip_scan_none vm wfi n :
  ip_scan vm wfi n = None ->
  forall i, 1 <= i <= Z.of_nat n -> ip_allows vm wfi i = false.
Proof.
  induction n as [| n IH]; cbn [ip_scan]; intros H i Hi; [lia |].
  destruct (ip_allows vm wfi (Z.of_nat (S n))) eqn:Ha; [discriminate |].
  destruct (Z.eq_dec i (Z.of_nat (S n))) as [-> | Hne]; [exact Ha |].
  apply IH; [exact H | lia].
Qed.

(** The gate of [riscv32_handle_ip] for interrupt [i]. *)
Lemma ip_allows_spec vm wfi i :
  0 <= i < 32 ->
  ip_allows vm wfi i = true ->
  Z.testbit (ip (csr vm)) i = true /\
  Z.testbit (ie (csr vm)) i = true /\
  (priv_mode vm < Z.land i 3 \/
   (Z.land i 3 = priv_mode vm /\
    (Z.testbit (status (csr vm)) (Z.land i 3) = true \/ wfi = true))).
Proof.
  intros Hi. unfold ip_allows.
  pose proof (land3_range i (proj1 Hi)) as H3.
  rewrite wrap8_land3 by lia.
  rewrite !land_bit_testbit by lia.
  rewrite !negb_involutive.
  destruct (Z.testbit (ip (csr vm)) i); [| discriminate].
  destruct (Z.testbit (ie (csr vm)) i); [| discriminate].
  cbn [andb]. intros Hallow. split; [reflexivity |]. split; [reflexivity |].
  destruct (Z.gtb_spec (Z.land i 3) (priv_mode vm)) as [Hgt | Hle]; cbn in Hallow.
  - left. lia.
  - right. apply andb_true_iff in Hallow as [Heq Hen].
    apply Z.eqb_eq in Heq. split; [exact Heq |].
    apply orb_true_iff in Hen as [Hen | Hen]; [left | right; exact Hen].
    exact Hen.
Qed.

Lemma interrupt_target_range vm i :
  0 <= i -> Z.land i 3 <= interrupt_target vm i <= PRIVILEGE_MACHINE.
Proof.
  intros Hi. pose proof (land3_range i Hi). unfold interrupt_target. split.
  - apply deleg_scan_lower.
    change (Z.of_nat (Z.to_nat PRIVILEGE_MACHINE)) with 3. lia.
  - apply (deleg_scan_upper _ _ _ 3).
Qed.

Lemma handle_ip_cases vm wfi :
  (exists i, ip_scan vm wfi 11 = Some i /\
     riscv32_handle_ip vm wfi =
       (true, riscv32_perform_interrupt (wfi_resume vm wfi) i)) \/
  riscv32_handle_ip vm wfi = (false, vm).
Proof.
  unfold riscv32_handle_ip, wfi_resume.
  destruct (negb (ip (csr vm) =? 0)); [| now right].
  destruct (ip_scan vm wfi 11) as [i |]; [left | now right].
  exists i. split; [reflexivity |]. destruct wfi; reflexivity.
Qed.

(** C2.  An interrupt [i] that [riscv32_handle_ip] delivers has its bit set
    in [csr.ip] and in [csr.ie]; the privilege it is delivered to, found by
    the delegation scan over [ideleg] from Machine down to the level
    [i & 3] of the interrupt, is at least the current privilege, and when
    the two are equal the global-enable bit of that privilege in [status]
    is set or the hart is in WFI. *)
Theorem handle_ip_fires_only_when
    (vm : riscv32_vm_state_t) (wfi : bool) (vm' : riscv32_vm_state_t) :
  riscv32_handle_ip vm wfi = (true, vm') ->
  exists i,
    1 <= i <= 11 /\
    cause (csr vm') (priv_mode vm') = Z.lor i INTERRUPT_MASK /\
    Z.testbit (ip (csr vm)) i = true /\
    Z.testbit (ie (csr vm)) i = true /\
    let target := deleg_scan (ideleg (csr vm)) (Z.land i 3) i 3 in
    priv_mode vm' = target /\
    priv_mode vm <= target /\
    (target = priv_mode vm ->
     Z.testbit (status (csr vm)) target = true \/ wfi = true).
Proof.
  intros H. destruct (handle_ip_cases vm wfi) as [(i & Hscan & Hrun) | Hno];
    [| congruence].
  rewrite Hrun in H. injection H as <-.
  destruct (ip_scan_some _ _ _ _ Hscan) as [Hi Hallow].
  destruct (ip_allows_spec vm wfi i ltac:(lia) Hallow) as (Hip & Hie & Hgate).
  pose proof (interrupt_target_range vm i ltac:(lia)) as Hrange.
  assert (Ht : priv_mode (riscv32_perform_interrupt (wfi_resume vm wfi) i)
               = interrupt_target vm i) by (destruct wfi; reflexivity).
  exists i. split; [lia |].
  split; [destruct wfi; cbn; apply aset_eq |].
  split; [exact Hip |]. split; [exact Hie |].
  intros target. subst target.
  change (deleg_scan (ideleg (csr vm)) (Z.land i 3) i 3)
    with (interrupt_target vm i).
  split; [exact Ht |].
  split; [destruct Hgate as [Hlt | [Heq _]]; lia |].
  intros Heq. destruct Hgate as [Hlt | [Heq3 Hen]]; [lia |].
  replace (interrupt_target vm i) with (Z.land i 3) by lia. exact Hen.
Qed.

(** C5.  When [riscv32_handle_ip] delivers an interrupt with [wfi] set, the
    PC the interrupt saves in [epc] and the PC of the hart afterwards are
    the old PC plus 4 (in 32-bit arithmetic), and [ev_trap] is set; when it
    delivers none, the hart, and so its PC, is unchanged. *)
Theorem handle_ip_wfi_pc
    (vm vm' : riscv32_vm_state_t) (wfi fired : bool) :
  riscv32_handle_ip vm wfi = (fired, vm') ->
  let pc := riscv32i_read_register_u vm REGISTER_PC in
  let pc' := riscv32i_read_register_u vm' REGISTER_PC in
  (fired = true -> wfi = true ->
     pc' = wrap32 (pc + 4) /\
     (pc + 4 < 2 ^ 32 -> pc' = pc + 4) /\
     epc (csr vm') (priv_mode vm') = pc' /\
     ev_trap vm' = true) /\
  (fired = false -> vm' = vm /\ pc' = pc).
Proof.
  intros H pc pc'. subst pc pc'.
  destruct (handle_ip_cases vm wfi) as [(i & Hscan & Hrun) | Hno].
  - rewrite Hrun in H. injection H as <- <-.
    split; [| discriminate]. intros _ ->.
    assert (Hpc : riscv32i_read_register_u
                    (riscv32_perform_interrupt (wfi_resume vm true) i) REGISTER_PC
                  = wrap32 (riscv32i_read_register_u vm REGISTER_PC + 4)).
    { unfold riscv32i_read_register_u. cbn -[wrap32 aset].
      rewrite aset_eq. apply wrap32_idem. }
    split; [exact Hpc |].
    split.
    { intros Hsmall. rewrite Hpc. apply wrap32_small.
      pose proof (wrap32_u32 (registers vm REGISTER_PC)) as Hu.
      unfold riscv32i_read_register_u in *. unfold u32 in *. lia. }
    split; [| reflexivity].
    rewrite Hpc. unfold riscv32i_read_register_u. cbn -[wrap32 aset].
    rewrite !aset_eq. apply wrap32_idem.
  - rewrite Hno in H. injection H as <- <-.
    split; [discriminate |]. intros _. split; reflexivity.
Qed.

Lemma handle_ip_fires_only_when_witness :
  let r := riscv32_handle_ip timer_vm true in
  fst r = true /\
  exists i,
    1 <= i <= 11 /\
    cause (csr (snd r)) (priv_mode (snd r)) = Z.lor i INTERRUPT_MASK /\
    Z.testbit (ip (csr timer_vm)) i = true /\
    Z.testbit (ie (csr timer_vm)) i = true /\
    let target := deleg_scan (ideleg (csr timer_vm)) (Z.land i 3) i 3 in
    priv_mode (snd r) = target /\
    priv_mode timer_vm <= target /\
    (target = priv_mode timer_vm ->
     Z.testbit (status (csr timer_vm)) target = true \/ true = true).
Proof.
  intros r. split; [reflexivity |].
  apply (handle_ip_fires_only_when timer_vm true (snd r)).
  reflexivity.
Defined.

(** C2, with the target found by the scan that traps use (down to the
    current privilege), fails: a hart in User mode with UIE clear takes
    the supervisor timer interrupt, which [ideleg] delegates at every
    level.  The gate compares the level [5 & 3] of the interrupt, 1, with
    the current privilege, 0, and the interrupt is delivered to Supervisor
    mode, where the scan of [riscv32_perform_interrupt] stops. *)
Lemma fires_only_when_trap_rule_fails :
  riscv32_handle_ip user_stimer_vm false
    = (true, riscv32_perform_interrupt user_stimer_vm 5) /\
  priv_mode (riscv32_perform_interrupt user_stimer_vm 5) = PRIVILEGE_SUPERVISOR /\
  deleg_scan (ideleg (csr user_stimer_vm)) (priv_mode user_stimer_vm) 5
             (Z.to_nat PRIVILEGE_MACHINE) = priv_mode user_stimer_vm /\
  Z.testbit (status (csr user_stimer_vm)) (priv_mode user_stimer_vm) = false /\
  ~ fires_only_when_trap_rule user_stimer_vm false.
Proof.
  split; [reflexivity |]. split; [reflexivity |]. split; [reflexivity |].
  split; [reflexivity |].
  intros H.
  destruct (H (riscv32_perform_interrupt user_stimer_vm 5) eq_refl)
    as (i & Hi & Hc & _ & _ & _ & Hen).
  assert (Hl : cause (csr (riscv32_perform_interrupt user_stimer_vm 5))
                 (priv_mode (riscv32_perform_interrupt user_stimer_vm 5))
               = 0x80000005) by reflexivity.
  rewrite Hl in Hc.
  assert (Hcases : i = 1 \/ i = 2 \/ i = 3 \/ i = 4 \/ i = 5 \/ i = 6 \/
                   i = 7 \/ i = 8 \/ i = 9 \/ i = 10 \/ i = 11) by lia.
  assert (Hi5 : i = 5).
  { repeat (destruct Hcases as [-> | Hcases];
            [try reflexivity; vm_compute in Hc; discriminate |]).
    subst i. vm_compute in Hc. discriminate. }
  subst i. destruct (Hen eq_refl) as [Hb | Hw]; discriminate.
Qed.

Lemma handle_ip_wfi_pc_witness :
  let r := riscv32_handle_ip timer_vm true in
  fst r = true /\
  riscv32i_read_register_u timer_vm REGISTER_PC = 0x80001000 /\
  riscv32i_read_register_u (snd r) REGISTER_PC = 0x80001004 /\
  epc (csr (snd r)) (priv_mode (snd r)) = 0x80001004 /\
  ev_trap (snd r) = true.
Proof.
  intros r.
  assert (Hr : riscv32_handle_ip timer_vm true = (true, snd r)) by reflexivity.
  destruct (handle_ip_wfi_pc timer_vm (snd r) true true Hr) as [Hfire _].
  destruct (Hfire eq_refl eq_refl) as (Hpc & _ & Hepc & Hev).
  split; [reflexivity |]. split; [reflexivity |].
  split; [rewrite Hpc; reflexivity |].
  split; [rewrite Hepc, Hpc; reflexivity | exact Hev].
Defined.

(** ** The hart loop *)

Lemma not_bit7_testbit k :
  0 <= k ->
  Z.testbit (not32 (bit INTERRUPT_MTIMER)) k = (k <? 32) && negb (k =? 7).
Proof.
  intros Hk. unfold not32. rewrite bit_pow2 by (unfold INTERRUPT_MTIMER; lia).
  rewrite wrap32_testbit, Z.lnot_spec by exact Hk.
  change INTERRUPT_MTIMER with 7. rewrite Z.pow2_bits_eqb by lia.
  now rewrite (Z.eqb_sym 7 k).
Qed.

(** C8.  When the hart loop handles an external interrupt event,
    [ev_int_mask] is OR-ed into [csr.ip]; the MTIMER bit of the result is
    kept exactly when the timer is pending, that is, it is cleared if and
    only if it was set and the timer is no longer pending; every other
    bit is kept; and [riscv32_handle_ip] is consulted on the hart with
    this [ip], with [ev_int] lowered. *)
Theorem run_events_folds_and_reconciles (vm : riscv32_vm_state_t) :
  ev_trap vm = false -> ev_int vm = true ->
  u32 (ip (csr vm)) -> u32 (ev_int_mask vm) ->
  let ip1 := Z.lor (ip (csr vm)) (ev_int_mask vm) in
  let vm2 := Upd.vm_ev_int false (reconcile_timer (fold_ev_int_mask vm)) in
  let ip2 := ip (csr vm2) in
  (forall k, 0 <= k ->
     Z.testbit ip2 k =
       if k =? INTERRUPT_MTIMER
       then Z.testbit ip1 k && rvtimer_pending (timer vm)
       else Z.testbit ip1 k) /\
  ((Z.testbit ip1 INTERRUPT_MTIMER = true /\
    Z.testbit ip2 INTERRUPT_MTIMER = false) <->
   (Z.testbit ip1 INTERRUPT_MTIMER = true /\
    rvtimer_pending (timer vm) = false)) /\
  vm2 = Upd.vm_ev_int false (Upd.vm_csr (Upd.csr_ip ip2 (csr vm)) vm) /\
  run_events vm =
    (let '(fired, v) := riscv32_handle_ip vm2 false in
     if fired then riscv32_trap_jump v else v).
Proof.
  intros Htrap Hint Hip Hmask ip1 vm2 ip2.
  assert (Hbits : forall k, 0 <= k ->
     Z.testbit ip2 k =
       if k =? INTERRUPT_MTIMER
       then Z.testbit ip1 k && rvtimer_pending (timer vm)
       else Z.testbit ip1 k).
  { intros k Hk. subst ip2 vm2. unfold reconcile_timer.
    change (ip (csr (fold_ev_int_mask vm))) with ip1.
    change (timer (fold_ev_int_mask vm)) with (timer vm).
    rewrite land_bit_testbit by (unfold INTERRUPT_MTIMER; lia). rewrite negb_involutive.
    change INTERRUPT_MTIMER with 7.
    destruct (Z.testbit ip1 7) eqn:Hb7.
    - destruct (rvtimer_pending (timer vm)); cbn [negb].
      + change (ip (csr (Upd.vm_ev_int false (fold_ev_int_mask vm)))) with ip1.
        destruct (Z.eqb_spec k 7) as [-> | _];
          [rewrite Hb7; reflexivity | reflexivity].
      + cbn -[Z.testbit not32 bit Z.land]. fold ip1.
        rewrite Z.land_spec, not_bit7_testbit by exact Hk.
        destruct (Z.eqb_spec k 7) as [-> | Hne].
        * rewrite Hb7. reflexivity.
        * destruct (Z.ltb_spec k 32) as [Hlt | Hge]; cbn [andb negb].
          -- apply andb_true_r.
          -- rewrite andb_false_r. subst ip1. rewrite Z.lor_spec.
             rewrite (u32_testbit_high _ k Hip), (u32_testbit_high _ k Hmask);
               [reflexivity | lia | lia].
    - change (ip (csr (Upd.vm_ev_int false (fold_ev_int_mask vm)))) with ip1.
      destruct (Z.eqb_spec k 7) as [-> | _];
        [rewrite Hb7; reflexivity | reflexivity]. }
  split; [exact Hbits |].
  split.
  { rewrite (Hbits INTERRUPT_MTIMER) by (unfold INTERRUPT_MTIMER; lia).
    rewrite Z.eqb_refl.
    destruct (Z.testbit ip1 INTERRUPT_MTIMER), (rvtimer_pending (timer vm));
      cbn; intuition congruence. }
  split.
  { subst ip2 vm2. unfold reconcile_timer.
    destruct (negb (Z.land _ _ =? 0)); [| reflexivity].
    destruct (negb (rvtimer_pending _)); reflexivity. }
  unfold run_events. rewrite Htrap, Hint. reflexivity.
Qed.

Lemma run_events_folds_and_reconciles_witness :
  ev_trap woken_vm = false /\ ev_int woken_vm = true /\
  u32 (ip (csr woken_vm)) /\ u32 (ev_int_mask woken_vm) /\
  Z.testbit (Z.lor (ip (csr woken_vm)) (ev_int_mask woken_vm)) INTERRUPT_MTIMER = true /\
  rvtimer_pending (timer woken_vm) = false /\
  Z.testbit
    (ip (csr (Upd.vm_ev_int false (reconcile_timer (fold_ev_int_mask woken_vm)))))
    INTERRUPT_MTIMER = false.
Proof.
  assert (H1 : u32 (ip (csr woken_vm)))
    by (vm_compute; split; [discriminate | reflexivity]).
  assert (H2 : u32 (ev_int_mask woken_vm))
    by (vm_compute; split; [discriminate | reflexivity]).
  pose proof (run_events_folds_and_reconciles woken_vm eq_refl eq_refl H1 H2)
    as H.
  cbv zeta in H. destruct H as (_ & Hiff & _).
  destruct (proj2 Hiff (conj eq_refl eq_refl)) as [Hset Hclr].
  split; [reflexivity |]. split; [reflexivity |].
  split; [exact H1 |]. split; [exact H2 |].
  split; [exact Hset |]. split; [reflexivity | exact Hclr].
Defined.

Lemma land_not3_u32 x : wrap32 (Z.land x (not32 3)) = Z.land x (not32 3).
Proof.
  unfold wrap32, wrap. rewrite <- Z.land_ones by lia.
  rewrite <- Z.land_assoc. reflexivity.
Qed.

(** The PC after the trap-vector jump: the base of [tvec], plus four times
    the stored cause whenever the low bit of [tvec] is set. *)
Lemma trap_jump_pc vm :
  let tv := tvec (csr vm) (priv_mode vm) in
  riscv32i_read_register_u (riscv32_trap_jump vm) REGISTER_PC =
    if Z.testbit tv 0
    then wrap32 (Z.land tv (not32 3) + shl32 (cause (csr vm) (priv_mode vm)) 2)
    else Z.land tv (not32 3).
Proof.
  intros tv. subst tv.
  unfold riscv32_trap_jump, riscv32i_write_register_u, riscv32i_read_register_u.
  cbn -[wrap32 wrap64 aset not32 shl32 Z.land Z.testbit].
  rewrite aset_eq, wrap32_idem.
  replace (Z.land (tvec (csr vm) (priv_mode vm)) 1 =? 0)
    with (negb (Z.testbit (tvec (csr vm) (priv_mode vm)) 0))
    by (symmetry; apply (land_bit_testbit _ 0); lia).
  rewrite negb_involutive.
  destruct (Z.testbit (tvec (csr vm) (priv_mode vm)) 0).
  - unfold wrap32, wrap64, wrap.
    apply Z.mod_mod_divide. exists (2 ^ 32). reflexivity.
  - apply land_not3_u32.
Qed.

(** The offset of an interrupt in the vectored mode is four times its
    number: the shift drops the interrupt flag of the stored cause. *)
Lemma interrupt_cause_offset i :
  0 <= i < 32 -> shl32 (Z.lor i INTERRUPT_MASK) 2 = 4 * i.
Proof.
  intros Hi. unfold shl32, INTERRUPT_MASK.
  assert (Hc : i = 0 \/ i = 1 \/ i = 2 \/ i = 3 \/ i = 4 \/ i = 5 \/ i = 6 \/
               i = 7 \/ i = 8 \/ i = 9 \/ i = 10 \/ i = 11 \/ i = 12 \/
               i = 13 \/ i = 14 \/ i = 15 \/ i = 16 \/ i = 17 \/ i = 18 \/
               i = 19 \/ i = 20 \/ i = 21 \/ i = 22 \/ i = 23 \/ i = 24 \/
               i = 25 \/ i = 26 \/ i = 27 \/ i = 28 \/ i = 29 \/ i = 30 \/
               i = 31) by lia.
  repeat (destruct Hc as [-> | Hc]; [reflexivity |]). subst i. reflexivity.
Qed.

(** C4 at a synchronous trap.  The hart is in Machine mode with
    [mtvec = 0x80000001]; an illegal-instruction trap (cause 2, a
    synchronous trap) is raised and the hart loop takes the event.  The PC
    becomes [0x80000008], the base plus [cause << 2], not the base
    [0x80000000]. *)
Theorem trap_jump_offsets_synchronous_trap :
  let vm := riscv32_trap vectored_vm TRAP_ILL_INSTR 0 in
  let vm' := run_events vm in
  priv_mode vm = PRIVILEGE_MACHINE /\
  cause (csr vm) PRIVILEGE_MACHINE = TRAP_ILL_INSTR /\
  Z.land (cause (csr vm) PRIVILEGE_MACHINE) INTERRUPT_MASK = 0 /\
  Z.land (tvec (csr vm) PRIVILEGE_MACHINE) (not32 3) = 0x80000000 /\
  riscv32i_read_register_u vm' REGISTER_PC = 0x80000008.
Proof. repeat split. Qed.

(** ** Claims on the hart registry *)

(** C7.  [riscv32_create_vm] returns [NULL] when the hart id is 256 or more
    and when the allocation of the hart state fails; in both cases the
    process state, and with it the registry and its count, is left as it
    was: no hart has been registered. *)
Theorem create_vm_failure (env : host_env) (w : machine) (hid : Z) :
  MAX_VMS <= hid \/ calloc_vm env = NULL ->
  exists w',
    riscv32_create_vm env w hid = Some (NULL, w') /\
    w' = w /\
    global_vm_list w' = global_vm_list w /\
    global_vm_count w' = global_vm_count w /\
    registered w' = registered w.
Proof.
  intros Hfail. exists w. unfold riscv32_create_vm.
  destruct (Z.geb_spec hid MAX_VMS) as [Hge | Hlt]; [repeat split |].
  destruct Hfail as [Hge | Hnull]; [lia |].
  rewrite Hnull. repeat split.
Qed.

Lemma create_vm_failure_witness :
  (MAX_VMS <= 256 \/ calloc_vm env_ok = NULL) /\
  (MAX_VMS <= 0 \/ calloc_vm env_no_memory = NULL) /\
  riscv32_create_vm env_ok machine_init 256 = Some (NULL, machine_init) /\
  riscv32_create_vm env_no_memory machine_init 0 = Some (NULL, machine_init) /\
  registered machine_init = [].
Proof.
  assert (H1 : MAX_VMS <= 256 \/ calloc_vm env_ok = NULL)
    by (left; vm_compute; discriminate).
  assert (H2 : MAX_VMS <= 0 \/ calloc_vm env_no_memory = NULL)
    by (right; reflexivity).
  destruct (create_vm_failure env_ok machine_init 256 H1) as (w1 & E1 & -> & _).
  destruct (create_vm_failure env_no_memory machine_init 0 H2) as (w2 & E2 & -> & _).
  repeat split; assumption || reflexivity.
Defined.

(** [deregister_vm] leaves the count alone and calls [thread_kill] exactly
    when the count is zero. *)
Lemma deregister_vm_spec w vm w' :
  deregister_vm w vm = Some w' ->
  global_vm_count w' = global_vm_count w /\
  global_irq_thread w' = global_irq_thread w /\
  (global_vm_count w <> 0 -> host_log w' = host_log w) /\
  (global_vm_count w = 0 ->
   exists rest,
     host_log w' = host_log w ++ ev_thread_kill (global_irq_thread w) :: rest).
Proof.
  unfold deregister_vm. destruct (heap w !! vm) as [s |]; [| discriminate].
  cbn. destruct (Z.eqb_spec (global_vm_count w) 0) as [Hz | Hnz].
  - intros [= <-]. unfold thread_kill. cbn.
    destruct (global_irq_thread w =? NULL); cbn.
    + repeat split; try congruence. intros _. exists []. reflexivity.
    + repeat split; try congruence. intros _.
      exists [ev_pthread_cancel (global_irq_thread w)].
      now rewrite <- app_assoc.
  - intros [= <-]. cbn. repeat split; try congruence.
Qed.

Lemma register_vm_count w vm hid w' :
  register_vm w vm hid = (true, w') ->
  global_vm_count w' = wrap64 (global_vm_count w + 1) /\
  host_log w' = host_log w.
Proof.
  unfold register_vm. destruct (hid >=? MAX_VMS); [discriminate |].
  intros [= <-]. split; reflexivity.
Qed.

(** Once a hart has been registered the count is not zero, and no later
    [deregister_vm] brings it back: [thread_kill] is not called. *)
Lemma deregister_after_register w vm hid w1 vm' w2 :
  0 <= global_vm_count w < 2 ^ 64 - 1 ->
  register_vm w vm hid = (true, w1) ->
  deregister_vm w1 vm' = Some w2 ->
  host_log w2 = host_log w /\ global_vm_count w2 = global_vm_count w + 1.
Proof.
  intros Hc Hreg Hder.
  destruct (register_vm_count _ _ _ _ Hreg) as [Hcount Hlog].
  destruct (deregister_vm_spec _ _ _ Hder) as (Hc2 & _ & Hkeep & _).
  assert (Hw : wrap64 (global_vm_count w + 1) = global_vm_count w + 1).
  { apply Z.mod_small. lia. }
  rewrite Hc2, Hcount, Hw. split; [| reflexivity].
  rewrite Hkeep, Hlog; [reflexivity |]. rewrite Hcount, Hw. lia.
Qed.

(** C6 at the last hart.  The first hart (id 0) is created on a fresh
    process, which starts the IRQ thread, and is then deregistered.  The
    registry is empty afterwards, yet the count is still 1 and the host has
    seen no [thread_kill]: the IRQ thread is not cancelled. *)
Theorem deregister_last_hart_keeps_irq_thread :
  match riscv32_create_vm env_ok machine_init 0 with
  | Some (vm, w1) =>
      vm = calloc_vm env_ok /\
      registered w1 = [vm] /\
      global_vm_count w1 = 1 /\
      global_irq_thread w1 = malloc_thread env_ok /\
      host_log w1 = [ev_pthread_create (malloc_thread env_ok)] /\
      match deregister_vm w1 vm with
      | Some w2 =>
          registered w2 = [] /\
          global_vm_count w2 = 1 /\
          host_log w2 = [ev_pthread_create (malloc_thread env_ok)]
      | None => False
      end
  | None => False
  end.
Proof. vm_compute. repeat split. Qed.

(** ** Claims on the ATA device *)

Section AtaClaims.

Import ATA.

Lemma store_bytes_zero memory_data n :
  take n (store_bytes memory_data (replicate n 0)) = replicate n 0 /\
  drop n (store_bytes memory_data (replicate n 0)) = drop n memory_data.
Proof.
  unfold store_bytes. rewrite length_replicate. split.
  - apply take_app_length'. now rewrite length_replicate.
  - apply drop_app_length'. now rewrite length_replicate.
Qed.

(** C10.  A read of the data register (offset 0 of the data window) while
    the selected drive has nothing left to transfer stores [size] zero
    bytes at [memory_data], returns [true], and leaves the device, with
    the status, error and sector count of the drive, and the files as
    they were. *)
Theorem data_read_idle_zero_fill
    (fs : gmap Z FILE) (ata : ata_dev) (memory_data : list Z) (sz : Z) :
  bytes_to_rw (cur ata) = 0 ->
  exists md',
    ata_data_mmio_handler fs ata 0 memory_data sz MMU_READ
      = Some (true, ata, fs, md') /\
    take (Z.to_nat sz) md' = replicate (Z.to_nat sz) 0 /\
    drop (Z.to_nat sz) md' = drop (Z.to_nat sz) memory_data.
Proof.
  intros Hidle.
  exists (store_bytes memory_data (replicate (Z.to_nat sz) 0)).
  split; [| apply store_bytes_zero].
  unfold ata_data_mmio_handler.
  change (Z.land 0 (Z.shiftl 1 ATA_REG_SHIFT - 1) =? 0) with true.
  change (Z.shiftr 0 ATA_REG_SHIFT) with 0.
  change (0 =? ATA_REG_DATA) with true.
  cbn [negb andb is_write]. rewrite andb_false_r.
  unfold data_read. rewrite Hidle. reflexivity.
Qed.

Lemma data_read_idle_zero_fill_witness :
  bytes_to_rw (cur ata_zero) = 0 /\
  exists md',
    ata_data_mmio_handler two_disks ata_zero 0 [0xAA; 0xBB; 0xCC; 0xDD; 0xEE]
                          4 MMU_READ
      = Some (true, ata_zero, two_disks, md') /\
    take 4 md' = [0; 0; 0; 0] /\
    drop 4 md' = [0xEE].
Proof.
  split; [reflexivity |].
  apply (data_read_idle_zero_fill two_disks ata_zero
           [0xAA; 0xBB; 0xCC; 0xDD; 0xEE] 4).
  reflexivity.
Defined.

Lemma stream_not_null fs fp m : stream fs fp = Some m -> fp <> NULL.
Proof.
  unfold stream. destruct (Z.eqb_spec fp NULL); [discriminate | auto].
Qed.

Lemma stream_insert fs fp m : fp <> NULL -> stream (<[fp := m]> fs) fp = Some m.
Proof.
  intros Hfp. unfold stream.
  destruct (Z.eqb_spec fp NULL); [contradiction |]. apply lookup_insert_eq.
Qed.

(** [get_img_size] on a seekable, non-empty file: its length, with the
    stream rewound. *)
Lemma get_img_size_length fs fp m :
  stream fs fp = Some m -> f_seekable m = true ->
  0 < Z.of_nat (length (f_bytes m)) ->
  exists fs' m',
    get_img_size fs fp = Some (Z.of_nat (length (f_bytes m)), fs') /\
    stream fs' fp = Some m' /\
    f_bytes m' = f_bytes m /\ f_seekable m' = true.
Proof.
  intros Hs Hseek Hlen. pose proof (stream_not_null _ _ _ Hs) as Hfp.
  set (len := Z.of_nat (length (f_bytes m))) in *.
  exists (<[fp := set_pos 0 (set_pos len m)]> (<[fp := set_pos len m]> fs)),
         (set_pos 0 (set_pos len m)).
  split; [| split; [apply stream_insert; exact Hfp | split; [reflexivity | exact Hseek]]].
  unfold get_img_size, fseek_end. rewrite Hs. cbn [mbind option_bind].
  rewrite Hseek. fold len. cbn [mbind option_bind].
  unfold ftell. rewrite stream_insert by exact Hfp. cbn [mbind option_bind].
  cbn [set_pos f_seekable f_pos]. rewrite Hseek.
  destruct (Z.ltb_spec len 0); [lia |].
  destruct (Z.eqb_spec len 0); [lia |].
  unfold fseek_set. rewrite stream_insert by exact Hfp. cbn [mbind option_bind].
  cbn [set_pos f_seekable]. rewrite Hseek. reflexivity.
Qed.

Lemma DIV_ROUND_UP_pos len :
  0 < len < 2 ^ 63 -> 0 < DIV_ROUND_UP len SECTOR_SIZE.
Proof.
  intros Hlen. unfold DIV_ROUND_UP, SECTOR_SIZE, wrap64, wrap.
  rewrite Z.mod_small by lia.
  apply Z.div_str_pos. lia.
Qed.

(** C9.  With a master image that is seekable and not empty, [ata_init]
    gives the slave drive, whatever the slave file is, the sector count of
    the master image: [drive[1].size] is computed from [drive[0].fp]. *)
Theorem ata_init_slave_size_from_master
    (fs : gmap Z FILE) (vm : riscv32_vm_state_t)
    (ata_ptr data_base_addr ctl_base_addr master slave : Z) (m : FILE) :
  ata_ptr <> NULL ->
  stream fs master = Some m ->
  f_seekable m = true ->
  0 < Z.of_nat (length (f_bytes m)) < 2 ^ 63 ->
  exists vm' ata fs',
    ata_init fs vm ata_ptr data_base_addr ctl_base_addr master slave
      = Some (vm', ata, fs') /\
    fp (drive ata 0) = master /\
    fp (drive ata 1) = slave /\
    size (drive ata 1)
      = DIV_ROUND_UP (Z.of_nat (length (f_bytes m))) SECTOR_SIZE /\
    size (drive ata 1) = size (drive ata 0).
Proof.
  intros Hptr Hs Hseek Hlen.
  pose proof (stream_not_null _ _ _ Hs) as Hmaster.
  pose proof (DIV_ROUND_UP_pos _ Hlen) as Hpos.
  destruct (get_img_size_length fs master m Hs Hseek (proj1 Hlen))
    as (fs1 & m1 & Hg1 & Hs1 & Hb1 & Hseek1).
  assert (Hlen1 : 0 < Z.of_nat (length (f_bytes m1))) by (rewrite Hb1; lia).
  destruct (get_img_size_length fs1 master m1 Hs1 Hseek1 Hlen1)
    as (fs2 & m2 & Hg2 & _).
  rewrite Hb1 in Hg2.
  unfold ata_init.
  rewrite option_guard_True by (left; exact Hmaster).
  rewrite option_guard_True by exact Hptr.
  cbn [set_fp fp drive_zero]. rewrite Hg1. cbn [mbind option_bind].
  cbn [set_size size fp].
  set (n := DIV_ROUND_UP (Z.of_nat (length (f_bytes m))) SECTOR_SIZE) in *.
  destruct (Z.eqb_spec n 0) as [Hz | Hnz]; [lia |].
  change (fp (set_size n (set_fp master drive_zero))) with master.
  rewrite Hg2. cbn [mbind option_bind]. fold n.
  destruct (Z.eqb_spec n 0) as [Hz | _]; [lia |].
  do 3 eexists. split; [reflexivity |].
  repeat split.
Qed.

Lemma ata_init_slave_size_from_master_witness :
  0x1 <> NULL /\
  stream two_disks 0x10 = Some master_img /\
  f_seekable master_img = true /\
  0 < Z.of_nat (length (f_bytes master_img)) < 2 ^ 63 /\
  exists vm' ata fs',
    ata_init two_disks vm_zero 0x1 0x40000000 0x40001000 0x10 0x20
      = Some (vm', ata, fs') /\
    fp (drive ata 0) = 0x10 /\
    fp (drive ata 1) = 0x20 /\
    size (drive ata 1) = 2 /\
    size (drive ata 1) = size (drive ata 0).
Proof.
  assert (H1 : 0x1 <> NULL) by discriminate.
  assert (H2 : stream two_disks 0x10 = Some master_img) by reflexivity.
  assert (H3 : 0 < Z.of_nat (length (f_bytes master_img)) < 2 ^ 63)
    by (vm_compute; split; reflexivity).
  split; [exact H1 |]. split; [exact H2 |]. split; [reflexivity |].
  split; [exact H3 |].
  destruct (ata_init_slave_size_from_master two_disks vm_zero 0x1
              0x40000000 0x40001000 0x10 0x20 master_img H1 H2 eq_refl H3)
    as (vm' & ata & fs' & E & F0 & F1 & Hsz & Heq).
  exists vm', ata, fs'. repeat split; assumption.
Defined.

(** C9, for every pair of image files, fails when the master image is
    empty: [drive[0].size] is then 0, [drive[0].fp] is set to [NULL], and
    the size of the slave is asked of that [NULL] stream, so that
    [ata_init] has no defined result and the slave drive reports
    nothing. *)
Lemma slave_reports_master_size_fails :
  stream empty_master_disks 0x10 = Some empty_img /\
  stream empty_master_disks 0x20 = Some slave_img /\
  ata_init empty_master_disks vm_zero 0x1 0x40000000 0x40001000 0x10 0x20
    = None /\
  ~ slave_reports_master_size empty_master_disks vm_zero 0x1
      0x40000000 0x40001000 0x10 0x20 empty_img.
Proof.
  assert (Hnone : ata_init empty_master_disks vm_zero 0x1
                    0x40000000 0x40001000 0x10 0x20 = None)
    by (vm_compute; reflexivity).
  split; [reflexivity |]. split; [reflexivity |]. split; [exact Hnone |].
  intros (vm' & ata & fs' & Hrun & _). rewrite Hnone in Hrun. discriminate.
Qed.

End AtaClaims.

(** * Further properties of the code *)

(** ** The interrupt gate and its priority order *)

Lemma ip_allows_complete vm wfi i :
  0 <= i < 32 -> deliverable vm wfi i -> ip_allows vm wfi i = true.
Proof.
  intros Hi (Hip & Hie & Hgate). unfold ip_allows.
  pose proof (land3_range i (proj1 Hi)) as H3.
  rewrite wrap8_land3 by lia.
  rewrite !land_bit_testbit by lia.
  rewrite !negb_involutive, Hip, Hie. cbn [andb].
  destruct (Z.gtb_spec (Z.land i 3) (priv_mode vm)) as [Hgt | Hle];
    [reflexivity |].
  cbn [negb]. destruct Hgate as [Hlt | [Heq Hen]]; [lia |].
  rewrite Heq, Z.eqb_refl. rewrite Heq in Hen. cbn [andb].
  destruct Hen as [-> | ->]; [reflexivity | apply orb_true_r].
Qed.

Lemma ip_allows_deliverable vm wfi i :
  0 <= i < 32 -> ip_allows vm wfi i = true -> deliverable vm wfi i.
Proof. intros Hi Ha. exact (ip_allows_spec vm wfi i Hi Ha). Qed.

Lemma ip_scan_above vm wfi n j :
  ip_scan vm wfi n = Some j ->
  forall k, j < k <= Z.of_nat n -> ip_allows vm wfi k = false.
Proof.
  induction n as [| n IH]; cbn [ip_scan]; [discriminate |].
  destruct (ip_allows vm wfi (Z.of_nat (S n))) eqn:Ha.
  - intros [= <-] k Hk. lia.
  - intros H k Hk.
    destruct (Z.eq_dec k (Z.of_nat (S n))) as [-> | Hne]; [exact Ha |].
    apply (IH H). lia.
Qed.

Lemma ip_scan_finds vm wfi n i :
  1 <= i <= Z.of_nat n -> ip_allows vm wfi i = true ->
  exists j, i <= j <= Z.of_nat n /\ ip_scan vm wfi n = Some j.
Proof.
  induction n as [| n IH]; intros Hi Ha; [lia |].
  cbn [ip_scan].
  destruct (ip_allows vm wfi (Z.of_nat (S n))) eqn:Hn.
  - exists (Z.of_nat (S n)). split; [lia | reflexivity].
  - destruct (Z.eq_dec i (Z.of_nat (S n))) as [-> | Hne]; [congruence |].
    destruct IH as (j & Hj & Hs); [lia | exact Ha |].
    exists j. split; [lia | exact Hs].
Qed.

Lemma deliverable_pending vm wfi i :
  0 <= i -> deliverable vm wfi i -> ip (csr vm) <> 0.
Proof.
  intros Hi (Hip & _) H0. rewrite H0, Z.bits_0 in Hip. discriminate.
Qed.

Lemma handle_ip_of_scan vm wfi j :
  ip_scan vm wfi 11 = Some j ->
  riscv32_handle_ip vm wfi
    = (true, riscv32_perform_interrupt (wfi_resume vm wfi) j).
Proof.
  intros Hs. destruct (ip_scan_some _ _ _ _ Hs) as [Hj Ha].
  pose proof (ip_allows_deliverable vm wfi j ltac:(lia) Ha) as Hd.
  pose proof (deliverable_pending vm wfi j ltac:(lia) Hd) as Hne.
  unfold riscv32_handle_ip, wfi_resume.
  destruct (Z.eqb_spec (ip (csr vm)) 0) as [He | _]; [contradiction |].
  cbn [negb]. rewrite Hs. destruct wfi; reflexivity.
Qed.

(** X1.  When some interrupt of 1..11 passes the gate,
    [riscv32_handle_ip] delivers the highest-numbered one that does. *)
Theorem handle_ip_delivers_highest
    (vm : riscv32_vm_state_t) (wfi : bool) (i : Z) :
  1 <= i <= 11 -> deliverable vm wfi i ->
  exists j,
    i <= j <= 11 /\
    deliverable vm wfi j /\
    (forall k, j < k <= 11 -> ~ deliverable vm wfi k) /\
    riscv32_handle_ip vm wfi
      = (true, riscv32_perform_interrupt (wfi_resume vm wfi) j).
Proof.
  intros Hi Hd.
  pose proof (ip_allows_complete vm wfi i ltac:(lia) Hd) as Ha.
  destruct (ip_scan_finds vm wfi 11 i ltac:(lia) Ha) as (j & Hj & Hs).
  destruct (ip_scan_some _ _ _ _ Hs) as [_ Haj].
  exists j. split; [lia |].
  split; [apply ip_allows_deliverable; [lia | exact Haj] |].
  split; [| apply handle_ip_of_scan; exact Hs].
  intros k Hk Hdk.
  pose proof (ip_scan_above _ _ _ _ Hs k ltac:(lia)) as Hf.
  rewrite (ip_allows_complete vm wfi k ltac:(lia) Hdk) in Hf. discriminate.
Qed.

Lemma handle_ip_delivers_highest_witness :
  1 <= 1 <= 11 /\ deliverable two_pending_vm false 1 /\
  deliverable two_pending_vm false 7 /\
  fst (riscv32_handle_ip two_pending_vm false) = true /\
  cause (csr (snd (riscv32_handle_ip two_pending_vm false))) PRIVILEGE_MACHINE
    = 0x80000007.
Proof.
  assert (H1 : 1 <= 1 <= 11) by lia.
  assert (H2 : deliverable two_pending_vm false 1).
  { repeat split. right. split; [reflexivity | left; reflexivity]. }
  assert (H7 : deliverable two_pending_vm false 7).
  { repeat split. left. vm_compute. reflexivity. }
  destruct (handle_ip_delivers_highest two_pending_vm false 1 H1 H2)
    as (j & Hj & _ & _ & Hrun).
  split; [exact H1 |]. split; [exact H2 |]. split; [exact H7 |].
  split; reflexivity.
Defined.

(** X2.  [riscv32_handle_ip] delivers nothing and leaves the hart as it is
    exactly when no interrupt of 1..11 passes the gate; interrupt 0 is not
    looked at. *)
Theorem handle_ip_idle_iff (vm : riscv32_vm_state_t) (wfi : bool) :
  riscv32_handle_ip vm wfi = (false, vm) <->
  (forall i, 1 <= i <= 11 -> ~ deliverable vm wfi i).
Proof.
  split.
  - intros Hrun i Hi Hd.
    pose proof (ip_allows_complete vm wfi i ltac:(lia) Hd) as Ha.
    destruct (ip_scan_finds vm wfi 11 i ltac:(lia) Ha) as (j & _ & Hs).
    rewrite (handle_ip_of_scan _ _ _ Hs) in Hrun. discriminate.
  - intros Hnone. destruct (handle_ip_cases vm wfi) as [(j & Hs & _) | Hno];
      [| exact Hno].
    destruct (ip_scan_some _ _ _ _ Hs) as [Hj Ha].
    exfalso. apply (Hnone j ltac:(lia)).
    apply ip_allows_deliverable; [lia | exact Ha].
Qed.

(** ** Interrupt delivery through the hart loop *)

Lemma save_status_machine_fields st cur :
  u32 st -> 0 <= cur < 4 ->
  let st' := save_status st PRIVILEGE_MACHINE cur in
  bit_cut st' 11 2 = cur /\
  Z.testbit st' 7 = Z.testbit st 3 /\
  Z.testbit st' 3 = false.
Proof.
  intros Hst Hcur st'. subst st'. repeat split.
  - apply Z.bits_inj'. intros j Hj.
    rewrite bit_cut_testbit, save_status_machine by (try exact Hst; lia).
    destruct (Z.ltb_spec j 2) as [Hlt | Hge].
    + replace ((j + 11 =? 11) || (j + 11 =? 12)) with true
        by (symmetry; apply orb_true_iff; lia).
      rewrite andb_true_r. f_equal. lia.
    + rewrite andb_false_r. symmetry.
      apply (small_testbit_high _ 2); lia.
  - now rewrite save_status_machine by (try exact Hst; lia).
  - now rewrite save_status_machine by (try exact Hst; lia).
Qed.

Lemma save_status_supervisor_fields st cur :
  u32 st -> 0 <= cur < 2 ->
  let st' := save_status st PRIVILEGE_SUPERVISOR cur in
  bit_cut st' 8 1 = cur /\
  Z.testbit st' 5 = Z.testbit st 1 /\
  Z.testbit st' 1 = false.
Proof.
  intros Hst Hcur st'. subst st'. repeat split.
  - rewrite bit_cut_1, save_status_supervisor by (try exact Hst; lia).
    cbn [Z.eqb Pos.eqb].
    assert (Hc : cur = 0 \/ cur = 1) by lia.
    destruct Hc as [-> | ->]; reflexivity.
  - now rewrite save_status_supervisor by (try exact Hst; lia).
  - now rewrite save_status_supervisor by (try exact Hst; lia).
Qed.

Lemma lor_interrupt_mask j :
  0 <= j < 32 -> Z.lor j INTERRUPT_MASK = j + 0x80000000.
Proof.
  intros Hj. unfold INTERRUPT_MASK.
  rewrite <- Z.add_nocarry_lor; [reflexivity |].
  apply Z.bits_inj'. intros k Hk. rewrite Z.land_spec, Z.bits_0.
  change 0x80000000 with (2 ^ 31). rewrite Z.pow2_bits_eqb by lia.
  destruct (Z.eqb_spec 31 k) as [<- | _]; [| apply andb_false_r].
  rewrite andb_true_r. apply (small_testbit_high j 5); cbn; lia.
Qed.

(** X3.  An interrupt [j] that [riscv32_handle_ip] delivers is delivered
    like a trap: at the target privilege [p], [cause[p]] is [j] with the
    top bit set, [epc[p]] is the PC (already advanced by 4 under WFI),
    [tval[p]] is 0; [p] is at least the level [j & 3] of the interrupt;
    for [p] Machine or Supervisor the previous privilege goes to xPP and
    xIE to xPIE, and xIE is cleared.  [ev_trap] is raised only under
    WFI. *)
Theorem handle_ip_delivery_state
    (vm : riscv32_vm_state_t) (wfi : bool) (vm' : riscv32_vm_state_t) :
  u32 (status (csr vm)) -> 0 <= priv_mode vm ->
  riscv32_handle_ip vm wfi = (true, vm') ->
  let p := priv_mode vm' in
  let st := status (csr vm) in
  let st' := status (csr vm') in
  exists j,
    1 <= j <= 11 /\
    cause (csr vm') p = j + 0x80000000 /\
    epc (csr vm') p = riscv32i_read_register_u (wfi_resume vm wfi) REGISTER_PC /\
    tval (csr vm') p = 0 /\
    Z.land j 3 <= p <= PRIVILEGE_MACHINE /\
    ev_trap vm' = ev_trap vm || wfi /\
    (p = PRIVILEGE_MACHINE ->
       bit_cut st' 11 2 = priv_mode vm /\
       Z.testbit st' 7 = Z.testbit st 3 /\
       Z.testbit st' 3 = false) /\
    (p = PRIVILEGE_SUPERVISOR ->
       bit_cut st' 8 1 = priv_mode vm /\
       Z.testbit st' 5 = Z.testbit st 1 /\
       Z.testbit st' 1 = false).
Proof.
  intros Hst Hpriv Hrun p st st'.
  destruct (handle_ip_cases vm wfi) as [(j & Hs & Hrun') | Hno];
    [| congruence].
  rewrite Hrun' in Hrun. injection Hrun as Hvm'.
  destruct (ip_scan_some _ _ _ _ Hs) as [Hj Ha].
  destruct (ip_allows_spec vm wfi j ltac:(lia) Ha) as (_ & _ & Hgate).
  pose proof (interrupt_target_range vm j ltac:(lia)) as Hrange.
  pose proof (land3_range j ltac:(lia)) as H3.
  assert (Hp : p = interrupt_target vm j)
    by (subst p vm'; destruct wfi; reflexivity).
  assert (Hst' : st' = save_status st (interrupt_target vm j) (priv_mode vm))
    by (subst st' st vm'; destruct wfi; reflexivity).
  assert (Hle : priv_mode vm <= Z.land j 3)
    by (destruct Hgate as [Hlt | [Heq _]]; lia).
  exists j. split; [lia |].
  split.
  { rewrite Hp, <- lor_interrupt_mask by lia.
    subst vm'. destruct wfi; cbn; apply aset_eq. }
  split.
  { rewrite Hp. subst vm'. destruct wfi; cbn -[wrap32]; apply aset_eq. }
  split.
  { rewrite Hp. subst vm'. destruct wfi; cbn; apply aset_eq. }
  split; [rewrite Hp; exact Hrange |].
  split.
  { subst vm'. destruct wfi; cbn; [symmetry; apply orb_true_r | now rewrite orb_false_r]. }
  rewrite Hst', <- Hp. split; intros Hpm; rewrite Hpm.
  - apply save_status_machine_fields; [exact Hst |].
    unfold PRIVILEGE_MACHINE in *. lia.
  - apply save_status_supervisor_fields; [exact Hst |].
    unfold PRIVILEGE_SUPERVISOR in *. lia.
Qed.

Lemma handle_ip_delivery_state_witness :
  let r := riscv32_handle_ip timer_vm true in
  u32 (status (csr timer_vm)) /\ 0 <= priv_mode timer_vm /\
  fst r = true /\
  exists j,
    1 <= j <= 11 /\
    cause (csr (snd r)) (priv_mode (snd r)) = j + 0x80000000 /\
    ev_trap (snd r) = true.
Proof.
  intros r.
  assert (H1 : u32 (status (csr timer_vm)))
    by (vm_compute; split; [discriminate | reflexivity]).
  assert (H2 : 0 <= priv_mode timer_vm) by (vm_compute; discriminate).
  assert (H3 : riscv32_handle_ip timer_vm true = (true, snd r)) by reflexivity.
  pose proof (handle_ip_delivery_state timer_vm true (snd r) H1 H2 H3) as H.
  cbv zeta in H. destruct H as (j & Hj & Hc & _ & _ & _ & He & _).
  split; [exact H1 |]. split; [exact H2 |]. split; [reflexivity |].
  exists j. split; [exact Hj |]. split; [exact Hc | exact He].
Defined.

Lemma after_fold_frame vm :
  let v := after_fold vm in
  ie (csr v) = ie (csr vm) /\ status (csr v) = status (csr vm) /\
  ideleg (csr v) = ideleg (csr vm) /\ tvec (csr v) = tvec (csr vm) /\
  priv_mode v = priv_mode vm /\ registers v = registers vm /\
  ev_trap v = ev_trap vm /\ ev_int_mask v = ev_int_mask vm /\
  ev_int v = false.
Proof.
  unfold after_fold, reconcile_timer.
  destruct (negb (Z.land _ _ =? 0)); [| repeat split].
  destruct (negb (rvtimer_pending _)); repeat split.
Qed.

(** Bits of [ip] once the mask is folded in and the timer reconciled. *)
Lemma after_fold_ip_testbit vm k :
  u32 (ip (csr vm)) -> u32 (ev_int_mask vm) -> 0 <= k ->
  Z.testbit (ip (csr (after_fold vm))) k =
    if k =? INTERRUPT_MTIMER
    then Z.testbit (Z.lor (ip (csr vm)) (ev_int_mask vm)) k
         && rvtimer_pending (timer vm)
    else Z.testbit (Z.lor (ip (csr vm)) (ev_int_mask vm)) k.
Proof.
  intros Hip Hmask Hk. set (ip1 := Z.lor (ip (csr vm)) (ev_int_mask vm)).
  unfold after_fold, reconcile_timer.
  change (ip (csr (fold_ev_int_mask vm))) with ip1.
  change (timer (fold_ev_int_mask vm)) with (timer vm).
  rewrite land_bit_testbit by (unfold INTERRUPT_MTIMER; lia).
  rewrite negb_involutive. change INTERRUPT_MTIMER with 7.
  destruct (Z.testbit ip1 7) eqn:Hb7.
  - destruct (rvtimer_pending (timer vm)); cbn [negb].
    + change (ip (csr (Upd.vm_ev_int false (fold_ev_int_mask vm)))) with ip1.
      destruct (Z.eqb_spec k 7) as [-> | _];
        [rewrite Hb7; reflexivity | reflexivity].
    + cbn -[Z.testbit not32 bit Z.land]. fold ip1.
      rewrite Z.land_spec, not_bit7_testbit by exact Hk.
      destruct (Z.eqb_spec k 7) as [-> | Hne].
      * rewrite Hb7. reflexivity.
      * destruct (Z.ltb_spec k 32) as [Hlt | Hge]; cbn [andb negb].
        -- apply andb_true_r.
        -- rewrite andb_false_r. subst ip1. rewrite Z.lor_spec.
           rewrite (u32_testbit_high _ k Hip), (u32_testbit_high _ k Hmask);
             [reflexivity | lia | lia].
  - change (ip (csr (Upd.vm_ev_int false (fold_ev_int_mask vm)))) with ip1.
    destruct (Z.eqb_spec k 7) as [-> | _];
      [rewrite Hb7; reflexivity | reflexivity].
Qed.

Lemma run_events_of_scan vm j :
  ev_trap vm = false -> ev_int vm = true ->
  ip_scan (after_fold vm) false 11 = Some j ->
  run_events vm
    = riscv32_trap_jump (riscv32_perform_interrupt (after_fold vm) j).
Proof.
  intros Ht Hi Hs. unfold run_events. rewrite Ht, Hi.
  fold (after_fold vm). rewrite (handle_ip_of_scan _ _ _ Hs). reflexivity.
Qed.

(** The interrupt the loop delivers when [c] passes the gate after the
    fold: the highest enabled one from [c] upwards. *)
Lemma after_fold_scan vm c :
  u32 (ip (csr vm)) -> u32 (ev_int_mask vm) ->
  1 <= c <= 11 ->
  Z.testbit (Z.lor (ip (csr vm)) (ev_int_mask vm)) c = true ->
  (c = 7 -> rvtimer_pending (timer vm) = true) ->
  Z.testbit (ie (csr vm)) c = true ->
  (priv_mode vm < Z.land c 3 \/
   (Z.land c 3 = priv_mode vm /\
    Z.testbit (status (csr vm)) (Z.land c 3) = true)) ->
  exists j, c <= j <= 11 /\ Z.testbit (ie (csr vm)) j = true /\
    ip_scan (after_fold vm) false 11 = Some j.
Proof.
  intros Hip Hmask Hc Hbit Htimer Hie Hgate.
  destruct (after_fold_frame vm) as (Fie & Fst & _ & _ & Fpriv & _).
  assert (Hd : deliverable (after_fold vm) false c).
  { unfold deliverable. rewrite Fie, Fst, Fpriv.
    rewrite after_fold_ip_testbit by (try assumption; lia).
    split; [| split; [exact Hie | tauto]].
    change INTERRUPT_MTIMER with 7.
    destruct (Z.eqb_spec c 7) as [H7 | _]; [| exact Hbit].
    rewrite Hbit, (Htimer H7). reflexivity. }
  pose proof (ip_allows_complete _ _ c ltac:(lia) Hd) as Ha.
  destruct (ip_scan_finds _ _ 11 c ltac:(lia) Ha) as (j & Hj & Hs).
  destruct (ip_scan_some _ _ _ _ Hs) as [_ Haj].
  destruct (ip_allows_deliverable _ _ j ltac:(lia) Haj) as (_ & Hiej & _).
  rewrite Fie in Hiej.
  exists j. split; [lia |]. split; [exact Hiej | exact Hs].
Qed.

(** X4.  A machine-level interrupt [j] (3, 7 or 11) that is posted, enabled
    and not outranked by a higher enabled one is taken by the next
    [ev_int] round of the hart loop: the hart enters Machine mode with
    [mcause = 0x80000000 + j], [mepc] the interrupted PC, MPP/MPIE saved and
    MIE cleared, and the PC at the base of [mtvec], plus [4 * j] in the
    vectored mode.  The machine timer (7) is taken only when the timer is
    pending. *)
Theorem run_events_machine_interrupt (vm : riscv32_vm_state_t) (j : Z) :
  ev_trap vm = false -> ev_int vm = true ->
  u32 (ip (csr vm)) -> u32 (ev_int_mask vm) -> u32 (status (csr vm)) ->
  0 <= priv_mode vm <= PRIVILEGE_MACHINE ->
  (priv_mode vm = PRIVILEGE_MACHINE -> Z.testbit (status (csr vm)) 3 = true) ->
  j = 3 \/ j = 7 \/ j = 11 ->
  Z.testbit (Z.lor (ip (csr vm)) (ev_int_mask vm)) j = true ->
  (j = 7 -> rvtimer_pending (timer vm) = true) ->
  Z.testbit (ie (csr vm)) j = true ->
  (forall k, j < k <= 11 -> Z.testbit (ie (csr vm)) k = false) ->
  let vm' := run_events vm in
  let tv := tvec (csr vm) PRIVILEGE_MACHINE in
  priv_mode vm' = PRIVILEGE_MACHINE /\
  cause (csr vm') PRIVILEGE_MACHINE = j + 0x80000000 /\
  epc (csr vm') PRIVILEGE_MACHINE = riscv32i_read_register_u vm REGISTER_PC /\
  tval (csr vm') PRIVILEGE_MACHINE = 0 /\
  bit_cut (status (csr vm')) 11 2 = priv_mode vm /\
  Z.testbit (status (csr vm')) 7 = Z.testbit (status (csr vm)) 3 /\
  Z.testbit (status (csr vm')) 3 = false /\
  ev_int vm' = false /\
  riscv32i_read_register_u vm' REGISTER_PC =
    if Z.testbit tv 0
    then wrap32 (Z.land tv (not32 3) + 4 * j)
    else Z.land tv (not32 3).
Proof.
  intros Ht Hi Hip Hmask Hst Hpriv Hmie Hj Hbit Htimer Hie Hhigher vm' tv.
  assert (Hl3 : Z.land j 3 = 3) by (destruct Hj as [-> | [-> | ->]]; reflexivity).
  assert (Hjr : 1 <= j <= 11) by lia.
  destruct (after_fold_scan vm j Hip Hmask Hjr Hbit Htimer Hie) as (j' & Hj' & Hie' & Hs).
  { rewrite Hl3. unfold PRIVILEGE_MACHINE in *.
    destruct (Z.eq_dec (priv_mode vm) 3) as [H3 | Hn3]; [right | left; lia].
    split; [congruence | apply Hmie; exact H3]. }
  assert (j' = j).
  { destruct (Z.eq_dec j' j) as [-> | Hne]; [reflexivity |].
    rewrite Hhigher in Hie' by lia. discriminate. }
  subst j'. clear Hj' Hie'.
  destruct (after_fold_frame vm) as (Fie & Fst & Fid & Ftv & Fpriv & Freg & _ & _ & Fint).
  set (v := after_fold vm) in *.
  assert (Htar : interrupt_target v j = PRIVILEGE_MACHINE).
  { unfold interrupt_target. rewrite Hl3. reflexivity. }
  assert (Hrun : vm' = riscv32_trap_jump (riscv32_perform_interrupt v j))
    by (subst vm'; apply run_events_of_scan; assumption).
  assert (Hst' : status (csr vm')
                 = save_status (status (csr vm)) PRIVILEGE_MACHINE (priv_mode vm)).
  { rewrite Hrun.
    change (status (csr (riscv32_trap_jump (riscv32_perform_interrupt v j))))
      with (save_status (status (csr v)) (interrupt_target v j) (priv_mode v)).
    rewrite Htar, Fst, Fpriv. reflexivity. }
  destruct (save_status_machine_fields (status (csr vm)) (priv_mode vm) Hst)
    as (Hpp & Hpie & Hmie'); [unfold PRIVILEGE_MACHINE in *; lia |].
  split; [rewrite Hrun; exact Htar |].
  split.
  { rewrite Hrun, <- lor_interrupt_mask by lia.
    cbn. rewrite Htar. apply aset_eq. }
  split.
  { rewrite Hrun. cbn -[wrap32]. rewrite Htar, aset_eq.
    unfold riscv32i_read_register_u. now rewrite Freg. }
  split; [rewrite Hrun; cbn; rewrite Htar; apply aset_eq |].
  rewrite Hst'. split; [exact Hpp |]. split; [exact Hpie |].
  split; [exact Hmie' |].
  split; [rewrite Hrun; exact Fint |].
  rewrite Hrun, trap_jump_pc.
  change (priv_mode (riscv32_perform_interrupt v j)) with (interrupt_target v j).
  rewrite Htar.
  change (tvec (csr (riscv32_perform_interrupt v j))) with (tvec (csr v)).
  rewrite Ftv. fold tv.
  replace (shl32 (cause (csr (riscv32_perform_interrupt v j)) PRIVILEGE_MACHINE) 2)
    with (4 * j); [reflexivity |].
  rewrite <- (interrupt_cause_offset j) by lia. f_equal.
  cbn. rewrite Htar. symmetry. apply aset_eq.
Qed.

Lemma run_events_machine_interrupt_witness :
  let vm' := run_events expired_vm in
  ev_trap expired_vm = false /\ ev_int expired_vm = true /\
  rvtimer_pending (timer expired_vm) = true /\
  priv_mode vm' = PRIVILEGE_MACHINE /\
  cause (csr vm') PRIVILEGE_MACHINE = 0x80000007 /\
  epc (csr vm') PRIVILEGE_MACHINE = 0x80001000 /\
  Z.testbit (status (csr vm')) 3 = false /\
  riscv32i_read_register_u vm' REGISTER_PC = 0x80000000.
Proof.
  intros vm'.
  assert (U1 : u32 (ip (csr expired_vm)))
    by (vm_compute; split; [discriminate | reflexivity]).
  assert (U2 : u32 (ev_int_mask expired_vm))
    by (vm_compute; split; [discriminate | reflexivity]).
  assert (U3 : u32 (status (csr expired_vm)))
    by (vm_compute; split; [discriminate | reflexivity]).
  assert (P : 0 <= priv_mode expired_vm <= PRIVILEGE_MACHINE)
    by (vm_compute; split; discriminate).
  assert (Hh : forall k, 7 < k <= 11 -> Z.testbit (ie (csr expired_vm)) k = false).
  { intros k Hk.
    assert (Hc : k = 8 \/ k = 9 \/ k = 10 \/ k = 11) by lia.
    destruct Hc as [-> | [-> | [-> | ->]]]; reflexivity. }
  pose proof (run_events_machine_interrupt expired_vm 7 eq_refl eq_refl U1 U2 U3 P
                (fun _ => eq_refl) (or_intror (or_introl eq_refl)) eq_refl
                (fun _ => eq_refl) eq_refl Hh) as H.
  cbv zeta in H. destruct H as (Hp & Hc & He & _ & _ & _ & Hm & _ & Hpc).
  split; [reflexivity |]. split; [reflexivity |]. split; [reflexivity |].
  split; [exact Hp |]. split; [exact Hc |]. split; [exact He |].
  split; [exact Hm | exact Hpc].
Defined.

(** X5.  Whatever instruction engine [riscv32_run_till_event] the loop of
    [riscv32_run_impl] runs, the code of the loop after the engine has
    returned (the trap jump, or the fold of [ev_int_mask] into [ip], the
    timer test and the delivery of an interrupt) changes none of
    [ev_int_mask], [ie], [edeleg], [ideleg] and [tvec]: at the end of the
    iteration they are what the engine left.  In particular the loop
    itself never clears a bit of [ev_int_mask]. *)
Theorem run_iteration_keeps_mask
    (riscv32_run_till_event : riscv32_vm_state_t -> riscv32_vm_state_t)
    (vm : riscv32_vm_state_t) :
  let v := riscv32_run_till_event (Upd.vm_wait_event 1 vm) in
  let vm' := run_iteration riscv32_run_till_event vm in
  ev_int_mask vm' = ev_int_mask v /\
  ie (csr vm') = ie (csr v) /\
  edeleg (csr vm') = edeleg (csr v) /\
  ideleg (csr vm') = ideleg (csr v) /\
  tvec (csr vm') = tvec (csr v).
Proof.
  intros v vm'. subst vm'. unfold run_iteration. fold v. clearbody v.
  unfold run_events.
  destruct (ev_trap v); [repeat split |].
  destruct (ev_int v); [| repeat split].
  fold (after_fold v).
  destruct (after_fold_frame v) as (_ & _ & _ & _ & _ & _ & _ & Fmask & _).
  assert (Hf : ie (csr (after_fold v)) = ie (csr v) /\
               edeleg (csr (after_fold v)) = edeleg (csr v) /\
               ideleg (csr (after_fold v)) = ideleg (csr v) /\
               tvec (csr (after_fold v)) = tvec (csr v)).
  { unfold after_fold, reconcile_timer.
    destruct (negb (Z.land _ _ =? 0)); [| repeat split].
    destruct (negb (rvtimer_pending _)); repeat split. }
  destruct Hf as (F1 & F2 & F3 & F4).
  destruct (handle_ip_cases (after_fold v) false) as [(j & _ & ->) | ->].
  - cbn [wfi_resume]. rewrite <- Fmask, <- F1, <- F2, <- F3, <- F4.
    repeat split.
  - rewrite <- Fmask, <- F1, <- F2, <- F3, <- F4. repeat split.
Qed.

Lemma bit_testbit c k :
  0 <= c < 32 -> 0 <= k -> Z.testbit (bit c) k = (k =? c).
Proof.
  intros Hc Hk. rewrite bit_pow2 by exact Hc.
  rewrite Z.pow2_bits_eqb by lia. apply Z.eqb_sym.
Qed.

Lemma bit_u32 c : u32 (bit c).
Proof. apply wrap32_u32. Qed.

Lemma lor_u32 a b : u32 a -> u32 b -> u32 (Z.lor a b).
Proof.
  intros Ha Hb. split.
  - apply Z.lor_nonneg. split; [apply Ha | apply Hb].
  - destruct (Z.eq_dec (Z.lor a b) 0) as [-> | Hnz]; [reflexivity |].
    apply Z.log2_lt_pow2.
    + pose proof (proj2 (Z.lor_nonneg a b) (conj (proj1 Ha) (proj1 Hb))). lia.
    + rewrite Z.log2_lor by (apply Ha || apply Hb).
      destruct Ha as [Ha0 Ha1], Hb as [Hb0 Hb1].
      apply Z.max_lub_lt.
      * destruct (Z.eq_dec a 0) as [-> | Hna]; [reflexivity |].
        apply Z.log2_lt_pow2; lia.
      * destruct (Z.eq_dec b 0) as [-> | Hnb]; [reflexivity |].
        apply Z.log2_lt_pow2; lia.
Qed.

(** X6.  An interrupt [c] posted with [riscv32_interrupt] is taken at the
    next round of the hart loop when it is enabled and its level passes
    the privilege gate (for the machine timer: when the timer is pending):
    the loop delivers [c] or a higher enabled interrupt, lowers [ev_int],
    and the posted bit stays in [ev_int_mask]. *)
Theorem interrupt_is_taken (vm : riscv32_vm_state_t) (c : Z) :
  ev_trap vm = false ->
  u32 (ip (csr vm)) -> u32 (ev_int_mask vm) ->
  1 <= c <= 11 ->
  (c = 7 -> rvtimer_pending (timer vm) = true) ->
  Z.testbit (ie (csr vm)) c = true ->
  (priv_mode vm < Z.land c 3 \/
   (Z.land c 3 = priv_mode vm /\
    Z.testbit (status (csr vm)) (Z.land c 3) = true)) ->
  let vm' := run_events (riscv32_interrupt vm c) in
  exists j,
    c <= j <= 11 /\
    Z.testbit (ie (csr vm)) j = true /\
    cause (csr vm') (priv_mode vm') = j + 0x80000000 /\
    ev_int vm' = false /\
    ev_int_mask vm' = Z.lor (ev_int_mask vm) (bit c).
Proof.
  intros Ht Hip Hmask Hc Htimer Hie Hgate vm'.
  set (v0 := riscv32_interrupt vm c).
  assert (Hbit : Z.testbit (Z.lor (ip (csr v0)) (ev_int_mask v0)) c = true).
  { subst v0. cbn -[bit Z.testbit]. rewrite !Z.lor_spec.
    rewrite bit_testbit, Z.eqb_refl by lia. now rewrite !orb_true_r. }
  assert (Hm0 : u32 (ev_int_mask v0))
    by (subst v0; cbn -[bit]; apply lor_u32; [exact Hmask | apply bit_u32]).
  destruct (after_fold_scan v0 c Hip Hm0 Hc Hbit Htimer Hie Hgate)
    as (j & Hj & Hiej & Hs).
  assert (Hrun : vm' = riscv32_trap_jump
                         (riscv32_perform_interrupt (after_fold v0) j))
    by (subst vm'; apply run_events_of_scan; [exact Ht | reflexivity | exact Hs]).
  destruct (after_fold_frame v0) as (_ & _ & _ & _ & _ & _ & _ & Fmask & Fint).
  exists j. split; [exact Hj |]. split; [exact Hiej |].
  split.
  { rewrite Hrun, <- lor_interrupt_mask by lia. cbn. apply aset_eq. }
  split; [rewrite Hrun; exact Fint |].
  rewrite Hrun. exact Fmask.
Qed.

Lemma interrupt_is_taken_witness :
  let vm' := run_events (riscv32_interrupt enabled_vm 3) in
  ev_trap enabled_vm = false /\
  u32 (ip (csr enabled_vm)) /\ u32 (ev_int_mask enabled_vm) /\
  Z.testbit (ie (csr enabled_vm)) 3 = true /\
  exists j,
    3 <= j <= 11 /\
    Z.testbit (ie (csr enabled_vm)) j = true /\
    cause (csr vm') (priv_mode vm') = j + 0x80000000 /\
    ev_int vm' = false /\
    ev_int_mask vm' = Z.lor (ev_int_mask enabled_vm) (bit 3).
Proof.
  intros vm'.
  assert (U1 : u32 (ip (csr enabled_vm)))
    by (vm_compute; split; [discriminate | reflexivity]).
  assert (U2 : u32 (ev_int_mask enabled_vm))
    by (vm_compute; split; [discriminate | reflexivity]).
  assert (Hc : 1 <= 3 <= 11) by lia.
  assert (Ht : 3 = 7 -> rvtimer_pending (timer enabled_vm) = true)
    by (intros H; discriminate H).
  assert (Hg : priv_mode enabled_vm < Z.land 3 3 \/
               (Z.land 3 3 = priv_mode enabled_vm /\
                Z.testbit (status (csr enabled_vm)) (Z.land 3 3) = true))
    by (right; split; reflexivity).
  split; [reflexivity |]. split; [exact U1 |]. split; [exact U2 |].
  split; [reflexivity |].
  exact (interrupt_is_taken enabled_vm 3 eq_refl U1 U2 Hc Ht eq_refl Hg).
Defined.

(** ** Creating, finding and removing harts *)

Lemma share_devices_globals env w hid vm w1 :
  share_devices env w hid vm = Some w1 ->
  global_vm_list w1 = global_vm_list w /\
  global_vm_count w1 = global_vm_count w /\
  global_init w1 = global_init w /\
  host_log w1 = host_log w /\
  global_irq_thread w1 = global_irq_thread w.
Proof.
  unfold share_devices. intros H.
  destruct (head (registered w)) as [parent_vm |]; [| discriminate].
  cbn in H. destruct (heap w !! parent_vm) as [parent |]; [| discriminate].
  cbn in H. injection H as <-. repeat split.
Qed.

Lemma create_vm_tail_init env hid vm0 w1 vm w' :
  (let w2 := UpdM.hp (alter (hart_reset env hid vm0) vm0 (heap w1)) w1 in
   let '(ok, w3) := register_vm w2 vm0 hid in
   if negb ok
   then Some (NULL, UpdM.hp (delete vm0 (heap w3)) w3)
   else Some (vm0, w3)) = Some (vm, w') ->
  global_init w' = global_init w1.
Proof.
  unfold register_vm. destruct (hid >=? MAX_VMS); cbn; intros [= <- <-];
    reflexivity.
Qed.

(** What a successful [riscv32_create_vm] has done to the process. *)
Lemma create_vm_success env w hid vm w' :
  riscv32_create_vm env w hid = Some (vm, w') -> vm <> NULL ->
  hid < MAX_VMS /\ vm = calloc_vm env /\
  global_vm_list w' = <[Z.to_nat hid := vm]> (global_vm_list w) /\
  global_vm_count w' = wrap64 (global_vm_count w + 1) /\
  global_init w' = true /\
  (global_init w = true ->
   host_log w' = host_log w /\ global_irq_thread w' = global_irq_thread w) /\
  (global_init w = false ->
   phys_mem_ok env = true /\
   global_irq_thread w' = malloc_thread env /\
   host_log w' = host_log w ++
     (if malloc_thread env =? NULL then []
      else [ev_pthread_create (malloc_thread env)])) /\
  exists s, heap w' !! vm = Some s /\ hartid (csr s) = hid /\
    priv_mode s = PRIVILEGE_MACHINE /\ mmu_virtual s = false /\
    registers s REGISTER_PC = mem_begin (mem s).
Proof.
  unfold riscv32_create_vm. intros H Hvm.
  destruct (Z.geb_spec hid MAX_VMS) as [Hge | Hlt]; [congruence |].
  destruct (Z.eqb_spec (calloc_vm env) NULL) as [He | Hne]; [congruence |].
  set (w0 := UpdM.hp _ w) in H.
  assert (H0 : is_Some (heap w0 !! calloc_vm env)).
  { subst w0. cbn. rewrite lookup_insert_eq. eauto. }
  assert (G0 : global_vm_list w0 = global_vm_list w /\
               global_vm_count w0 = global_vm_count w /\
               global_init w0 = global_init w /\
               host_log w0 = host_log w /\
               global_irq_thread w0 = global_irq_thread w)
    by (subst w0; repeat split).
  destruct G0 as (L0 & C0 & I0 & Lg0 & T0).
  clearbody w0. split; [exact Hlt |].
  assert (Hfin : forall w1, is_Some (heap w1 !! calloc_vm env) ->
    (let w2 := UpdM.hp (alter (hart_reset env hid (calloc_vm env))
                          (calloc_vm env) (heap w1)) w1 in
     let '(ok, w3) := register_vm w2 (calloc_vm env) hid in
     if negb ok
     then Some (NULL, UpdM.hp (delete (calloc_vm env) (heap w3)) w3)
     else Some (calloc_vm env, w3)) = Some (vm, w') ->
    vm = calloc_vm env /\
    global_vm_list w' = <[Z.to_nat hid := vm]> (global_vm_list w1) /\
    global_vm_count w' = wrap64 (global_vm_count w1 + 1) /\
    global_init w' = global_init w1 /\
    host_log w' = host_log w1 /\
    global_irq_thread w' = global_irq_thread w1 /\
    exists s, heap w' !! vm = Some s /\ hartid (csr s) = hid /\
      priv_mode s = PRIVILEGE_MACHINE /\ mmu_virtual s = false /\
      registers s REGISTER_PC = mem_begin (mem s)).
  { intros w1 Hs1 Ht.
    pose proof (create_vm_tail_init _ _ _ _ _ _ Ht) as Hi.
    destruct (create_vm_tail _ _ _ _ _ _ Hlt Hs1 Ht)
      as (-> & Hl & Hc & Hlog & Hth & s1 & _ & Hs).
    repeat split; try assumption.
    eexists. split; [exact Hs |]. repeat split. }
  destruct (global_init w0) eqn:Hinit; cbn [negb] in H.
  - destruct (share_devices env w0 hid (calloc_vm env)) as [w1 |] eqn:Hs;
      [| discriminate].
    cbn -[register_vm] in H.
    destruct (share_devices_globals _ _ _ _ _ Hs) as (L1 & C1 & I1 & Lg1 & T1).
    apply Hfin in H; [| eapply share_devices_keeps; eassumption].
    destruct H as (-> & Hl & Hc & Hi & Hlog & Hth & Hst).
    rewrite Hl, Hc, Hi, Hlog, Hth, L1, C1, I1, Lg1, T1, L0, C0, Lg0, T0, Hinit.
    repeat split; try congruence; try exact Hst.
  - unfold devices_init in H. destruct (phys_mem_ok env); cbn [negb] in H;
      [| cbn in H; congruence].
    unfold thread_create in H.
    destruct (malloc_thread env =? NULL) eqn:Hm; cbn -[register_vm] in H;
      apply Hfin in H; try (cbn; apply lookup_alter_is_Some; exact H0);
      destruct H as (-> & Hl & Hc & Hi & Hlog & Hth & Hst);
      cbn in Hl, Hc, Hi, Hlog, Hth;
      rewrite Hl, Hc, Hi, Hlog, Hth, L0, C0, Lg0;
      repeat split; try congruence; try exact Hst.
    now rewrite app_nil_r.
Qed.

Lemma get_hart_insert_eq (w w' : machine) hid vm :
  0 <= hid < MAX_VMS ->
  length (global_vm_list w) = Z.to_nat MAX_VMS ->
  global_vm_list w' = <[Z.to_nat hid := vm]> (global_vm_list w) ->
  riscv32_get_hart_by_id w' hid = vm.
Proof.
  intros Hh Hlen Hl. unfold riscv32_get_hart_by_id.
  destruct (Z.geb_spec hid MAX_VMS); [lia |].
  rewrite Hl, list_lookup_insert_eq; [reflexivity |].
  rewrite Hlen. unfold MAX_VMS in *. lia.
Qed.

Lemma get_hart_insert_ne (w w' : machine) hid j vm :
  0 <= hid -> 0 <= j -> j <> hid ->
  global_vm_list w' = <[Z.to_nat hid := vm]> (global_vm_list w) ->
  riscv32_get_hart_by_id w' j = riscv32_get_hart_by_id w j.
Proof.
  intros Hh Hj Hne Hl. unfold riscv32_get_hart_by_id.
  destruct (j >=? MAX_VMS); [reflexivity |].
  rewrite Hl, list_lookup_insert_ne; [reflexivity | lia].
Qed.

(** X7.  After a successful [riscv32_create_vm] for hart id [hid],
    [riscv32_get_hart_by_id] finds the new hart under [hid] and answers
    for every other id as before; the new hart carries [hid] in
    [csr.hartid], is in Machine mode and starts at the base of physical
    memory. *)
Theorem create_vm_then_get_hart
    (env : host_env) (w : machine) (hid vm : Z) (w' : machine) :
  0 <= hid ->
  length (global_vm_list w) = Z.to_nat MAX_VMS ->
  riscv32_create_vm env w hid = Some (vm, w') -> vm <> NULL ->
  riscv32_get_hart_by_id w' hid = vm /\
  (forall j, 0 <= j -> j <> hid ->
     riscv32_get_hart_by_id w' j = riscv32_get_hart_by_id w j) /\
  length (global_vm_list w') = Z.to_nat MAX_VMS /\
  exists s, heap w' !! vm = Some s /\ hartid (csr s) = hid /\
    priv_mode s = PRIVILEGE_MACHINE /\
    registers s REGISTER_PC = mem_begin (mem s).
Proof.
  intros Hh Hlen Hc Hvm.
  destruct (create_vm_success _ _ _ _ _ Hc Hvm)
    as (Hlt & _ & Hl & _ & _ & _ & _ & s & Hs & Hid & Hp & _ & Hpc).
  split; [apply (get_hart_insert_eq w w' hid vm); [lia | exact Hlen | exact Hl] |].
  split; [intros j Hj Hne; exact (get_hart_insert_ne w w' hid j vm Hh Hj Hne Hl) |].
  split; [rewrite Hl, length_insert; exact Hlen |].
  exists s. auto.
Qed.

Lemma create_vm_then_get_hart_witness :
  match riscv32_create_vm env_ok machine_init 5 with
  | Some (vm, w') =>
      0 <= 5 /\ length (global_vm_list machine_init) = Z.to_nat MAX_VMS /\
      vm <> NULL /\
      riscv32_get_hart_by_id w' 5 = vm /\
      riscv32_get_hart_by_id w' 6 = NULL
  | None => False
  end.
Proof.
  destruct (riscv32_create_vm env_ok machine_init 5) as [[vm w'] |] eqn:E;
    [| vm_compute in E; discriminate].
  assert (H0 : 0 <= 5) by lia.
  assert (Hl : length (global_vm_list machine_init) = Z.to_nat MAX_VMS)
    by reflexivity.
  assert (Hvm : vm <> NULL).
  { vm_compute in E. injection E as <- _. discriminate. }
  destruct (create_vm_then_get_hart env_ok machine_init 5 vm w' H0 Hl E Hvm)
    as (Hget & Hother & _).
  repeat split; try assumption.
  rewrite Hother by lia. reflexivity.
Defined.

(** X8.  [deregister_vm] clears the registry slot named by the hart's
    [csr.hartid], so that [riscv32_get_hart_by_id] answers [NULL] for that
    id and as before for every other id; the hart state itself stays in
    memory. *)
Theorem deregister_vm_clears_slot
    (w : machine) (vm : Z) (s : riscv32_vm_state_t) :
  heap w !! vm = Some s ->
  0 <= hartid (csr s) ->
  exists w',
    deregister_vm w vm = Some w' /\
    riscv32_get_hart_by_id w' (hartid (csr s)) = NULL /\
    (forall j, 0 <= j -> j <> hartid (csr s) ->
       riscv32_get_hart_by_id w' j = riscv32_get_hart_by_id w j) /\
    heap w' = heap w.
Proof.
  intros Hs Hid. unfold deregister_vm. rewrite Hs. cbn [mbind option_bind].
  eexists. split; [reflexivity |].
  set (w1 := UpdM.vm_list _ w).
  assert (Hl : forall w2, global_vm_list w2 = global_vm_list w1 ->
            riscv32_get_hart_by_id w2 (hartid (csr s)) = NULL /\
            (forall j, 0 <= j -> j <> hartid (csr s) ->
               riscv32_get_hart_by_id w2 j = riscv32_get_hart_by_id w j)).
  { intros w2 H2. unfold riscv32_get_hart_by_id. rewrite H2. subst w1. cbn.
    split.
    - destruct (hartid (csr s) >=? MAX_VMS); [reflexivity |].
      destruct (decide (Z.to_nat (hartid (csr s)) < length (global_vm_list w))%nat)
        as [Hlt | Hge].
      + rewrite list_lookup_insert_eq by exact Hlt. reflexivity.
      + rewrite list_insert_ge by lia.
        rewrite lookup_ge_None_2 by lia. reflexivity.
    - intros j Hj Hne. destruct (j >=? MAX_VMS); [reflexivity |].
      rewrite list_lookup_insert_ne by lia. reflexivity. }
  destruct (global_vm_count w1 =? 0).
  - destruct (Hl (thread_kill w1 (global_irq_thread w1))) as [H1 H2].
    { unfold thread_kill. destruct (_ =? NULL); reflexivity. }
    split; [exact H1 |]. split; [exact H2 |].
    unfold thread_kill. destruct (_ =? NULL); reflexivity.
  - destruct (Hl w1 eq_refl) as [H1 H2].
    split; [exact H1 |]. split; [exact H2 | reflexivity].
Qed.

Lemma deregister_vm_clears_slot_witness :
  match heap booted !! calloc_vm env_ok with
  | Some s =>
      0 <= hartid (csr s) /\
      riscv32_get_hart_by_id booted (hartid (csr s)) = calloc_vm env_ok /\
      exists w',
        deregister_vm booted (calloc_vm env_ok) = Some w' /\
        riscv32_get_hart_by_id w' (hartid (csr s)) = NULL
  | None => False
  end.
Proof.
  destruct (heap booted !! calloc_vm env_ok) as [s |] eqn:E;
    [| vm_compute in E; discriminate].
  assert (Hid : hartid (csr s) = 0).
  { vm_compute in E. injection E as <-. reflexivity. }
  assert (H0 : 0 <= hartid (csr s)) by (rewrite Hid; lia).
  destruct (deregister_vm_clears_slot booted (calloc_vm env_ok) s E H0)
    as (w' & Hd & Hn & _).
  split; [exact H0 |]. split; [rewrite Hid; reflexivity |].
  exists w'. split; assumption.
Defined.

(** X9.  The IRQ thread is started by the first successful
    [riscv32_create_vm] of a process and by no later one: the first call
    stores the handle of [thread_create] in [global_irq_thread] (the
    thread runs only if that handle is not [NULL]), the second leaves the
    host and the handle alone. *)
Theorem irq_thread_started_once
    (env1 env2 : host_env) (w : machine) (hid1 hid2 vm1 vm2 : Z)
    (w1 w2 : machine) :
  global_init w = false ->
  riscv32_create_vm env1 w hid1 = Some (vm1, w1) -> vm1 <> NULL ->
  riscv32_create_vm env2 w1 hid2 = Some (vm2, w2) -> vm2 <> NULL ->
  global_irq_thread w1 = malloc_thread env1 /\
  host_log w1 = host_log w ++
    (if malloc_thread env1 =? NULL then []
     else [ev_pthread_create (malloc_thread env1)]) /\
  global_irq_thread w2 = global_irq_thread w1 /\
  host_log w2 = host_log w1.
Proof.
  intros Hinit Hc1 Hv1 Hc2 Hv2.
  destruct (create_vm_success _ _ _ _ _ Hc1 Hv1)
    as (_ & _ & _ & _ & Hi1 & _ & Hfirst & _).
  destruct (create_vm_success _ _ _ _ _ Hc2 Hv2)
    as (_ & _ & _ & _ & _ & Hlater & _ & _).
  destruct (Hfirst Hinit) as (_ & Ht & Hl).
  destruct (Hlater Hi1) as (Hl2 & Ht2).
  repeat split; assumption.
Qed.

Lemma irq_thread_started_once_witness :
  match riscv32_create_vm env_ok machine_init 0 with
  | Some (vm1, w1) =>
      match riscv32_create_vm env_ok2 w1 1 with
      | Some (vm2, w2) =>
          global_init machine_init = false /\ vm1 <> NULL /\ vm2 <> NULL /\
          host_log w1 = [ev_pthread_create 0x2000] /\
          host_log w2 = host_log w1 /\
          global_irq_thread w2 = 0x2000
      | None => False
      end
  | None => False
  end.
Proof.
  destruct (riscv32_create_vm env_ok machine_init 0) as [[vm1 w1] |] eqn:E1;
    [| vm_compute in E1; discriminate].
  assert (Hv1 : vm1 <> NULL).
  { vm_compute in E1. injection E1 as <- _. discriminate. }
  destruct (riscv32_create_vm env_ok2 w1 1) as [[vm2 w2] |] eqn:E2.
  - assert (Hv2 : vm2 <> NULL).
    { vm_compute in E1. injection E1 as _ <-.
      vm_compute in E2. injection E2 as <- _. discriminate. }
    destruct (irq_thread_started_once env_ok env_ok2 machine_init 0 1
                vm1 vm2 w1 w2 eq_refl E1 Hv1 E2 Hv2)
      as (Ht & Hl & Ht2 & Hl2).
    repeat split; try assumption.
    rewrite Ht2, Ht. reflexivity.
  - vm_compute in E1. injection E1 as _ <-. vm_compute in E2. discriminate.
Defined.

Lemma machine_eta (w : machine) :
  {| global_vm_list := global_vm_list w;
     global_vm_count := global_vm_count w;
     global_irq_thread := global_irq_thread w;
     global_screen_count := global_screen_count w;
     global_init := global_init w;
     heap := heap w;
     host_log := host_log w |} = w.
Proof. destruct w. reflexivity. Qed.

(** X10.  When the guest RAM cannot be allocated during the first
    creation, [riscv32_create_vm] frees the hart state and returns [NULL];
    the process is exactly as before: nothing is registered, no thread is
    started, and [global_init] stays clear, so a later call initialises
    again. *)
Theorem create_vm_no_ram (env : host_env) (w : machine) (hid : Z) :
  hid < MAX_VMS -> calloc_vm env <> NULL ->
  heap w !! calloc_vm env = None ->
  global_init w = false -> phys_mem_ok env = false ->
  riscv32_create_vm env w hid = Some (NULL, w).
Proof.
  intros Hlt Hne Hfresh Hinit Hram. unfold riscv32_create_vm.
  destruct (Z.geb_spec hid MAX_VMS); [lia |].
  destruct (Z.eqb_spec (calloc_vm env) NULL); [contradiction |].
  cbn [UpdM.hp global_init]. rewrite Hinit. cbn [negb].
  unfold devices_init. rewrite Hram. cbn.
  rewrite delete_insert_eq, delete_id by exact Hfresh.
  unfold UpdM.hp. cbn. now rewrite machine_eta.
Qed.

Lemma create_vm_no_ram_witness :
  0 < MAX_VMS /\ calloc_vm env_no_ram <> NULL /\
  heap machine_init !! calloc_vm env_no_ram = None /\
  riscv32_create_vm env_no_ram machine_init 0 = Some (NULL, machine_init).
Proof.
  assert (H1 : 0 < MAX_VMS) by reflexivity.
  assert (H2 : calloc_vm env_no_ram <> NULL) by discriminate.
  assert (H3 : heap machine_init !! calloc_vm env_no_ram = None) by reflexivity.
  split; [exact H1 |]. split; [exact H2 |]. split; [exact H3 |].
  exact (create_vm_no_ram env_no_ram machine_init 0 H1 H2 H3 eq_refl eq_refl).
Defined.

Lemma filter_all_null (l : list Z) :
  filter (fun p => p <> NULL) l = [] ->
  forall i x, l !! i = Some x -> x = NULL.
Proof.
  intros Hf i x Hi. destruct (decide (x = NULL)) as [-> | Hne]; [reflexivity |].
  exfalso. apply (filter_nil_not_elem_of _ _ x Hf Hne).
  eapply list_elem_of_lookup_2. exact Hi.
Qed.

Lemma registered_insert_null (l : list Z) i vm :
  filter (fun p => p <> NULL) l = [] ->
  filter (fun p => p <> NULL) (<[i := NULL]> (<[i := vm]> l)) = [].
Proof.
  intros Hf. rewrite list_insert_insert_eq.
  assert (Hid : <[i := NULL]> l = l).
  { apply list_insert_id'. intros Hlt.
    destruct (lookup_lt_is_Some_2 l i Hlt) as [x Hx].
    rewrite Hx. f_equal. exact (filter_all_null l Hf i x Hx). }
  now rewrite Hid.
Qed.

(** X11.  Once the only hart of a process has been deregistered, no hart
    can be created again: initialisation is marked done, so
    [riscv32_create_vm] looks for a registered parent hart, finds none and
    dereferences [NULL]. *)
Theorem create_vm_after_last_deregistered
    (env1 env2 : host_env) (w : machine) (hid1 hid2 vm : Z)
    (w1 w2 : machine) :
  registered w = [] ->
  riscv32_create_vm env1 w hid1 = Some (vm, w1) -> vm <> NULL ->
  deregister_vm w1 vm = Some w2 ->
  hid2 < MAX_VMS -> calloc_vm env2 <> NULL ->
  registered w2 = [] /\
  riscv32_create_vm env2 w2 hid2 = None.
Proof.
  intros Hreg Hc Hvm Hd Hlt Hne.
  destruct (create_vm_success _ _ _ _ _ Hc Hvm)
    as (_ & _ & Hl & _ & Hi1 & _ & _ & s & Hs & Hid & _).
  assert (Hw2 : global_vm_list w2 = <[Z.to_nat hid1 := NULL]> (global_vm_list w1)
                /\ global_init w2 = true).
  { unfold deregister_vm in Hd. rewrite Hs in Hd. cbn in Hd.
    rewrite Hid in Hd. injection Hd as <-.
    destruct (global_vm_count w1 =? 0); [| split; [reflexivity | exact Hi1]].
    unfold thread_kill. destruct (_ =? NULL); split; try reflexivity; exact Hi1. }
  destruct Hw2 as [Hl2 Hi2].
  assert (Hr2 : registered w2 = []).
  { unfold registered. rewrite Hl2, Hl. apply registered_insert_null. exact Hreg. }
  split; [exact Hr2 |].
  unfold riscv32_create_vm.
  destruct (Z.geb_spec hid2 MAX_VMS); [lia |].
  destruct (Z.eqb_spec (calloc_vm env2) NULL); [contradiction |].
  cbn [UpdM.hp global_init]. rewrite Hi2. cbn [negb].
  assert (Hrr : registered (UpdM.hp (<[calloc_vm env2 := vm_zero]> (heap w2)) w2)
                = []) by exact Hr2.
  unfold share_devices. rewrite Hrr. reflexivity.
Qed.

Lemma create_vm_after_last_deregistered_witness :
  registered machine_init = [] /\
  match riscv32_create_vm env_ok machine_init 0 with
  | Some (vm, w1) =>
      vm <> NULL /\
      match deregister_vm w1 vm with
      | Some w2 =>
          registered w2 = [] /\
          riscv32_create_vm env_ok2 w2 1 = None
      | None => False
      end
  | None => False
  end.
Proof.
  split; [reflexivity |].
  destruct (riscv32_create_vm env_ok machine_init 0) as [[vm w1] |] eqn:E1;
    [| vm_compute in E1; discriminate].
  assert (Hv : vm <> NULL).
  { vm_compute in E1. injection E1 as <- _. discriminate. }
  split; [exact Hv |].
  destruct (deregister_vm w1 vm) as [w2 |] eqn:E2.
  - apply (create_vm_after_last_deregistered env_ok env_ok2 machine_init 0 1
             vm w1 w2 eq_refl E1 Hv E2); [reflexivity | discriminate].
  - vm_compute in E1. injection E1 as <- <-. vm_compute in E2. discriminate.
Defined.

(** ** Harts after the first *)




(** ** The IRQ thread's round *)

Lemma interrupt_twice s c :
  riscv32_interrupt (riscv32_interrupt s c) c = riscv32_interrupt s c.
Proof.
  unfold riscv32_interrupt, set_ev_int_mask, Upd.vm_ev_int, Upd.vm_wait_event.
  cbn -[bit]. rewrite <- Z.lor_assoc, Z.lor_diag. reflexivity.
Qed.

Lemma irq_scan_posts (slots : list Z) :
  forall vmcnt count (h : gmap Z riscv32_vm_state_t),
  0 <= vmcnt ->
  vmcnt + Z.of_nat (length (filter (fun p => p <> NULL) slots)) <= count ->
  count < 2 ^ 64 ->
  (forall p, p ∈ filter (fun p => p <> NULL) slots -> is_Some (h !! p)) ->
  exists h',
    irq_scan slots vmcnt count h = Some h' /\
    forall p,
      h' !! p =
        if decide (p ∈ filter (fun p => p <> NULL) slots)
        then (fun s => riscv32_interrupt s INTERRUPT_MTIMER) <$> h !! p
        else h !! p.
Proof.
  induction slots as [| vm rest IH]; intros vmcnt count h Hv Hc H64 Hheap.
  - exists h. split; [reflexivity |]. intros p.
    rewrite filter_nil. destruct (decide (p ∈ [])) as [Hin | _]; [| reflexivity].
    inversion Hin.
  - cbn [irq_scan]. destruct (Z.eqb_spec vm NULL) as [-> | Hne].
    + rewrite filter_cons_False in * by (intros Hn; apply Hn; reflexivity).
      apply IH; assumption.
    + rewrite filter_cons_True in * by exact Hne.
      cbn [length] in Hc.
      destruct (Hheap vm) as [s Hs]; [apply elem_of_cons; now left |].
      rewrite Hs. cbn [mbind option_bind].
      change (Upd.vm_wait_event 0
                (Upd.vm_ev_int true
                   (set_ev_int_mask
                      (Z.lor (ev_int_mask s) (bit INTERRUPT_MTIMER)) s)))
        with (riscv32_interrupt s INTERRUPT_MTIMER).
      assert (Hw : wrap64 (vmcnt + 1) = vmcnt + 1) by (apply Z.mod_small; lia).
      rewrite Hw.
      destruct (Z.eqb_spec (vmcnt + 1) count) as [Heq | Hneq].
      * assert (Hnil : filter (fun p => p <> NULL) rest = []).
        { apply length_zero_iff_nil. lia. }
        rewrite Hnil. eexists. split; [reflexivity |]. intros p.
        destruct (decide (p = vm)) as [-> | Hp].
        -- rewrite lookup_insert_eq, Hs.
           destruct (decide (vm ∈ [vm])) as [_ | Hn]; [reflexivity |].
           exfalso. apply Hn. apply elem_of_cons. now left.
        -- rewrite lookup_insert_ne by congruence.
           destruct (decide (p ∈ [vm])) as [Hin | _]; [| reflexivity].
           apply elem_of_cons in Hin as [-> | Hin]; [contradiction | inversion Hin].
      * destruct (IH (vmcnt + 1) count
                    (<[vm := riscv32_interrupt s INTERRUPT_MTIMER]> h))
          as (h' & Hscan & Hh'); [lia | lia | exact H64 | |].
        { intros p Hp. destruct (decide (p = vm)) as [-> | Hpv].
          - rewrite lookup_insert_eq. eauto.
          - rewrite lookup_insert_ne by congruence.
            apply Hheap. apply elem_of_cons. now right. }
        exists h'. split; [exact Hscan |]. intros p. rewrite Hh'.
        destruct (decide (p = vm)) as [-> | Hpv].
        -- rewrite lookup_insert_eq, Hs.
           destruct (decide (vm ∈ vm :: _)) as [_ | Hn];
             [| exfalso; apply Hn; apply elem_of_cons; now left].
           destruct (decide (vm ∈ _)); cbn; [now rewrite interrupt_twice |].
           reflexivity.
        -- rewrite lookup_insert_ne by congruence.
           destruct (decide (p ∈ filter _ rest)) as [Hin | Hnin];
             destruct (decide (p ∈ vm :: filter _ rest)) as [Hin' | Hnin'];
             try reflexivity.
           ++ exfalso. apply Hnin'. apply elem_of_cons. now right.
           ++ apply elem_of_cons in Hin' as [-> | Hin']; contradiction.
Qed.

(** X13.  One round of the IRQ thread does to every registered hart what
    [riscv32_interrupt (vm, INTERRUPT_MTIMER)] does, whatever the hart's
    timer says, and touches no other hart and none of the globals;
    the count of registrations has to cover the registered harts, as it
    does since it is never decremented. *)
Theorem irq_tick_posts_timer (w : machine) :
  (forall p, p ∈ registered w -> is_Some (heap w !! p)) ->
  Z.of_nat (length (registered w)) <= global_vm_count w < 2 ^ 64 ->
  exists w',
    global_irq_tick w = Some w' /\
    global_vm_list w' = global_vm_list w /\
    global_vm_count w' = global_vm_count w /\
    host_log w' = host_log w /\
    forall p,
      heap w' !! p =
        if decide (p ∈ registered w)
        then (fun s => riscv32_interrupt s INTERRUPT_MTIMER) <$> heap w !! p
        else heap w !! p.
Proof.
  intros Hheap [Hc H64]. unfold global_irq_tick.
  destruct (irq_scan_posts (global_vm_list w) 0 (global_vm_count w) (heap w))
    as (h' & Hscan & Hh'); try assumption; try lia.
  rewrite Hscan. cbn [mbind option_bind].
  eexists. split; [reflexivity |]. repeat split. exact Hh'.
Qed.

Lemma irq_tick_posts_timer_witness :
  (forall p, p ∈ registered booted -> is_Some (heap booted !! p)) /\
  Z.of_nat (length (registered booted)) <= global_vm_count booted < 2 ^ 64 /\
  exists w',
    global_irq_tick booted = Some w' /\
    (ev_int_mask <$> heap w' !! calloc_vm env_ok) = Some 0x80 /\
    (ev_int <$> heap w' !! calloc_vm env_ok) = Some true.
Proof.
  assert (H1 : forall p, p ∈ registered booted -> is_Some (heap booted !! p)).
  { intros p Hp. change (registered booted) with [calloc_vm env_ok] in Hp.
    apply elem_of_cons in Hp as [-> | Hp]; [| inversion Hp].
    vm_compute. eauto. }
  assert (H2 : Z.of_nat (length (registered booted))
               <= global_vm_count booted < 2 ^ 64)
    by (vm_compute; split; [discriminate | reflexivity]).
  split; [exact H1 |]. split; [exact H2 |].
  destruct (irq_tick_posts_timer booted H1 H2) as (w' & Ht & _ & _ & _ & Hh).
  exists w'. split; [exact Ht |].
  rewrite !Hh. split; reflexivity.
Defined.

(** ** Register names *)

Lemma below_cases (P : Z -> Prop) (n : nat) :
  (forall k, (k < n)%nat -> P (Z.of_nat k)) ->
  forall z, 0 <= z < Z.of_nat n -> P z.
Proof.
  intros H z Hz. rewrite <- (Z2Nat.id z) by lia. apply H. lia.
Qed.

Lemma translate_register_table :
  forallb (fun i =>
    forallb (fun j =>
      match riscv32i_translate_register (Z.of_nat i),
            riscv32i_translate_register (Z.of_nat j) with
      | Some a, Some b =>
          negb (String.eqb a "unknown") &&
          implb (String.eqb a b) (Nat.eqb i j)
      | _, _ => false
      end) (seq 0 33)) (seq 0 33) = true.
Proof. vm_compute. reflexivity. Qed.

(** X14.  Every register number the assertion of
    [riscv32i_translate_register] lets through has a name of its own: the
    [default] case is never reached, and two registers with the same name
    are the same register. *)
Theorem translate_register_injective (r1 r2 : Z) :
  0 <= r1 < REGISTERS_MAX -> 0 <= r2 < REGISTERS_MAX ->
  exists n1 n2,
    riscv32i_translate_register r1 = Some n1 /\
    riscv32i_translate_register r2 = Some n2 /\
    n1 <> "unknown"%string /\
    (n1 = n2 -> r1 = r2).
Proof.
  intros H1 H2.
  pose proof translate_register_table as T.
  rewrite forallb_forall in T.
  pattern r1. apply (below_cases _ 33); [| exact H1]. intros i Hi.
  pattern r2. apply (below_cases _ 33); [| exact H2]. intros j Hj.
  assert (Ti : In i (seq 0 33)) by (apply in_seq; lia).
  assert (Tj : In j (seq 0 33)) by (apply in_seq; lia).
  specialize (T i Ti). rewrite forallb_forall in T. specialize (T j Tj).
  destruct (riscv32i_translate_register (Z.of_nat i)) as [a |]; [| discriminate].
  destruct (riscv32i_translate_register (Z.of_nat j)) as [b |]; [| discriminate].
  apply andb_true_iff in T. destruct T as [Tu Te].
  exists a, b. split; [reflexivity |]. split; [reflexivity |]. split.
  - intros Ha. rewrite Ha in Tu. discriminate.
  - intros Hab. rewrite Hab, String.eqb_refl in Te.
    cbn [implb] in Te. apply Nat.eqb_eq in Te. now rewrite Te.
Qed.

Lemma translate_register_injective_witness :
  exists n1 n2,
    riscv32i_translate_register 2 = Some n1 /\
    riscv32i_translate_register REGISTER_PC = Some n2 /\
    n1 <> "unknown"%string /\
    (n1 = n2 -> 2 = REGISTER_PC).
Proof.
  apply (translate_register_injective 2 REGISTER_PC);
    vm_compute; split; discriminate || reflexivity.
Defined.

(** ** Illegal instructions *)

(** X15.  An illegal instruction, compressed or not, is served by the next
    round of the hart loop before any posted interrupt: the round takes
    the trap (cause 2, the instruction in [tval], the PC in [epc], at a
    privilege no lower than the current one), lowers [ev_trap], and leaves
    [ev_int], [ev_int_mask], [ip] and [ie] as they were, so that a posted
    interrupt is still posted for the round after. *)
Theorem illegal_insn_served_first
    (raise : riscv32_vm_state_t -> Z -> riscv32_vm_state_t)
    (vm : riscv32_vm_state_t) (instruction : Z) :
  raise = riscv32_illegal_insn \/ raise = riscv32c_illegal_insn ->
  0 <= priv_mode vm <= PRIVILEGE_MACHINE ->
  let vm' := run_events (raise vm instruction) in
  let p := priv_mode vm' in
  priv_mode vm <= p <= PRIVILEGE_MACHINE /\
  cause (csr vm') p = TRAP_ILL_INSTR /\
  tval (csr vm') p = instruction /\
  epc (csr vm') p = riscv32i_read_register_u vm REGISTER_PC /\
  ev_trap vm' = false /\
  ev_int vm' = ev_int vm /\
  ev_int_mask vm' = ev_int_mask vm /\
  ip (csr vm') = ip (csr vm) /\
  ie (csr vm') = ie (csr vm).
Proof.
  intros Hraise Hpriv vm' p.
  assert (Hvm' : vm' = riscv32_trap_jump
                   (Upd.vm_ev_trap false (riscv32_trap vm TRAP_ILL_INSTR instruction)))
    by (subst vm'; destruct Hraise as [-> | ->]; reflexivity).
  assert (Hp : p = trap_target vm TRAP_ILL_INSTR) by (subst p; rewrite Hvm'; reflexivity).
  clearbody vm' p. subst vm' p.
  split; [apply trap_target_range; exact Hpriv |].
  cbn. rewrite !aset_eq. repeat split.
Qed.

Lemma illegal_insn_served_first_witness :
  let vm' := run_events (riscv32_illegal_insn (riscv32_interrupt user_vm 7) 0xFFFFFFFF) in
  cause (csr vm') (priv_mode vm') = TRAP_ILL_INSTR /\
  tval (csr vm') (priv_mode vm') = 0xFFFFFFFF /\
  ev_trap vm' = false /\
  ev_int vm' = true /\
  ev_int_mask vm' = 128.
Proof.
  destruct (illegal_insn_served_first riscv32_illegal_insn
              (riscv32_interrupt user_vm 7) 0xFFFFFFFF)
    as (_ & Hc & Ht & _ & He & Hi & Hm & _);
    [left; reflexivity | vm_compute; split; discriminate |].
  cbv zeta. split; [exact Hc |]. split; [exact Ht |]. split; [exact He |].
  split; [exact Hi | exact Hm].
Defined.

(** ** The ATA ports *)

Section AtaPorts.

Import ATA.

Lemma cur_on_cur f ata : cur (on_cur f ata) = f (cur ata).
Proof. unfold cur, on_cur. cbn. apply aset_eq. Qed.

Lemma drive_on_cur_other f ata i :
  i <> curdrive ata -> drive (on_cur f ata) i = drive ata i.
Proof. intros Hi. unfold on_cur. cbn. apply aset_neq. exact Hi. Qed.

(** X16.  Both ATA handlers refuse an access that is not aligned to a
    register (offset not a multiple of 4) and an access wider than one
    byte to anything but the data register: they return [false] and
    change neither the device, nor the files, nor the caller's bytes. *)
Theorem ata_rejects_bad_access
    (fs : gmap Z FILE) (ata : ata_dev) (offset : Z) (memory_data : list Z)
    (sz : Z) (access : mmu_access) :
  (Z.land offset 3 <> 0 \/ (sz <> 1 /\ Z.shiftr offset 2 <> 0) ->
   ata_data_mmio_handler fs ata offset memory_data sz access
     = Some (false, ata, fs, memory_data)) /\
  (Z.land offset 3 <> 0 \/ sz <> 1 ->
   ata_ctl_mmio_handler fs ata offset memory_data sz access
     = Some (false, ata, fs, memory_data)).
Proof.
  split.
  - intros Hbad. unfold ata_data_mmio_handler.
    change (Z.shiftl 1 ATA_REG_SHIFT - 1) with 3.
    change ATA_REG_SHIFT with 2. change ATA_REG_DATA with 0.
    destruct (Z.eqb_spec (Z.land offset 3) 0) as [Hal | Hmis]; [| reflexivity].
    destruct Hbad as [Hmis | [Hsz Hreg]]; [contradiction |].
    cbn [negb].
    destruct (Z.eqb_spec sz 1); [contradiction |].
    destruct (Z.eqb_spec (Z.shiftr offset 2) 0); [contradiction |].
    reflexivity.
  - intros Hctl. unfold ata_ctl_mmio_handler.
    change (Z.shiftl 1 ATA_REG_SHIFT - 1) with 3.
    destruct (Z.eqb_spec sz 1) as [Hsz | Hsz]; [| reflexivity].
    destruct (Z.eqb_spec (Z.land offset 3) 0) as [Hal | Hmis]; [| reflexivity].
    destruct Hctl; contradiction.
Qed.

Lemma ata_rejects_bad_access_witness :
  (Z.land 6 3 <> 0 \/ (1 <> 1 /\ Z.shiftr 6 2 <> 0)) /\
  (Z.land 28 3 <> 0 \/ (4 <> 1 /\ Z.shiftr 28 2 <> 0)) /\
  (Z.land 0 3 <> 0 \/ 2 <> 1) /\
  (Z.land 2 3 <> 0 \/ 1 <> 1) /\
  ata_data_mmio_handler two_disks ata_zero 6 [0xEC] 1 MMU_WRITE
    = Some (false, ata_zero, two_disks, [0xEC]) /\
  ata_data_mmio_handler two_disks ata_zero 28 [0xEC; 0; 0; 0] 4 MMU_WRITE
    = Some (false, ata_zero, two_disks, [0xEC; 0; 0; 0]) /\
  ata_ctl_mmio_handler two_disks ata_zero 0 [0x04; 0] 2 MMU_WRITE
    = Some (false, ata_zero, two_disks, [0x04; 0]) /\
  ata_ctl_mmio_handler two_disks ata_zero 2 [0x04] 1 MMU_WRITE
    = Some (false, ata_zero, two_disks, [0x04]).
Proof.
  assert (H1 : Z.land 6 3 <> 0 \/ (1 <> 1 /\ Z.shiftr 6 2 <> 0))
    by (left; discriminate).
  assert (H2 : Z.land 28 3 <> 0 \/ (4 <> 1 /\ Z.shiftr 28 2 <> 0))
    by (right; split; discriminate).
  assert (H3 : Z.land 0 3 <> 0 \/ 2 <> 1) by (right; discriminate).
  assert (H4 : Z.land 2 3 <> 0 \/ 1 <> 1) by (left; discriminate).
  split; [exact H1 |]. split; [exact H2 |].
  split; [exact H3 |]. split; [exact H4 |].
  split; [| split; [| split]].
  - exact (proj1 (ata_rejects_bad_access two_disks ata_zero 6 [0xEC] 1
                    MMU_WRITE) H1).
  - exact (proj1 (ata_rejects_bad_access two_disks ata_zero 28 [0xEC; 0; 0; 0]
                    4 MMU_WRITE) H2).
  - exact (proj2 (ata_rejects_bad_access two_disks ata_zero 0 [0x04; 0] 2
                    MMU_WRITE) H3).
  - exact (proj2 (ata_rejects_bad_access two_disks ata_zero 2 [0x04] 1
                    MMU_WRITE) H4).
Defined.

(** X17.  A write to the device-control register with the reset bit
    (bit 2) set puts the selected drive into its reset state: nothing to
    transfer, LBA registers 1/0/0, sector count 1, DRIVE/HEAD 0, and
    status RDY|SRV with error AMNF when the drive has a file, status and
    error 0 when it has none.  A read of the data register right after it
    yields zero bytes. *)
Theorem ctl_soft_reset
    (fs : gmap Z FILE) (ata : ata_dev) (b : Z) (rest : list Z)
    (memory_data : list Z) (sz : Z) :
  Z.testbit b 2 = true ->
  exists ata',
    ata_ctl_mmio_handler fs ata 0 (b :: rest) 1 MMU_WRITE
      = Some (true, ata', fs, b :: rest) /\
    curdrive ata' = curdrive ata /\
    (forall i, i <> curdrive ata -> drive ata' i = drive ata i) /\
    bytes_to_rw (cur ata') = 0 /\
    lbal (cur ata') = 1 /\ lbam (cur ata') = 0 /\ lbah (cur ata') = 0 /\
    sectcount (cur ata') = 1 /\ drive_reg (cur ata') = 0 /\
    hob_shift (cur ata') = (if Z.testbit b 7 then 8 else 0) /\
    fp (cur ata') = fp (cur ata) /\ size (cur ata') = size (cur ata) /\
    status (cur ata') =
      (if fp (cur ata) =? NULL then 0 else Z.lor ATA_STATUS_RDY ATA_STATUS_SRV) /\
    error (cur ata') = (if fp (cur ata) =? NULL then 0 else ATA_ERR_AMNF) /\
    ata_data_mmio_handler fs ata' 0 memory_data sz MMU_READ
      = Some (true, ata', fs,
              replicate (Z.to_nat sz) 0 ++ drop (Z.to_nat sz) memory_data).
Proof.
  intros Hb. unfold ata_ctl_mmio_handler.
  change (Z.shiftl 1 ATA_REG_SHIFT - 1) with 3.
  change (Z.land 0 3 =? 0) with true. change (1 =? 1) with true.
  change (Z.shiftr 0 ATA_REG_SHIFT =? ATA_REG_CTL) with true.
  cbn [negb orb is_write head mbind option_bind].
  unfold bit_check. rewrite Hb.
  set (hob := if Z.testbit b 7 then 8 else 0).
  eexists. split; [reflexivity |].
  assert (Hfp : fp (cur (on_cur (set_drive_reg 0)
                  (on_cur (set_sectcount 1)
                     (on_cur (set_lbam 0)
                        (on_cur (set_lbah 0)
                           (on_cur (set_lbal 1)
                              (on_cur (set_bytes_to_rw 0)
                                 (on_cur (set_hob_shift hob) ata))))))))
                = fp (cur ata))
    by (rewrite !cur_on_cur; reflexivity).
  rewrite Hfp.
  destruct (fp (cur ata) =? NULL); cbn [negb];
    (split; [reflexivity |]);
    (split; [intros i Hi; rewrite !drive_on_cur_other by exact Hi; reflexivity |]);
    rewrite !cur_on_cur; cbn [bytes_to_rw lbal lbam lbah sectcount drive_reg
      hob_shift fp size status error set_status set_error set_drive_reg
      set_sectcount set_lbam set_lbah set_lbal set_bytes_to_rw set_hob_shift];
    repeat (split; [reflexivity |]);
    unfold ata_data_mmio_handler;
    change (Z.land 0 (Z.shiftl 1 ATA_REG_SHIFT - 1) =? 0) with true;
    change (Z.shiftr 0 ATA_REG_SHIFT) with 0;
    change (0 =? ATA_REG_DATA) with true;
    cbn [negb andb is_write]; rewrite andb_false_r;
    unfold data_read; rewrite !cur_on_cur;
    cbn [bytes_to_rw set_status set_error set_drive_reg
      set_sectcount set_lbam set_lbah set_lbal set_bytes_to_rw set_hob_shift];
    change (0 =? 0) with true; cbn [negb mbind option_bind];
    unfold store_bytes; rewrite length_replicate; reflexivity.
Qed.

Lemma ctl_soft_reset_witness :
  Z.testbit 0x04 2 = true /\
  exists ata',
    ata_ctl_mmio_handler two_disks ata_zero 0 [0x04] 1 MMU_WRITE
      = Some (true, ata', two_disks, [0x04]) /\
    lbal (cur ata') = 1 /\ sectcount (cur ata') = 1 /\
    status (cur ata') = 0 /\
    ata_data_mmio_handler two_disks ata' 0 [0xAA; 0xBB] 2 MMU_READ
      = Some (true, ata', two_disks, [0; 0]).
Proof.
  split; [reflexivity |].
  destruct (ctl_soft_reset two_disks ata_zero 0x04 [] [0xAA; 0xBB] 2 eq_refl)
    as (ata' & Hrun & _ & _ & _ & Hl & _ & _ & Hs & _ & _ & _ & _ & Hst & _ & Hrd).
  exists ata'. split; [exact Hrun |]. split; [exact Hl |].
  split; [exact Hs |]. split; [exact Hst | exact Hrd].
Defined.

Lemma clear8_err st : Z.testbit (clear8 st ATA_STATUS_ERR) 0 = false.
Proof.
  unfold clear8, wrap8, wrap.
  rewrite Z.mod_pow2_bits_low by lia.
  rewrite Z.land_spec, Z.lnot_spec by lia.
  change ATA_STATUS_ERR with (2 ^ 0). rewrite Z.pow2_bits_true by lia.
  apply andb_false_r.
Qed.

(** X18.  A write to the command register first clears the error register
    and the ERR bit left by the previous command.  A command the device
    does not know is then accepted without any sign of failure (error 0,
    ERR clear, nothing else changed); INITIALIZE DEVICE PARAMETERS always
    fails with ERR set and error ABRT. *)
Theorem command_register_errors
    (fs : gmap Z FILE) (ata : ata_dev) (cmd : Z) (rest : list Z) :
  (cmd <> ATA_CMD_IDENTIFY -> cmd <> ATA_CMD_INITIALIZE_DEVICE_PARAMS ->
   cmd <> ATA_CMD_READ_SECTORS -> cmd <> ATA_CMD_WRITE_SECTORS ->
   exists ata',
     ata_data_mmio_handler fs ata 28 (cmd :: rest) 1 MMU_WRITE
       = Some (true, ata', fs, cmd :: rest) /\
     curdrive ata' = curdrive ata /\
     (forall i, i <> curdrive ata -> drive ata' i = drive ata i) /\
     cur ata' = set_status (clear8 (status (cur ata)) ATA_STATUS_ERR)
                  (set_error 0 (cur ata)) /\
     error (cur ata') = 0 /\
     Z.testbit (status (cur ata')) 0 = false) /\
  (exists ata',
     ata_data_mmio_handler fs ata 28
       (ATA_CMD_INITIALIZE_DEVICE_PARAMS :: rest) 1 MMU_WRITE
       = Some (true, ata', fs, ATA_CMD_INITIALIZE_DEVICE_PARAMS :: rest) /\
     error (cur ata') = ATA_ERR_ABRT /\
     Z.testbit (status (cur ata')) 0 = true /\
     bytes_to_rw (cur ata') = bytes_to_rw (cur ata)).
Proof.
  assert (Hhead : forall c,
    ata_data_mmio_handler fs ata 28 (c :: rest) 1 MMU_WRITE =
    '(ata1, fs1) ← ata_handle_cmd fs
        (on_cur (fun d => set_status (clear8 (status d) ATA_STATUS_ERR) d)
           (on_cur (set_error 0) ata)) c;
    Some (true, ata1, fs1, c :: rest)) by reflexivity.
  split.
  - intros N1 N2 N3 N4. rewrite Hhead. unfold ata_handle_cmd.
    destruct (Z.eqb_spec cmd ATA_CMD_IDENTIFY); [contradiction |].
    destruct (Z.eqb_spec cmd ATA_CMD_INITIALIZE_DEVICE_PARAMS); [contradiction |].
    destruct (Z.eqb_spec cmd ATA_CMD_READ_SECTORS); [contradiction |].
    destruct (Z.eqb_spec cmd ATA_CMD_WRITE_SECTORS); [contradiction |].
    cbn [mbind option_bind].
    eexists. split; [reflexivity |].
    split; [reflexivity |].
    split; [intros i Hi; rewrite !drive_on_cur_other by exact Hi; reflexivity |].
    rewrite !cur_on_cur. split; [reflexivity |]. cbn [error status set_status set_error].
    split; [reflexivity | apply clear8_err].
  - rewrite Hhead. unfold ata_handle_cmd.
    change (ATA_CMD_INITIALIZE_DEVICE_PARAMS =? ATA_CMD_IDENTIFY) with false.
    change (ATA_CMD_INITIALIZE_DEVICE_PARAMS =? ATA_CMD_INITIALIZE_DEVICE_PARAMS)
      with true.
    cbn [mbind option_bind].
    eexists. split; [reflexivity |].
    unfold ata_cmd_initialize_device_params. rewrite !cur_on_cur.
    cbn [error status bytes_to_rw set_status set_error].
    split; [reflexivity |]. split; [| reflexivity].
    rewrite Z.lor_spec. change (Z.testbit ATA_STATUS_ERR 0) with true.
    apply orb_true_r.
Qed.

Lemma command_register_errors_witness :
  exists ata',
    ata_data_mmio_handler two_disks ata_zero 28 [0xA1] 1 MMU_WRITE
      = Some (true, ata', two_disks, [0xA1]) /\
    error (cur ata') = 0 /\
    Z.testbit (status (cur ata')) 0 = false.
Proof.
  destruct (command_register_errors two_disks ata_zero 0xA1 []) as [Hunk _].
  destruct Hunk as (ata' & Hrun & _ & _ & _ & He & Hs); try discriminate.
  exists ata'. split; [exact Hrun |]. split; [exact He | exact Hs].
Defined.

Lemma byte_testbit_high b j : 0 <= b < 256 -> 8 <= j -> Z.testbit b j = false.
Proof. intros Hb Hj. apply (small_testbit_high b 8); [exact Hb | lia]. Qed.

Lemma wrap_testbit w z k :
  0 <= w -> Z.testbit (wrap w z) k = (k <? w) && Z.testbit z k.
Proof.
  intros Hw. unfold wrap. destruct (Z.ltb_spec k w) as [Hk | Hk]; cbn [andb].
  - now apply Z.mod_pow2_bits_low.
  - apply Z.mod_pow2_bits_high. lia.
Qed.

Lemma reg16_write_testbit old b k :
  0 <= k ->
  Z.testbit (reg16_write old b) k =
    ((k <? 16) && (8 <=? k) && Z.testbit old (k - 8)) || Z.testbit b k.
Proof.
  intros Hk. unfold reg16_write, wrap16.
  rewrite Z.lor_spec, wrap_testbit, Z.shiftl_spec by lia.
  destruct (Z.leb_spec 8 k) as [H8 | H8].
  - now rewrite andb_true_r.
  - rewrite (Z.testbit_neg_r old) by lia. now rewrite !andb_false_r.
Qed.

Lemma reg16_read_testbit v s k :
  0 <= s -> 0 <= k ->
  Z.testbit (reg16_read v s) k = Z.testbit v (k + s) && (k <? 8).
Proof.
  intros Hs Hk. unfold reg16_read.
  rewrite Z.land_spec, Z.shiftr_spec by lia.
  change 0xff with (Z.ones 8). f_equal.
  destruct (Z.ltb_spec k 8); [apply Z.ones_spec_low | apply Z.ones_spec_high]; lia.
Qed.

(** The byte written last is the low byte, the one before it the high
    byte. *)
Lemma reg16_low old b : 0 <= b < 256 -> reg16_read (reg16_write old b) 0 = b.
Proof.
  intros Hb. apply Z.bits_inj'. intros k Hk.
  rewrite reg16_read_testbit, reg16_write_testbit by lia.
  rewrite Z.add_0_r.
  destruct (Z.ltb_spec k 8) as [Hlt | Hge].
  - replace (8 <=? k) with false by (symmetry; apply Z.leb_gt; lia).
    now rewrite andb_false_r, andb_true_r.
  - rewrite andb_false_r. symmetry. apply byte_testbit_high; assumption.
Qed.

Lemma reg16_high old b b' :
  0 <= b < 256 -> 0 <= b' < 256 ->
  reg16_read (reg16_write (reg16_write old b) b') 8 = b.
Proof.
  intros Hb Hb'. apply Z.bits_inj'. intros k Hk.
  rewrite reg16_read_testbit, !reg16_write_testbit by lia.
  destruct (Z.ltb_spec k 8) as [Hlt | Hge].
  - replace (k + 8 <? 16) with true by (symmetry; apply Z.ltb_lt; lia).
    replace (8 <=? k + 8) with true by (symmetry; apply Z.leb_le; lia).
    replace (k + 8 - 8) with k by lia.
    replace (k <? 16) with true by (symmetry; apply Z.ltb_lt; lia).
    replace (8 <=? k) with false by (symmetry; apply Z.leb_gt; lia).
    rewrite (byte_testbit_high b' (k + 8)) by lia.
    cbn [andb orb]. now rewrite orb_false_r, andb_true_r.
  - rewrite andb_false_r. symmetry. apply byte_testbit_high; assumption.
Qed.

(** X19.  The sector-count and LBA registers are 16 bits wide behind an
    8-bit port: of two bytes written in a row the second is read back
    when the HOB bit of the device-control register is clear and the
    first when it is set. *)
Theorem hob_register_round_trip
    (fs : gmap Z FILE) (ata : ata_dev) (off hi lo c : Z)
    (memory_data : list Z) :
  off = 8 \/ off = 12 \/ off = 16 \/ off = 20 ->
  0 <= hi < 256 -> 0 <= lo < 256 ->
  Z.testbit c 2 = false ->
  exists ata1 ata2 ata3,
    ata_data_mmio_handler fs ata off [hi] 1 MMU_WRITE
      = Some (true, ata1, fs, [hi]) /\
    ata_data_mmio_handler fs ata1 off [lo] 1 MMU_WRITE
      = Some (true, ata2, fs, [lo]) /\
    ata_ctl_mmio_handler fs ata2 0 [c] 1 MMU_WRITE
      = Some (true, ata3, fs, [c]) /\
    ata_data_mmio_handler fs ata3 off memory_data 1 MMU_READ
      = Some (true, ata3, fs,
              (if Z.testbit c 7 then hi else lo) :: drop 1 memory_data).
Proof.
  intros Hoff Hhi Hlo Hc.
  assert (Hctl : forall a,
    ata_ctl_mmio_handler fs a 0 [c] 1 MMU_WRITE
      = Some (true, on_cur (set_hob_shift (if Z.testbit c 7 then 8 else 0)) a,
              fs, [c])).
  { intros a. unfold ata_ctl_mmio_handler.
    change (Z.shiftl 1 ATA_REG_SHIFT - 1) with 3.
    change (Z.land 0 3 =? 0) with true. change (1 =? 1) with true.
    change (Z.shiftr 0 ATA_REG_SHIFT =? ATA_REG_CTL) with true.
    cbn [negb orb is_write head mbind option_bind].
    unfold bit_check. rewrite Hc. reflexivity. }
  assert (Hval : forall old,
    reg16_read (reg16_write (reg16_write old hi) lo)
               (if Z.testbit c 7 then 8 else 0)
    = if Z.testbit c 7 then hi else lo).
  { intros old. destruct (Z.testbit c 7);
      [apply reg16_high | apply reg16_low]; assumption. }
  destruct Hoff as [-> | [-> | [-> | ->]]];
    do 3 eexists;
    (split; [reflexivity |]); (split; [reflexivity |]);
    (split; [apply Hctl |]);
    unfold ata_data_mmio_handler;
    cbn [Z.land Z.shiftl Z.shiftr Z.eqb Pos.eqb negb andb is_write
         ATA_REG_SHIFT ATA_REG_DATA ATA_REG_ERR ATA_REG_NSECT ATA_REG_LBAL
         ATA_REG_LBAM ATA_REG_LBAH];
    cbv beta iota zeta;
    rewrite !cur_on_cur;
    cbn [sectcount lbal lbam lbah hob_shift set_hob_shift set_sectcount
         set_lbal set_lbam set_lbah];
    rewrite Hval; reflexivity.
Qed.

Lemma hob_register_round_trip_witness :
  (12 = 8 \/ 12 = 12 \/ 12 = 16 \/ 12 = 20) /\
  0 <= 0x12 < 256 /\ 0 <= 0x34 < 256 /\ Z.testbit 0x80 2 = false /\
  exists ata1 ata2 ata3,
    ata_data_mmio_handler two_disks ata_zero 12 [0x12] 1 MMU_WRITE
      = Some (true, ata1, two_disks, [0x12]) /\
    ata_data_mmio_handler two_disks ata1 12 [0x34] 1 MMU_WRITE
      = Some (true, ata2, two_disks, [0x34]) /\
    ata_ctl_mmio_handler two_disks ata2 0 [0x80] 1 MMU_WRITE
      = Some (true, ata3, two_disks, [0x80]) /\
    ata_data_mmio_handler two_disks ata3 12 [0xFF] 1 MMU_READ
      = Some (true, ata3, two_disks, [0x12]).
Proof.
  assert (H1 : 12 = 8 \/ 12 = 12 \/ 12 = 16 \/ 12 = 20) by (right; left; reflexivity).
  assert (H2 : 0 <= 0x12 < 256) by lia.
  assert (H3 : 0 <= 0x34 < 256) by lia.
  split; [exact H1 |]. split; [exact H2 |]. split; [exact H3 |].
  split; [reflexivity |].
  exact (hob_register_round_trip two_disks ata_zero 12 0x12 0x34 0x80 [0xFF]
           H1 H2 H3 eq_refl).
Defined.

Lemma lor_lt_pow2 a b n :
  0 <= n -> 0 <= a < 2 ^ n -> 0 <= b < 2 ^ n -> 0 <= Z.lor a b < 2 ^ n.
Proof.
  intros Hn Ha Hb.
  assert (E : Z.lor a b = wrap n (Z.lor a b)).
  { apply Z.bits_inj'. intros k Hk. rewrite wrap_testbit by exact Hn.
    destruct (Z.ltb_spec k n) as [Hlt | Hge]; [reflexivity |].
    rewrite Z.lor_spec, (small_testbit_high a n k), (small_testbit_high b n k)
      by lia. reflexivity. }
  rewrite E. apply Z.mod_pos_bound. apply Z.pow_pos_nonneg; lia.
Qed.

(** X20.  A write of byte [b] to the DRIVE/HEAD register selects the
    drive by bit 4 of [b] and stores [b] in that drive's register; the
    other drive is not touched, and the register reads back as [b] with
    bits 5 and 7 set. *)
Theorem device_select
    (fs : gmap Z FILE) (ata : ata_dev) (b : Z) (rest memory_data : list Z) :
  0 <= b < 256 ->
  exists ata',
    ata_data_mmio_handler fs ata 24 (b :: rest) 1 MMU_WRITE
      = Some (true, ata', fs, b :: rest) /\
    curdrive ata' = (if Z.testbit b 4 then 1 else 0) /\
    drive_reg (cur ata') = b /\
    (forall i, i <> curdrive ata' -> drive ata' i = drive ata i) /\
    ata_data_mmio_handler fs ata' 24 memory_data 1 MMU_READ
      = Some (true, ata', fs, Z.lor b 0xA0 :: drop 1 memory_data).
Proof.
  intros Hb. eexists. split; [reflexivity |].
  unfold bit_check. split; [reflexivity |].
  rewrite cur_on_cur. split; [reflexivity |].
  split; [intros i Hi; rewrite drive_on_cur_other by exact Hi; reflexivity |].
  unfold ata_data_mmio_handler.
  cbn [Z.land Z.shiftl Z.shiftr Z.eqb Pos.eqb negb andb is_write
       ATA_REG_SHIFT ATA_REG_DATA ATA_REG_ERR ATA_REG_NSECT ATA_REG_LBAL
       ATA_REG_LBAM ATA_REG_LBAH ATA_REG_DEVICE].
  cbv beta iota zeta. rewrite cur_on_cur. cbn [drive_reg set_drive_reg].
  change (Z.lor (Z.shiftl 1 5) (Z.shiftl 1 7)) with 0xA0.
  unfold wrap8, wrap. rewrite Z.mod_small; [reflexivity |].
  apply (lor_lt_pow2 b 0xA0 8); lia.
Qed.

Lemma device_select_witness :
  0 <= 0x10 < 256 /\
  exists ata',
    ata_data_mmio_handler two_disks ata_zero 24 [0x10] 1 MMU_WRITE
      = Some (true, ata', two_disks, [0x10]) /\
    curdrive ata' = 1 /\
    ata_data_mmio_handler two_disks ata' 24 [0] 1 MMU_READ
      = Some (true, ata', two_disks, [0xB0]).
Proof.
  assert (H : 0 <= 0x10 < 256) by lia.
  split; [exact H |].
  destruct (device_select two_disks ata_zero 0x10 [] [0] H)
    as (ata' & Hw & Hc & _ & _ & Hr).
  exists ata'. split; [exact Hw |]. split; [exact Hc | exact Hr].
Defined.

Lemma lor_shiftl_add a b n :
  0 <= n -> 0 <= a < 2 ^ n -> Z.lor a (Z.shiftl b n) = a + b * 2 ^ n.
Proof.
  intros Hn Ha. rewrite Z.shiftl_mul_pow2 by exact Hn.
  symmetry. apply Z.add_nocarry_lor.
  apply Z.bits_inj'. intros k Hk. rewrite Z.land_spec, Z.bits_0.
  destruct (Z.ltb_spec k n) as [Hlt | Hge].
  - rewrite Z.mul_pow2_bits_low by lia. apply andb_false_r.
  - rewrite (small_testbit_high a n k) by lia. reflexivity.
Qed.

Lemma bit_cut_mod v n : 0 <= n -> bit_cut v 0 n = v mod 2 ^ n.
Proof.
  intros Hn. unfold bit_cut, bit_mask. rewrite Z.shiftr_0_r.
  apply Z.land_ones. exact Hn.
Qed.

Lemma lba28_sum (ata : ata_dev) :
  let d := cur ata in
  ata_get_lba ata false =
    lbal d mod 256 + 256 * (lbam d mod 256) + 65536 * (lbah d mod 256)
    + 16777216 * (drive_reg d mod 16).
Proof.
  intros d. unfold ata_get_lba. fold d.
  rewrite !bit_cut_mod by lia.
  pose proof (Z.mod_pos_bound (lbal d) (2 ^ 8) eq_refl) as Hl.
  pose proof (Z.mod_pos_bound (lbam d) (2 ^ 8) eq_refl) as Hm.
  pose proof (Z.mod_pos_bound (lbah d) (2 ^ 8) eq_refl) as Hh.
  pose proof (Z.mod_pos_bound (drive_reg d) (2 ^ 4) eq_refl) as Hd.
  set (l := lbal d mod 2 ^ 8) in *. set (m := lbam d mod 2 ^ 8) in *.
  set (h := lbah d mod 2 ^ 8) in *. set (r := drive_reg d mod 2 ^ 4) in *.
  assert (E1 : Z.lor (Z.shiftl h 16) (Z.shiftl r 24) = Z.shiftl (h + r * 2 ^ 8) 16).
  { rewrite <- (lor_shiftl_add h r 8) by lia.
    rewrite Z.shiftl_lor, Z.shiftl_shiftl by lia. reflexivity. }
  assert (E2 : Z.lor (Z.shiftl m 8) (Z.shiftl (h + r * 2 ^ 8) 16)
               = Z.shiftl (m + (h + r * 2 ^ 8) * 2 ^ 8) 8).
  { rewrite <- (lor_shiftl_add m (h + r * 2 ^ 8) 8) by lia.
    rewrite Z.shiftl_lor, Z.shiftl_shiftl by lia. reflexivity. }
  rewrite E1, E2, lor_shiftl_add by lia.
  unfold wrap64, wrap. rewrite Z.mod_small by lia.
  change (2 ^ 8) with 256 in *. change (2 ^ 4) with 16 in *.
  lia.
Qed.

Lemma lba28_range (ata : ata_dev) : 0 <= ata_get_lba ata false < 2 ^ 28.
Proof.
  rewrite lba28_sum. cbv zeta.
  pose proof (Z.mod_pos_bound (lbal (cur ata)) 256 eq_refl).
  pose proof (Z.mod_pos_bound (lbam (cur ata)) 256 eq_refl).
  pose proof (Z.mod_pos_bound (lbah (cur ata)) 256 eq_refl).
  pose proof (Z.mod_pos_bound (drive_reg (cur ata)) 16 eq_refl).
  lia.
Qed.

(** X21.  The 28-bit LBA is assembled from the low bytes of LBAL, LBAM and
    LBAH and the low nibble of DRIVE/HEAD, lowest first; it is below
    [2^28], so at most 128 GiB of an image can be addressed. *)
Theorem ata_get_lba_28 (ata : ata_dev) :
  let d := cur ata in
  ata_get_lba ata false =
    lbal d mod 256 + 256 * (lbam d mod 256) + 65536 * (lbah d mod 256)
    + 16777216 * (drive_reg d mod 16) /\
  0 <= ata_get_lba ata false < 2 ^ 28.
Proof.
  intros d. split; [apply lba28_sum |].
  rewrite lba28_sum. fold d.
  pose proof (Z.mod_pos_bound (lbal d) 256 eq_refl).
  pose proof (Z.mod_pos_bound (lbam d) 256 eq_refl).
  pose proof (Z.mod_pos_bound (lbah d) 256 eq_refl).
  pose proof (Z.mod_pos_bound (drive_reg d) 16 eq_refl).
  lia.
Qed.

Lemma pairs_nth (g : nat -> Z) (n : nat) :
  forall (s i : nat), (i < n)%nat ->
  nth (2 * i) (flat_map (fun j => [g j mod 256; g j / 256]) (seq s n)) 0
    = g (s + i)%nat mod 256 /\
  nth (2 * i + 1) (flat_map (fun j => [g j mod 256; g j / 256]) (seq s n)) 0
    = g (s + i)%nat / 256.
Proof.
  induction n as [| n IH]; intros s i Hi; [lia |].
  cbn [seq flat_map app]. destruct i as [| i].
  - cbn. rewrite Nat.add_0_r. split; reflexivity.
  - replace (2 * S i)%nat with (S (S (2 * i))) by lia.
    replace (S (S (2 * i)) + 1)%nat with (S (S (2 * i + 1))) by lia.
    cbn [nth]. replace (s + S i)%nat with (S s + i)%nat by lia.
    apply IH. lia.
Qed.

Lemma pairs_length (g : nat -> Z) (n s : nat) :
  length (flat_map (fun j => [g j mod 256; g j / 256]) (seq s n)) = (2 * n)%nat.
Proof.
  revert s. induction n as [| n IH]; intros s; [reflexivity |].
  cbn [seq flat_map app length]. rewrite IH. lia.
Qed.

Lemma id_buf_word sz (i : nat) :
  (i < 256)%nat -> le16 (id_buf sz) i = id_word sz (Z.of_nat i).
Proof.
  intros Hi. unfold le16, id_buf.
  change (Z.to_nat (SECTOR_SIZE / 2)) with 256%nat.
  destruct (pairs_nth (fun j => id_word sz (Z.of_nat j)) 256 0 i Hi) as [E0 E1].
  cbv beta zeta in *. rewrite E0, E1. cbn [Nat.add].
  pose proof (Z.div_mod (id_word sz (Z.of_nat i)) 256). lia.
Qed.

Lemma capacity_words sz :
  0 <= sz ->
  (if sz >? 0xffffffff then 0xffff else Z.land sz 0xffff)
  + 65536 * (if sz >? 0xffffffff then 0xffff else wrap16 (Z.shiftr sz 16))
  = Z.min sz 0xffffffff.
Proof.
  intros Hsz. destruct (Z.gtb_spec sz 0xffffffff) as [Hbig | Hsmall]; [lia |].
  change 0xffff with (Z.ones 16). rewrite Z.land_ones by lia.
  rewrite Z.shiftr_div_pow2 by lia.
  unfold wrap16, wrap. rewrite (Z.mod_small (sz / 2 ^ 16)).
  - pose proof (Z.div_mod sz (2 ^ 16)). lia.
  - split; [apply Z.div_pos; lia |].
    apply Z.div_lt_upper_bound; lia.
Qed.

(** X22.  IDENTIFY DEVICE leaves a 512-byte block to be read, with status
    RDY|SRV|DRQ and a sector count of 1; its little-endian words 57-58
    and 60-61 hold the capacity of the drive in sectors, saturated at
    [0xFFFFFFFF], and word 49 announces LBA. *)
Theorem identify_reports_capacity
    (fs : gmap Z FILE) (ata : ata_dev) (rest : list Z) :
  0 <= size (cur ata) ->
  exists ata',
    ata_data_mmio_handler fs ata 28 (ATA_CMD_IDENTIFY :: rest) 1 MMU_WRITE
      = Some (true, ata', fs, ATA_CMD_IDENTIFY :: rest) /\
    status (cur ata') = 0x58 /\
    error (cur ata') = 0 /\
    bytes_to_rw (cur ata') = SECTOR_SIZE /\
    sectcount (cur ata') = 1 /\
    length (buf (cur ata')) = 512%nat /\
    le16 (buf (cur ata')) 60 + 65536 * le16 (buf (cur ata')) 61
      = Z.min (size (cur ata)) 0xffffffff /\
    le16 (buf (cur ata')) 57 + 65536 * le16 (buf (cur ata')) 58
      = Z.min (size (cur ata)) 0xffffffff /\
    le16 (buf (cur ata')) 49 = 512.
Proof.
  intros Hsz. eexists. split; [reflexivity |].
  unfold ata_cmd_identify. rewrite !cur_on_cur.
  cbn [status error bytes_to_rw sectcount buf size set_status set_error
       set_bytes_to_rw set_sectcount set_buf].
  split; [reflexivity |]. split; [reflexivity |]. split; [reflexivity |].
  split; [reflexivity |].
  split; [unfold id_buf; apply pairs_length |].
  rewrite !id_buf_word by lia.
  split; [exact (capacity_words _ Hsz) |].
  split; [exact (capacity_words _ Hsz) | reflexivity].
Qed.

Lemma identify_reports_capacity_witness :
  0 <= size (cur ata_master) /\
  exists ata',
    ata_data_mmio_handler two_disks ata_master 28 [0xEC] 1 MMU_WRITE
      = Some (true, ata', two_disks, [0xEC]) /\
    le16 (buf (cur ata')) 60 + 65536 * le16 (buf (cur ata')) 61 = 2.
Proof.
  assert (H : 0 <= size (cur ata_master)) by (vm_compute; discriminate).
  split; [exact H |].
  destruct (identify_reports_capacity two_disks ata_master [] H)
    as (ata' & Hrun & _ & _ & _ & _ & _ & Hcap & _).
  exists ata'. split; [exact Hrun | exact Hcap].
Defined.

Lemma data_at_zero fs ata md sz access :
  ata_data_mmio_handler fs ata 0 md sz access =
  if is_write access then
    '(ata, fs) ← data_write fs ata md sz; Some (true, ata, fs, md)
  else
    '(ata, fs, md) ← data_read fs ata md sz; Some (true, ata, fs, md).
Proof.
  unfold ata_data_mmio_handler.
  change (Z.land 0 (Z.shiftl 1 ATA_REG_SHIFT - 1) =? 0) with true.
  change (Z.shiftr 0 ATA_REG_SHIFT) with 0.
  change (0 =? ATA_REG_DATA) with true.
  cbn [negb]. rewrite andb_false_r. reflexivity.
Qed.

(** X23.  A read of the data register for fewer bytes than remain returns
    the next bytes of the sector buffer and moves the transfer window on
    by that many; the status, the sector count, the buffer and the files
    stay as they are. *)
Theorem data_read_streams
    (fs : gmap Z FILE) (ata : ata_dev) (memory_data : list Z) (sz : Z) :
  0 < sz < bytes_to_rw (cur ata) ->
  bytes_to_rw (cur ata) <= SECTOR_SIZE ->
  length (buf (cur ata)) = Z.to_nat SECTOR_SIZE ->
  exists ata',
    ata_data_mmio_handler fs ata 0 memory_data sz MMU_READ
      = Some (true, ata', fs,
              take (Z.to_nat sz)
                (drop (Z.to_nat (SECTOR_SIZE - bytes_to_rw (cur ata)))
                      (buf (cur ata)))
              ++ drop (Z.to_nat sz) memory_data) /\
    cur ata' = set_bytes_to_rw (bytes_to_rw (cur ata) - sz) (cur ata) /\
    curdrive ata' = curdrive ata /\
    (forall i, i <> curdrive ata -> drive ata' i = drive ata i).
Proof.
  intros Hsz Hmax Hlen. rewrite data_at_zero. cbn [is_write]. unfold data_read.
  destruct (Z.eqb_spec (bytes_to_rw (cur ata)) 0) as [H0 | _]; [lia |].
  cbn [negb]. unfold buf_window.
  destruct (Z.leb_spec 0 (SECTOR_SIZE - bytes_to_rw (cur ata))); [| lia].
  destruct (Z.leb_spec (SECTOR_SIZE - bytes_to_rw (cur ata) + sz) SECTOR_SIZE);
    [| lia].
  cbn [andb mbind option_bind]. rewrite cur_on_cur.
  cbn [bytes_to_rw set_bytes_to_rw].
  assert (Hw : wrap16 (bytes_to_rw (cur ata) - sz) = bytes_to_rw (cur ata) - sz).
  { apply Z.mod_small. unfold SECTOR_SIZE in *. lia. }
  rewrite Hw.
  destruct (Z.eqb_spec (bytes_to_rw (cur ata) - sz) 0); [lia |].
  cbn [mbind option_bind]. eexists. split.
  { unfold store_bytes. rewrite length_take, length_drop, Hlen.
    replace (Z.to_nat sz `min`
               (Z.to_nat SECTOR_SIZE
                - Z.to_nat (SECTOR_SIZE - bytes_to_rw (cur ata))))%nat
      with (Z.to_nat sz) by (unfold SECTOR_SIZE in *; lia).
    reflexivity. }
  rewrite cur_on_cur, Hw. split; [reflexivity |]. split; [reflexivity |].
  intros i Hi. apply drive_on_cur_other. exact Hi.
Qed.

Lemma data_read_streams_witness :
  0 < 4 < bytes_to_rw (cur ata_identified) /\
  bytes_to_rw (cur ata_identified) <= SECTOR_SIZE /\
  length (buf (cur ata_identified)) = Z.to_nat SECTOR_SIZE /\
  exists ata',
    ata_data_mmio_handler two_disks ata_identified 0 [9; 9; 9; 9; 9] 4 MMU_READ
      = Some (true, ata', two_disks, [64; 0; 255; 255; 9]) /\
    bytes_to_rw (cur ata') = 508.
Proof.
  assert (H1 : 0 < 4 < bytes_to_rw (cur ata_identified))
    by (vm_compute; split; reflexivity).
  assert (H2 : bytes_to_rw (cur ata_identified) <= SECTOR_SIZE)
    by (vm_compute; discriminate).
  assert (H3 : length (buf (cur ata_identified)) = Z.to_nat SECTOR_SIZE)
    by (vm_compute; reflexivity).
  split; [exact H1 |]. split; [exact H2 |]. split; [exact H3 |].
  destruct (data_read_streams two_disks ata_identified [9; 9; 9; 9; 9] 4 H1 H2 H3)
    as (ata' & Hrun & Hcur & _).
  exists ata'. split; [exact Hrun |]. rewrite Hcur. reflexivity.
Defined.

(** *** Sector transfers *)

Lemma lba_of_cur ata ata' :
  lbal (cur ata') = lbal (cur ata) -> lbam (cur ata') = lbam (cur ata) ->
  lbah (cur ata') = lbah (cur ata) -> drive_reg (cur ata') = drive_reg (cur ata) ->
  ata_get_lba ata' false = ata_get_lba ata false.
Proof. intros H1 H2 H3 H4. unfold ata_get_lba. now rewrite H1, H2, H3, H4. Qed.

Lemma command_write fs ata c rest :
  ata_data_mmio_handler fs ata 28 (c :: rest) 1 MMU_WRITE =
  '(ata1, fs1) ← ata_handle_cmd fs
      (on_cur (fun d => set_status (clear8 (status d) ATA_STATUS_ERR) d)
         (on_cur (set_error 0) ata)) c;
  Some (true, ata1, fs1, c :: rest).
Proof. reflexivity. Qed.

Lemma lba_offset ata :
  wrap64 (ata_get_lba ata false * SECTOR_SIZE) = ata_get_lba ata false * 512 /\
  0 <= ata_get_lba ata false * 512.
Proof.
  pose proof (lba28_range ata) as Hb. unfold wrap64, wrap, SECTOR_SIZE.
  rewrite Z.mod_small by lia. lia.
Qed.

(** WRITE SECTORS on an open, seekable image. *)
Lemma cmd_write_ok fs ata f rest :
  stream fs (fp (cur ata)) = Some f -> f_seekable f = true ->
  sectcount (cur ata) <> 0 ->
  exists ata',
    ata_data_mmio_handler fs ata 28 (ATA_CMD_WRITE_SECTORS :: rest) 1 MMU_WRITE
      = Some (true, ata',
              <[fp (cur ata) := set_pos (ata_get_lba ata false * 512) f]> fs,
              ATA_CMD_WRITE_SECTORS :: rest) /\
    curdrive ata' = curdrive ata /\
    fp (cur ata') = fp (cur ata) /\
    buf (cur ata') = buf (cur ata) /\
    sectcount (cur ata') = sectcount (cur ata) /\
    bytes_to_rw (cur ata') = SECTOR_SIZE /\
    ata_get_lba ata' false = ata_get_lba ata false.
Proof.
  intros Hs Hseek Hcount. rewrite command_write. unfold ata_handle_cmd.
  change (ATA_CMD_WRITE_SECTORS =? ATA_CMD_IDENTIFY) with false.
  change (ATA_CMD_WRITE_SECTORS =? ATA_CMD_INITIALIZE_DEVICE_PARAMS) with false.
  change (ATA_CMD_WRITE_SECTORS =? ATA_CMD_READ_SECTORS) with false.
  change (ATA_CMD_WRITE_SECTORS =? ATA_CMD_WRITE_SECTORS) with true.
  cbv iota. unfold ata_cmd_write_sectors.
  rewrite !cur_on_cur. cbn [sectcount set_status set_error].
  destruct (Z.eqb_spec (sectcount (cur ata)) 0) as [? | _]; [contradiction |].
  rewrite !cur_on_cur. cbn [fp set_status set_error].
  match goal with
  | |- context [fseek_set fs _ (wrap64 (ata_get_lba ?a false * SECTOR_SIZE))] =>
      assert (Hl : ata_get_lba a false = ata_get_lba ata false)
        by (apply lba_of_cur; rewrite !cur_on_cur; reflexivity);
      rewrite (proj1 (lba_offset a)), Hl
  end.
  unfold fseek_set. rewrite Hs. cbn [mbind option_bind]. rewrite Hseek.
  destruct (Z.leb_spec 0 (ata_get_lba ata false * 512)) as [_ | Hneg];
    [| pose proof (proj2 (lba_offset ata)); lia].
  cbn [andb mbind option_bind Z.ltb Z.compare].
  eexists. split; [reflexivity |].
  split; [reflexivity |].
  rewrite !cur_on_cur.
  repeat (split; [reflexivity |]).
  apply lba_of_cur; rewrite !cur_on_cur; reflexivity.
Qed.

Lemma stream_other fs fp0 fp1 m :
  fp0 <> fp1 -> stream (<[fp0 := m]> fs) fp1 = stream fs fp1.
Proof.
  intros Hne. unfold stream. destruct (fp1 =? NULL); [reflexivity |].
  apply lookup_insert_ne. exact Hne.
Qed.

(** A full sector written to the data register. *)
Lemma data_write_sector fs ata f data :
  bytes_to_rw (cur ata) = SECTOR_SIZE ->
  length (buf (cur ata)) = 512%nat -> length data = 512%nat ->
  sectcount (cur ata) = 1 ->
  stream fs (fp (cur ata)) = Some f -> f_writable f = true ->
  exists ata',
    ata_data_mmio_handler fs ata 0 data SECTOR_SIZE MMU_WRITE
      = Some (true, ata',
              <[fp (cur ata) :=
                  set_pos (f_pos f + 512)
                    (set_bytes
                       (take (Z.to_nat (f_pos f))
                          (f_bytes f ++
                           replicate (Z.to_nat (f_pos f) - length (f_bytes f)) 0)
                        ++ data
                        ++ drop (Z.to_nat (f_pos f) + 512) (f_bytes f)) f)]> fs,
              data) /\
    curdrive ata' = curdrive ata /\
    fp (cur ata') = fp (cur ata) /\
    buf (cur ata') = data /\
    sectcount (cur ata') = 0 /\
    bytes_to_rw (cur ata') = 0 /\
    error (cur ata') = error (cur ata) /\
    ata_get_lba ata' false = ata_get_lba ata false.
Proof.
  intros Hrw Hbuf Hdata Hcount Hs Hw.
  rewrite data_at_zero. cbn [is_write]. unfold data_write, buf_window.
  rewrite Hrw. change (SECTOR_SIZE - SECTOR_SIZE) with 0.
  change ((0 <=? 0) && (0 + SECTOR_SIZE <=? SECTOR_SIZE)) with true.
  cbn [mbind option_bind]. change (Z.to_nat 0) with 0%nat.
  change (Z.to_nat SECTOR_SIZE) with 512%nat.
  rewrite option_guard_True by (rewrite Hdata; apply Nat.le_refl).
  assert (Hsp : splice (buf (cur ata)) 0 (take 512 data) = data).
  { unfold splice. rewrite (take_ge data) by lia. cbn [take app].
    rewrite drop_ge by lia. apply app_nil_r. }
  rewrite !cur_on_cur.
  cbn [bytes_to_rw sectcount status set_buf set_bytes_to_rw set_status
       set_sectcount].
  rewrite Hrw, Hcount.
  change (wrap16 (SECTOR_SIZE - SECTOR_SIZE)) with 0.
  change (wrap16 (1 - 1)) with 0.
  change (0 =? 0) with true. cbv iota. cbn [negb].
  unfold ata_write_buf. rewrite !cur_on_cur.
  cbn [fp buf set_buf set_bytes_to_rw set_status set_sectcount].
  rewrite Hsp. unfold fwrite1. rewrite Hs. cbn [mbind option_bind]. rewrite Hw.
  cbn [mbind option_bind]. rewrite Hdata.
  change (Z.of_nat 512) with 512. change (1 =? 1) with true. cbn [negb].
  eexists. split; [reflexivity |].
  split; [reflexivity |].
  rewrite !cur_on_cur.
  cbn [fp buf sectcount bytes_to_rw error set_buf set_bytes_to_rw set_status
       set_sectcount].
  rewrite Hsp, Hcount, Hrw.
  repeat (split; [reflexivity |]).
  apply lba_of_cur; rewrite !cur_on_cur; reflexivity.
Qed.

(** READ SECTORS on an open, seekable image: the sector at the LBA is
    loaded when the image holds it, and the command fails with ERR and UNC
    when the image ends before it. *)
Lemma cmd_read fs ata f rest :
  stream fs (fp (cur ata)) = Some f -> f_seekable f = true ->
  length (buf (cur ata)) = 512%nat ->
  let p := ata_get_lba ata false * 512 in
  let got := take 512 (drop (Z.to_nat p) (f_bytes f)) in
  exists ata',
    ata_data_mmio_handler fs ata 28 (ATA_CMD_READ_SECTORS :: rest) 1 MMU_WRITE
      = Some (true, ata',
              <[fp (cur ata) := set_pos (p + Z.of_nat (length got)) (set_pos p f)]>
                (<[fp (cur ata) := set_pos p f]> fs),
              ATA_CMD_READ_SECTORS :: rest) /\
    curdrive ata' = curdrive ata /\
    fp (cur ata') = fp (cur ata) /\
    sectcount (cur ata') =
      (if sectcount (cur ata) =? 0 then 256 else sectcount (cur ata)) /\
    ata_get_lba ata' false = ata_get_lba ata false /\
    (length got = 512%nat ->
       buf (cur ata') = got /\ bytes_to_rw (cur ata') = SECTOR_SIZE /\
       error (cur ata') = 0 /\
       status (cur ata') =
         Z.lor (clear8 (status (cur ata)) ATA_STATUS_ERR)
               (Z.lor ATA_STATUS_DRQ ATA_STATUS_RDY)) /\
    (length got <> 512%nat ->
       bytes_to_rw (cur ata') = bytes_to_rw (cur ata) /\
       error (cur ata') = ATA_ERR_UNC /\
       status (cur ata') =
         Z.lor (Z.lor (clear8 (status (cur ata)) ATA_STATUS_ERR)
                      (Z.lor ATA_STATUS_DRQ ATA_STATUS_RDY))
               ATA_STATUS_ERR).
Proof.
  intros Hs Hseek Hbuf p got. rewrite command_write. unfold ata_handle_cmd.
  change (ATA_CMD_READ_SECTORS =? ATA_CMD_IDENTIFY) with false.
  change (ATA_CMD_READ_SECTORS =? ATA_CMD_INITIALIZE_DEVICE_PARAMS) with false.
  change (ATA_CMD_READ_SECTORS =? ATA_CMD_READ_SECTORS) with true.
  cbv iota. unfold ata_cmd_read_sectors.
  set (a0 := on_cur (fun d => set_status (clear8 (status d) ATA_STATUS_ERR) d)
               (on_cur (set_error 0) ata)).
  set (a1 := if sectcount (cur a0) =? 0 then on_cur (set_sectcount 256) a0 else a0).
  set (a2 := on_cur (fun d => set_status
                 (Z.lor (status d) (Z.lor ATA_STATUS_DRQ ATA_STATUS_RDY)) d) a1).
  assert (C1 : cur a1 = set_sectcount
                 (if sectcount (cur ata) =? 0 then 256 else sectcount (cur ata))
                 (cur a0)).
  { subst a1. assert (Hc0 : sectcount (cur a0) = sectcount (cur ata))
      by (subst a0; rewrite !cur_on_cur; reflexivity).
    rewrite <- Hc0. destruct (sectcount (cur a0) =? 0) eqn:E.
    - now rewrite cur_on_cur.
    - destruct (cur a0); reflexivity. }
  assert (C0 : cur a0 = set_status (clear8 (status (cur ata)) ATA_STATUS_ERR)
                 (set_error 0 (cur ata)))
    by (subst a0; rewrite !cur_on_cur; reflexivity).
  assert (C2 : cur a2 = set_status
                 (Z.lor (status (cur a1)) (Z.lor ATA_STATUS_DRQ ATA_STATUS_RDY))
                 (cur a1))
    by (subst a2; rewrite cur_on_cur; reflexivity).
  assert (D1 : curdrive a1 = curdrive ata)
    by (subst a1 a0; destruct (_ =? 0); reflexivity).
  assert (Hfp2 : fp (cur a2) = fp (cur ata))
    by (rewrite C2, C1, C0; reflexivity).
  assert (Hl2 : ata_get_lba a2 false = ata_get_lba ata false)
    by (apply lba_of_cur; rewrite C2, C1, C0; reflexivity).
  rewrite (proj1 (lba_offset a2)), Hl2, Hfp2. fold p.
  unfold fseek_set. rewrite Hs. cbn [mbind option_bind]. rewrite Hseek.
  destruct (Z.leb_spec 0 p) as [Hp | Hneg];
    [| pose proof (proj2 (lba_offset ata)); subst p; lia].
  cbn [andb mbind option_bind Z.ltb Z.compare].
  assert (Hnn : fp (cur ata) <> NULL) by (eapply stream_not_null; exact Hs).
  unfold ata_read_buf. rewrite Hfp2. unfold fread1.
  rewrite stream_insert by exact Hnn. cbn [mbind option_bind].
  cbn [f_pos f_bytes set_pos]. change (Z.to_nat SECTOR_SIZE) with 512%nat.
  fold got.
  assert (Hst0 : status (cur a2) =
                 Z.lor (clear8 (status (cur ata)) ATA_STATUS_ERR)
                       (Z.lor ATA_STATUS_DRQ ATA_STATUS_RDY))
    by (rewrite C2, C1, C0; reflexivity).
  assert (He2 : error (cur a2) = 0) by (rewrite C2, C1, C0; reflexivity).
  assert (Hb2 : bytes_to_rw (cur a2) = bytes_to_rw (cur ata))
    by (rewrite C2, C1, C0; reflexivity).
  assert (Hc2 : sectcount (cur a2) =
                (if sectcount (cur ata) =? 0 then 256 else sectcount (cur ata)))
    by (rewrite C2, C1; reflexivity).
  assert (Hbuf2 : length (buf (cur a2)) = 512%nat)
    by (rewrite C2, C1, C0; exact Hbuf).
  destruct (decide (length got = 512%nat)) as [Hfull | Hshort].
  - rewrite Hfull. change (Z.of_nat 512 =? SECTOR_SIZE) with true.
    change (1 =? 1) with true. cbn [negb].
    eexists. split; [reflexivity |].
    split; [subst a2; exact D1 |].
    rewrite !cur_on_cur.
    split; [exact Hfp2 |]. split; [exact Hc2 |].
    split; [apply lba_of_cur; rewrite !cur_on_cur, C2, C1, C0; reflexivity |].
    split; [| intros Hn; contradiction].
    intros _. cbn [buf bytes_to_rw error status set_buf set_bytes_to_rw].
    split.
    { unfold splice. rewrite Hfull, drop_ge by (rewrite Hbuf2; apply Nat.le_refl).
      cbn [take app]. apply app_nil_r. }
    split; [reflexivity |]. split; [exact He2 | exact Hst0].
  - assert (Hlt : (length got < 512)%nat).
    { subst got. pose proof (length_take_le (drop (Z.to_nat p) (f_bytes f)) 512).
      rewrite length_take in *. lia. }
    destruct (Z.eqb_spec (Z.of_nat (length got)) SECTOR_SIZE) as [He | _];
      [unfold SECTOR_SIZE in He; lia |].
    change (0 =? 1) with false. cbn [negb].
    eexists. split; [reflexivity |].
    split; [subst a2; exact D1 |].
    unfold ata_err. rewrite !cur_on_cur.
    split; [exact Hfp2 |]. split; [exact Hc2 |].
    split; [apply lba_of_cur; rewrite !cur_on_cur, C2, C1, C0; reflexivity |].
    split; [intros Hn; contradiction |].
    intros _. cbn [bytes_to_rw error status set_buf set_status set_error].
    split; [exact Hb2 |].
    split; [rewrite He2; reflexivity |].
    rewrite Hst0. reflexivity.
Qed.

(** A read of the whole sector buffer through the data register. *)
Lemma data_read_sector fs ata f dst :
  bytes_to_rw (cur ata) = SECTOR_SIZE ->
  length (buf (cur ata)) = 512%nat ->
  stream fs (fp (cur ata)) = Some f ->
  exists ata' fs',
    ata_data_mmio_handler fs ata 0 dst SECTOR_SIZE MMU_READ
      = Some (true, ata', fs', store_bytes dst (buf (cur ata))).
Proof.
  intros Hrw Hbuf Hs. rewrite data_at_zero. cbn [is_write]. unfold data_read.
  rewrite Hrw. change (SECTOR_SIZE =? 0) with false. cbn [negb].
  unfold buf_window. rewrite Hrw. change (SECTOR_SIZE - SECTOR_SIZE) with 0.
  change ((0 <=? 0) && (0 + SECTOR_SIZE <=? SECTOR_SIZE)) with true.
  cbn [mbind option_bind]. change (Z.to_nat 0) with 0%nat.
  change (Z.to_nat SECTOR_SIZE) with 512%nat.
  rewrite drop_0, (take_ge (buf (cur ata))) by lia.
  rewrite !cur_on_cur.
  cbn [bytes_to_rw sectcount status set_bytes_to_rw set_status set_sectcount].
  rewrite Hrw. change (wrap16 (SECTOR_SIZE - SECTOR_SIZE)) with 0.
  change (0 =? 0) with true. cbv iota.
  destruct (negb (wrap16 (sectcount (cur ata) - 1) =? 0)); [| eauto].
  unfold ata_read_buf, fread1. rewrite !cur_on_cur.
  cbn [fp set_bytes_to_rw set_status set_sectcount]. rewrite Hs.
  cbn [mbind option_bind].
  match goal with |- context [negb (?c =? 1)] => destruct (negb (c =? 1)) end;
    cbn [negb]; eauto.
Qed.

(** X24.  A sector written is the sector read back.  On a drive with a
    seekable, writable image and a sector count of 1: the command WRITE
    SECTORS, then 512 bytes written to the data register, then the command
    READ SECTORS, then 512 bytes read from the data register; every access
    is accepted and the read returns the bytes that were written. *)
Theorem sector_write_read_round_trip
    (fs : gmap Z FILE) (ata : ata_dev) (f : FILE) (data dst : list Z) :
  stream fs (fp (cur ata)) = Some f ->
  f_seekable f = true -> f_writable f = true ->
  sectcount (cur ata) = 1 ->
  length (buf (cur ata)) = 512%nat ->
  length data = 512%nat -> length dst = 512%nat ->
  exists a1 fs1 a2 fs2 a3 fs3 a4 fs4,
    ata_data_mmio_handler fs ata 28 [ATA_CMD_WRITE_SECTORS] 1 MMU_WRITE
      = Some (true, a1, fs1, [ATA_CMD_WRITE_SECTORS]) /\
    ata_data_mmio_handler fs1 a1 0 data SECTOR_SIZE MMU_WRITE
      = Some (true, a2, fs2, data) /\
    ata_data_mmio_handler fs2 a2 28 [ATA_CMD_READ_SECTORS] 1 MMU_WRITE
      = Some (true, a3, fs3, [ATA_CMD_READ_SECTORS]) /\
    ata_data_mmio_handler fs3 a3 0 dst SECTOR_SIZE MMU_READ
      = Some (true, a4, fs4, data).
Proof.
  intros Hs Hseek Hw Hcount Hbuf Hdata Hdst.
  assert (Hnn : fp (cur ata) <> NULL) by (eapply stream_not_null; exact Hs).
  assert (Hc0 : sectcount (cur ata) <> 0) by (rewrite Hcount; discriminate).
  destruct (cmd_write_ok fs ata f [] Hs Hseek Hc0)
    as (a1 & E1 & _ & F1 & B1 & C1 & R1 & L1).
  pose proof (lba_offset ata) as [_ Hp].
  set (p := ata_get_lba ata false * 512) in *.
  set (f1 := set_pos p f) in *.
  assert (Hs1 : stream (<[fp (cur ata) := f1]> fs) (fp (cur a1)) = Some f1)
    by (rewrite F1; apply stream_insert; exact Hnn).
  assert (Hbuf1 : length (buf (cur a1)) = 512%nat) by (rewrite B1; exact Hbuf).
  assert (Hcount1 : sectcount (cur a1) = 1) by (rewrite C1; exact Hcount).
  destruct (data_write_sector _ a1 f1 data R1 Hbuf1 Hdata Hcount1 Hs1 Hw)
    as (a2 & E2 & _ & F2 & B2 & _ & _ & _ & L2).
  rewrite F1 in E2, F2.
  match type of E2 with
  | _ = Some (_, _, <[_ := ?g]> _, _) => set (f2 := g) in *
  end.
  assert (Hs2 : stream (<[fp (cur ata) := f2]> (<[fp (cur ata) := f1]> fs))
                  (fp (cur a2)) = Some f2)
    by (rewrite F2; apply stream_insert; exact Hnn).
  assert (Hbuf2 : length (buf (cur a2)) = 512%nat) by (rewrite B2; exact Hdata).
  destruct (cmd_read _ a2 f2 [] Hs2 Hseek Hbuf2)
    as (a3 & E3 & _ & F3 & _ & _ & Hfull & _).
  rewrite L2, L1 in E3, Hfull. fold p in E3, Hfull. rewrite F2 in E3, F3.
  assert (Hgot : take 512 (drop (Z.to_nat p) (f_bytes f2)) = data).
  { subst f2 f1. cbn [f_bytes f_pos set_pos set_bytes].
    set (pre := take (Z.to_nat p)
                  (f_bytes f ++ replicate (Z.to_nat p - length (f_bytes f)) 0)).
    assert (Hpre : length pre = Z.to_nat p).
    { subst pre. rewrite length_take, length_app, length_replicate. lia. }
    rewrite <- Hpre at 1. rewrite drop_app_length.
    rewrite <- Hdata. apply take_app_length. }
  rewrite Hgot in E3, Hfull.
  destruct (Hfull Hdata) as (B3 & R3 & _).
  match type of E3 with
  | _ = Some (_, _, ?g, _) => set (fs3 := g) in *
  end.
  assert (Hs3 : exists f3, stream fs3 (fp (cur a3)) = Some f3).
  { eexists. rewrite F3. subst fs3. apply stream_insert. exact Hnn. }
  destruct Hs3 as [f3 Hs3].
  assert (Hbuf3 : length (buf (cur a3)) = 512%nat) by (rewrite B3; exact Hdata).
  destruct (data_read_sector fs3 a3 f3 dst R3 Hbuf3 Hs3) as (a4 & fs4 & E4).
  rewrite B3 in E4. unfold store_bytes in E4.
  rewrite drop_ge, app_nil_r in E4 by lia.
  do 8 eexists.
  split; [exact E1 |]. split; [exact E2 |]. split; [exact E3 | exact E4].
Qed.

Lemma sector_write_read_round_trip_witness :
  exists a1 fs1 a2 fs2 a3 fs3 a4 fs4,
    ata_data_mmio_handler rw_disk ata_one_sector 28 [ATA_CMD_WRITE_SECTORS] 1
        MMU_WRITE
      = Some (true, a1, fs1, [ATA_CMD_WRITE_SECTORS]) /\
    ata_data_mmio_handler fs1 a1 0 (replicate 512 0x5A) SECTOR_SIZE MMU_WRITE
      = Some (true, a2, fs2, replicate 512 0x5A) /\
    ata_data_mmio_handler fs2 a2 28 [ATA_CMD_READ_SECTORS] 1 MMU_WRITE
      = Some (true, a3, fs3, [ATA_CMD_READ_SECTORS]) /\
    ata_data_mmio_handler fs3 a3 0 (replicate 512 0) SECTOR_SIZE MMU_READ
      = Some (true, a4, fs4, replicate 512 0x5A).
Proof.
  apply (sector_write_read_round_trip rw_disk ata_one_sector rw_img
           (replicate 512 0x5A) (replicate 512 0));
    vm_compute; reflexivity.
Defined.

Lemma sector_length (l : list Z) (p : Z) :
  0 <= p ->
  (length (take 512 (drop (Z.to_nat p) l)) = 512%nat <->
   p + 512 <= Z.of_nat (length l)).
Proof. intros Hp. rewrite length_take, length_drop. lia. Qed.

(** X25.  READ SECTORS on a seekable image that holds the whole sector at
    the LBA: the 512 bytes at byte offset LBA * 512 of the image become
    the sector buffer, a full sector is ready to be transferred, the error
    register is 0, DRQ and RDY are set and ERR is clear; a sector count of
    0 is taken as 256. *)
Theorem read_sectors_loads
    (fs : gmap Z FILE) (ata : ata_dev) (f : FILE) (rest : list Z) :
  stream fs (fp (cur ata)) = Some f -> f_seekable f = true ->
  length (buf (cur ata)) = 512%nat ->
  ata_get_lba ata false * 512 + 512 <= Z.of_nat (length (f_bytes f)) ->
  exists ata' fs',
    ata_data_mmio_handler fs ata 28 (ATA_CMD_READ_SECTORS :: rest) 1 MMU_WRITE
      = Some (true, ata', fs', ATA_CMD_READ_SECTORS :: rest) /\
    buf (cur ata') =
      take 512 (drop (Z.to_nat (ata_get_lba ata false * 512)) (f_bytes f)) /\
    bytes_to_rw (cur ata') = SECTOR_SIZE /\
    sectcount (cur ata') =
      (if sectcount (cur ata) =? 0 then 256 else sectcount (cur ata)) /\
    error (cur ata') = 0 /\
    Z.testbit (status (cur ata')) 0 = false /\
    Z.testbit (status (cur ata')) 3 = true /\
    Z.testbit (status (cur ata')) 6 = true /\
    curdrive ata' = curdrive ata.
Proof.
  intros Hs Hseek Hbuf Hlen.
  destruct (cmd_read fs ata f rest Hs Hseek Hbuf)
    as (ata' & E & D & _ & C & _ & Hfull & _).
  pose proof (lba_offset ata) as [_ Hp].
  destruct (Hfull (proj2 (sector_length _ _ Hp) Hlen)) as (B & R & Er & St).
  exists ata'. eexists. split; [exact E |].
  split; [exact B |]. split; [exact R |]. split; [exact C |].
  split; [exact Er |]. rewrite St, !Z.lor_spec, clear8_err.
  repeat split; try reflexivity; try exact D.
  - change (Z.testbit (Z.lor ATA_STATUS_DRQ ATA_STATUS_RDY) 3) with true.
    apply orb_true_r.
  - change (Z.testbit (Z.lor ATA_STATUS_DRQ ATA_STATUS_RDY) 6) with true.
    apply orb_true_r.
Qed.

Lemma read_sectors_loads_witness :
  exists ata' fs',
    ata_data_mmio_handler rw_disk ata_one_sector 28 [ATA_CMD_READ_SECTORS] 1
        MMU_WRITE
      = Some (true, ata', fs', [ATA_CMD_READ_SECTORS]) /\
    buf (cur ata') = replicate 512 0x11 /\
    bytes_to_rw (cur ata') = SECTOR_SIZE /\
    sectcount (cur ata') = 1 /\
    error (cur ata') = 0.
Proof.
  destruct (read_sectors_loads rw_disk ata_one_sector rw_img [])
    as (ata' & fs' & E & B & R & C & Er & _);
    [vm_compute; reflexivity | reflexivity | vm_compute; reflexivity
    | vm_compute; discriminate |].
  exists ata', fs'. split; [exact E |]. split; [exact B |].
  split; [exact R |]. split; [exact C | exact Er].
Defined.

(** X26.  READ SECTORS for a sector the image does not hold in full (the
    image ends before byte LBA * 512 + 512): the access is still accepted,
    the command fails with UNC in the error register and ERR in the
    status, DRQ stays set, and no transfer is set up ([bytes_to_rw] keeps
    its value). *)
Theorem read_sectors_past_end
    (fs : gmap Z FILE) (ata : ata_dev) (f : FILE) (rest : list Z) :
  stream fs (fp (cur ata)) = Some f -> f_seekable f = true ->
  length (buf (cur ata)) = 512%nat ->
  Z.of_nat (length (f_bytes f)) < ata_get_lba ata false * 512 + 512 ->
  exists ata' fs',
    ata_data_mmio_handler fs ata 28 (ATA_CMD_READ_SECTORS :: rest) 1 MMU_WRITE
      = Some (true, ata', fs', ATA_CMD_READ_SECTORS :: rest) /\
    error (cur ata') = ATA_ERR_UNC /\
    Z.testbit (status (cur ata')) 0 = true /\
    Z.testbit (status (cur ata')) 3 = true /\
    bytes_to_rw (cur ata') = bytes_to_rw (cur ata) /\
    curdrive ata' = curdrive ata.
Proof.
  intros Hs Hseek Hbuf Hlen.
  destruct (cmd_read fs ata f rest Hs Hseek Hbuf)
    as (ata' & E & D & _ & _ & _ & _ & Hshort).
  pose proof (lba_offset ata) as [_ Hp].
  assert (Hne : length (take 512 (drop (Z.to_nat (ata_get_lba ata false * 512))
                                    (f_bytes f))) <> 512%nat).
  { intros Hfull. apply (sector_length _ _ Hp) in Hfull. lia. }
  destruct (Hshort Hne) as (R & Er & St).
  exists ata'. eexists. split; [exact E |].
  split; [exact Er |]. rewrite St, !Z.lor_spec.
  split; [apply orb_true_r |].
  split; [| split; [exact R | exact D]].
  change (Z.testbit (Z.lor ATA_STATUS_DRQ ATA_STATUS_RDY) 3) with true.
  rewrite orb_true_r. reflexivity.
Qed.

Lemma read_sectors_past_end_witness :
  exists ata' fs',
    ata_data_mmio_handler two_disks (on_cur (set_lbal 1) ata_master) 28
        [ATA_CMD_READ_SECTORS] 1 MMU_WRITE
      = Some (true, ata', fs', [ATA_CMD_READ_SECTORS]) /\
    error (cur ata') = ATA_ERR_UNC /\
    Z.testbit (status (cur ata')) 0 = true.
Proof.
  destruct (read_sectors_past_end two_disks (on_cur (set_lbal 1) ata_master)
              master_img [])
    as (ata' & fs' & E & Er & St & _);
    [vm_compute; reflexivity | reflexivity | vm_compute; reflexivity
    | vm_compute; reflexivity |].
  exists ata', fs'. split; [exact E |]. split; [exact Er | exact St].
Defined.

(** X27.  [ata_init] needs a usable master image.  With no master
    ([NULL], which the assertion allows when a slave is given), or with a
    master that is empty or cannot be sought, [drive[0].fp] is [NULL] when
    the size of the slave is computed from it, and [get_img_size] hands
    that [NULL] to [fseek]: the call has no defined result. *)
Theorem ata_init_needs_master
    (fs : gmap Z FILE) (vm : riscv32_vm_state_t)
    (ata_ptr data_base_addr ctl_base_addr master slave : Z) :
  master = NULL \/
  (exists m, stream fs master = Some m /\
             (f_seekable m = false \/ f_bytes m = [])) ->
  ata_init fs vm ata_ptr data_base_addr ctl_base_addr master slave = None.
Proof.
  intros Hm. unfold ata_init.
  destruct (decide (master <> NULL \/ slave <> NULL)) as [Hg | Hg];
    [rewrite (option_guard_True (master <> NULL \/ slave <> NULL)) by exact Hg
    | rewrite (option_guard_False (master <> NULL \/ slave <> NULL)) by exact Hg;
      reflexivity].
  destruct (decide (ata_ptr <> NULL)) as [Hp | Hp];
    [rewrite option_guard_True by exact Hp
    | rewrite (option_guard_False (ata_ptr <> NULL)) by exact Hp; reflexivity].
  cbn [mbind option_bind fp set_fp drive_zero].
  assert (Hnull : forall t, get_img_size t NULL = None) by reflexivity.
  destruct Hm as [-> | (m & Hs & Hbad)]; [rewrite Hnull; reflexivity |].
  assert (Hnn : master <> NULL) by (eapply stream_not_null; exact Hs).
  assert (H0 : exists fs', get_img_size fs master = Some (0, fs')).
  { unfold get_img_size, fseek_end. rewrite Hs. cbn [mbind option_bind].
    destruct (f_seekable m) eqn:Hseek.
    - destruct Hbad as [? | Hb]; [discriminate |].
      cbn [mbind option_bind]. unfold ftell.
      rewrite stream_insert by exact Hnn. cbn [mbind option_bind].
      cbn [f_seekable f_pos set_pos]. rewrite Hseek, Hb. cbn. eauto.
    - cbn [mbind option_bind]. unfold ftell. rewrite Hs.
      cbn [mbind option_bind]. rewrite Hseek. cbn. eauto. }
  destruct H0 as [fs' ->]. cbn [mbind option_bind].
  change (DIV_ROUND_UP 0 SECTOR_SIZE) with 0.
  cbn [size set_size fp set_fp]. change (0 =? 0) with true. cbv iota.
  cbn [fp set_fp]. now rewrite Hnull.
Qed.

Lemma ata_init_needs_master_witness :
  ata_init two_disks vm_zero 0x5000 0x40000000 0x40001000 NULL 0x20 = None.
Proof.
  apply ata_init_needs_master. left. reflexivity.
Defined.

End AtaPorts.
